(** * CryptoDataDownload: a shallow embedding of [tensortrade/data/cdd.py]

    The class [CryptoDataDownload] downloads price tables from two web
    services and reshapes them with pandas.  The embedding below follows
    the Python text method by method.  What the interpreter and the
    libraries do (strings, integers, binary64 division, data frames, the
    network) is modelled in the first half of the file; the four methods
    [fetch_default], [fetch_mofid], [fetch_gemini] and [fetch] come next;
    the properties of the specification are stated and proved last. *)

From Stdlib Require Import ZArith String Ascii List Lia.
From Stdlib Require Import Floats.SpecFloat.
From stdpp Require Import base strings gmap list sorting.

Open Scope Z_scope.

(** ** Exceptions and the two monads

    A Python call either returns a value or raises.  No method of the
    class contains a [try], so a raised exception always reaches the
    caller of the method. *)

Inductive exn : Type :=
| KeyError (key : string)
| IndexError
| TypeError
| ValueError
| OverflowError
| ZeroDivisionError
| OutOfBoundsDatetime
| OSError
| URLError (reason : string)
| ParserError (msg : string).

Inductive result (A : Type) : Type :=
| Ok (a : A)
| Raise (e : exn).
Arguments Ok {A} a.
Arguments Raise {A} e.

#[export] Instance result_ret : MRet result := fun A a => Ok a.
#[export] Instance result_bind : MBind result := fun A B k m =>
  match m with
  | Ok a => k a
  | Raise e => Raise e
  end.
#[export] Instance result_fmap : FMap result := fun A B f m =>
  match m with
  | Ok a => Ok (f a)
  | Raise e => Raise e
  end.

(** [mapM f l] runs [f] on the items of [l] from left to right and stops
    at the first exception. *)
Fixpoint result_mapM {A B : Type} (f : A -> result B) (l : list A) : result (list B) :=
  match l with
  | [] => Ok []
  | a :: l' => b ← f a; bs ← result_mapM f l'; Ok (b :: bs)
  end.

(** Code that talks to the network also records, in order, the locators
    it has requested. *)
Definition io (A : Type) : Type := list string -> result A * list string.

#[export] Instance io_ret : MRet io := fun A a tr => (Ok a, tr).
#[export] Instance io_bind : MBind io := fun A B k m tr =>
  match m tr with
  | (Ok a, tr') => k a tr'
  | (Raise e, tr') => (Raise e, tr')
  end.

Definition lift {A : Type} (r : result A) : io A := fun tr => (r, tr).

(** ** Python values *)

(** Values that occur in a decoded JSON document or in a cell of a data
    frame.  A float is an IEEE 754 binary64 number, a datetime is naive
    and held as the number of seconds between 1970-01-01T00:00:00 and its
    calendar reading. *)
#[warning="-register-all"]
Inductive pyval : Type :=
| PInt (z : Z)
| PFloat (f : spec_float)
| PStr (s : string)
| PBool (b : bool)
| PNone
| PList (items : list pyval)
| PDict (members : list (string * pyval))
| PDatetime (secs : Z).

(** *** Strings *)

(** [str.lower].  A string of the model is a sequence of bytes, and the
    letters A to Z are the bytes with a lower-case form: on ASCII text this
    is [str.lower], on other text Python lower-cases more.  The statements
    below that name a lower-cased label other than a fixed ASCII word
    assume ASCII labels ([ascii_label]). *)
Definition ascii_lower (c : ascii) : ascii :=
  let n := N_of_ascii c in
  if ((65 <=? n) && (n <=? 90))%N then ascii_of_N (n + 32) else c.

Fixpoint lower (s : string) : string :=
  match s with
  | EmptyString => EmptyString
  | String c s' => String (ascii_lower c) (lower s')
  end.

(** [s.endswith(suffix)] *)
Definition endswith (s suffix : string) : bool :=
  bool_decide (list_ascii_of_string suffix `suffix_of` list_ascii_of_string s).

(** [s[:-1]] *)
Definition drop_last (s : string) : string :=
  let l := list_ascii_of_string s in
  string_of_list_ascii (take (length l - 1)%nat l).

(** [str(x)] for an integer [x]: its decimal digits, after a minus sign
    when [x] is negative.  The fuel of [digits_of] is the number of binary
    digits of [x], which is never less than the number of decimal ones. *)
Definition digit_char (d : Z) : ascii := ascii_of_N (48 + Z.to_N d).

Fixpoint digits_of (fuel : nat) (n : Z) (acc : string) : string :=
  let acc' := String (digit_char (n mod 10)) acc in
  match fuel with
  | O => acc'
  | S fuel' => if n <? 10 then acc' else digits_of fuel' (n / 10) acc'
  end.

Definition str_nonneg (n : Z) : string :=
  digits_of (Z.to_nat (Z.log2 n)) n EmptyString.

Definition str_int (x : Z) : string :=
  if x <? 0 then String "-" (str_nonneg (- x)) else str_nonneg x.

(** [int(s)] for a string: blanks, an optional sign, decimal digits that
    single underscores may separate, blanks.  Blanks and digits outside
    ASCII, which Python reads too, and its limit on the number of digits
    are not modelled. *)
Definition is_blank (c : ascii) : bool :=
  let n := N_of_ascii c in
  ((9 <=? n) && (n <=? 13) || (28 <=? n) && (n <=? 32))%N.

Fixpoint skip_blanks (s : string) : string :=
  match s with
  | EmptyString => s
  | String c s' => if is_blank c then skip_blanks s' else s
  end.

Fixpoint all_blank (s : string) : bool :=
  match s with
  | EmptyString => true
  | String c s' => is_blank c && all_blank s'
  end.

(** What came before in the numeral: nothing, a digit, an underscore. *)
Inductive numeral_state : Type := AtStart | AfterDigit | AfterUnderscore.

Fixpoint digits_value (s : string) (acc : Z) (st : numeral_state) : option Z :=
  match s with
  | EmptyString => match st with AfterDigit => Some acc | _ => None end
  | String c s' =>
      let n := Z.of_N (N_of_ascii c) in
      if (48 <=? n) && (n <=? 57) then digits_value s' (10 * acc + (n - 48)) AfterDigit
      else match st with
           | AfterDigit =>
               if Ascii.eqb c "_"%char then digits_value s' acc AfterUnderscore
               else if all_blank s then Some acc else None
           | _ => None
           end
  end.

Definition int_of_str (s : string) : result Z :=
  let r :=
    match skip_blanks s with
    | String "-" t => Z.opp <$> digits_value t 0 AtStart
    | String "+" t => digits_value t 0 AtStart
    | t => digits_value t 0 AtStart
    end in
  match r with
  | Some z => Ok z
  | None => Raise ValueError
  end.

(** *** Numbers *)

(** binary64 *)
Definition prec : Z := 53.
Definition emax : Z := 1024.

(** The float nearest to an integer. *)
Definition float_of_int (x : Z) : spec_float := binary_normalize prec emax x 0 false.

(** [a / b] on integers is true division: the binary64 number nearest to
    the quotient.  CPython rounds the exact quotient once; dividing the
    two converted operands does the same whenever both are below [2^53],
    the only use made of it here ([a] has at most 13 characters and [b] is
    [1000]). *)
Definition truediv (a b : Z) : result spec_float :=
  if b =? 0 then Raise ZeroDivisionError
  else Ok (SFdiv prec emax (float_of_int a) (float_of_int b)).

(** [int(f)] for a float: truncation toward zero. *)
Definition int_of_float (f : spec_float) : result Z :=
  match f with
  | S754_zero _ => Ok 0
  | S754_infinity _ => Raise OverflowError
  | S754_nan => Raise ValueError
  | S754_finite s m e =>
      Ok (cond_Zopp s (if 0 <=? e then Zpos m * 2 ^ e else Zpos m / 2 ^ (- e)))
  end.

(** [int(v)] *)
Definition py_int (v : pyval) : result Z :=
  match v with
  | PInt z => Ok z
  | PFloat f => int_of_float f
  | PStr s => int_of_str s
  | PBool b => Ok (if b then 1 else 0)
  | PNone | PList _ | PDict _ | PDatetime _ => Raise TypeError
  end.

(** *** Containers *)

(** A dictionary with string keys, as [json.loads] and a dict display
    build it: of two bindings of one key the later one counts. *)
Fixpoint dict_get (members : list (string * pyval)) (key : string) : option pyval :=
  match members with
  | [] => None
  | (k, v) :: rest =>
      match dict_get rest key with
      | Some v' => Some v'
      | None => if String.eqb k key then Some v else None
      end
  end.

(** [v[key]] for a string key *)
Definition getitem_key (v : pyval) (key : string) : result pyval :=
  match v with
  | PDict members =>
      match dict_get members key with
      | Some x => Ok x
      | None => Raise (KeyError key)
      end
  | _ => Raise TypeError
  end.

(** [v[i]] for an index [i] produced by [range] *)
Definition getitem_index (v : pyval) (i : nat) : result pyval :=
  match v with
  | PList items =>
      match items !! i with
      | Some x => Ok x
      | None => Raise IndexError
      end
  | PStr s =>
      match String.get i s with
      | Some c => Ok (PStr (String c EmptyString))
      | None => Raise IndexError
      end
  | PDict _ => Raise (KeyError (str_int (Z.of_nat i)))
  | _ => Raise TypeError
  end.

(** [len(v)] *)
Definition py_len (v : pyval) : result nat :=
  match v with
  | PList items => Ok (length items)
  | PStr s => Ok (String.length s)
  | PDict members => Ok (length (remove_dups members.*1))
  | _ => Raise TypeError
  end.

(** *** Dates *)

(** [datetime(year, month, day, hour, minute)] *)
Record datetime : Type := mk_datetime {
  dt_year : Z; dt_month : Z; dt_day : Z; dt_hour : Z; dt_minute : Z
}.

(** Days from 1970-01-01 to a date of the proleptic Gregorian calendar. *)
Definition days_from_civil (y m d : Z) : Z :=
  let y' := if m <=? 2 then y - 1 else y in
  let era := y' / 400 in
  let yoe := y' - era * 400 in
  let doy := (153 * (if 2 <? m then m - 3 else m + 9) + 2) / 5 + d - 1 in
  let doe := yoe * 365 + yoe / 4 - yoe / 100 + doy in
  era * 146097 + doe - 719468.

Definition naive_seconds (dt : datetime) : Z :=
  days_from_civil (dt_year dt) (dt_month dt) (dt_day dt) * 86400
  + dt_hour dt * 3600 + dt_minute dt * 60.

(** ** pandas *)

(** A column is a list of cells.  A frame has an index, which may carry a
    name, and labelled columns in order; labels may repeat. *)
Definition Series : Type := list pyval.

Record DataFrame : Type := mk_df {
  df_index_name : option string;
  df_index : Series;
  df_columns : list (string * Series)
}.

Definition labels (df : DataFrame) : list string := (df_columns df).*1.

Definition nan : pyval := PFloat S754_nan.

(** [RangeIndex(n)] *)
Definition range_index (n : nat) : Series := (fun i => PInt (Z.of_nat i)) <$> seq 0 n.

(** [pd.DataFrame([], columns=names)] *)
Definition df_empty (names : list string) : DataFrame :=
  mk_df None [] ((fun l => (l, [])) <$> names).

(** [df[::-1]] *)
Definition df_reverse (df : DataFrame) : DataFrame :=
  mk_df (df_index_name df) (reverse (df_index df))
        (prod_map id reverse <$> df_columns df).

(** [df.drop(ls, axis=1)]: every label must name a column; all columns
    carrying one of the labels go. *)
Definition df_drop (ls : list string) (df : DataFrame) : result DataFrame :=
  match filter (fun l => l ∉ labels df) ls with
  | [] => Ok (mk_df (df_index_name df) (df_index df)
                    (filter (fun c => c.1 ∉ ls) (df_columns df)))
  | l :: _ => Raise (KeyError l)
  end.

(** [df.rename(mapping, axis=1)]: labels outside the mapping stay. *)
Definition df_rename (mapping : gmap string string) (df : DataFrame) : DataFrame :=
  mk_df (df_index_name df) (df_index df)
        (prod_map (fun l => default l (mapping !! l)) id <$> df_columns df).

(** [df[label]] for a label that one column carries.  When several
    columns carry the label pandas hands back a frame instead of a series,
    and what the class then does with it is not modelled: the last case
    raises, where pandas in places goes on (an index built from two columns
    is an index of pairs).  The reader never gives two columns one name; a
    repeated label can only come from the renaming or the lower-casing, and
    the statements below that depend on this case exclude it. *)
Definition df_getitem (label : string) (df : DataFrame) : result Series :=
  match filter (fun c => c.1 = label) (df_columns df) with
  | [] => Raise (KeyError label)
  | [c] => Ok c.2
  | _ => Raise ValueError
  end.

(** [df[label] = s] for a series [s] on the index of [df]: an existing
    column is replaced where it stands, a new one goes last. *)
Definition df_setitem (label : string) (s : Series) (df : DataFrame) : DataFrame :=
  mk_df (df_index_name df) (df_index df)
        (if decide (label ∈ labels df)
         then (fun c => if decide (c.1 = label) then (label, s) else c) <$> df_columns df
         else df_columns df ++ [(label, s)]).

(** [s.astype(int)] on a column of dtype int64, where it changes nothing,
    and more generally [int] cell by cell.  Columns of other dtypes are not
    followed: pandas wraps a uint64 column around, for one.  The statements
    below on the values of [unix] assume cells that are integers of 64 bits
    ([int64_cell]). *)
Definition astype_int (s : Series) : result Series :=
  result_mapM (fun v => PInt <$> py_int v) s.

(** [s.apply(f)] on a series of integers *)
Definition series_apply (f : Z -> result Z) (s : Series) : result Series :=
  result_mapM (fun v => match v with
                        | PInt x => PInt <$> f x
                        | _ => Raise TypeError
                        end) s.

(** [pd.to_datetime(s, unit="s")] on a series of integers: a timestamp
    counts nanoseconds in 64 bits, so the seconds must lie within
    [-9223372036, 9223372036].  The least integer of 64 bits stands for a
    missing value in pandas, which does not raise on it; it is not among
    the [int64_cell]s. *)
Definition to_datetime_s (s : Series) : result Series :=
  result_mapM (fun v => match v with
                        | PInt x =>
                            if (-9223372036 <=? x) && (x <=? 9223372036)
                            then Ok (PDatetime x)
                            else Raise OutOfBoundsDatetime
                        | _ => Raise TypeError
                        end) s.

(** [df.set_index(label)] for a label that one column carries: the
    column becomes the index.  With several columns of the label pandas
    builds an index of pairs and goes on; that case raises here, as in
    [df_getitem], and the statements that depend on it exclude it. *)
Definition df_set_index (label : string) (df : DataFrame) : result DataFrame :=
  s ← df_getitem label df;
  Ok (mk_df (Some label) s (filter (fun c => c.1 ≠ label) (df_columns df))).

(** [df.columns = [f(name) for name in df.columns]] *)
Definition df_map_columns (f : string -> string) (df : DataFrame) : DataFrame :=
  mk_df (df_index_name df) (df_index df) (prod_map f id <$> df_columns df).

(** [df.reset_index()]: the index becomes the first column, under its
    name, and must not clash with a column. *)
Definition df_reset_index (df : DataFrame) : result DataFrame :=
  let name :=
    match df_index_name df with
    | Some n => n
    | None => if decide ("index" ∈ labels df) then "level_0" else "index"
    end in
  if decide (name ∈ labels df) then Raise ValueError
  else Ok (mk_df None (range_index (length (df_index df)))
                 ((name, df_index df) :: df_columns df)).

(** [df.append(row, ignore_index=True)] for a dict [row] (pandas before
    2.0): one more cell in every column, by label; a key that names no
    column opens one. *)
Definition df_append (row : list (string * pyval)) (df : DataFrame) : DataFrame :=
  let n := length (df_index df) in
  let keys := reverse (remove_dups (reverse row.*1)) in
  mk_df None (range_index (S n))
        (((fun c => (c.1, c.2 ++ [default nan (dict_get row c.1)])) <$> df_columns df)
         ++ ((fun k => (k, replicate n nan ++ [default nan (dict_get row k)]))
               <$> filter (fun k => k ∉ labels df) keys)).

(** ** The outside world *)

(** The local time zone of the interpreter, as far as the class asks.
    [mktime dt] is the instant, in seconds since the epoch, that the C
    library takes the naive datetime [dt] of local time for.
    [local_time t] is what [datetime.fromtimestamp(t)] makes of the instant
    [t]: the seconds from 1970-01-01T00:00:00 to its reading on the local
    calendar, at the offset the zone has at that instant, or the exception
    raised when the interpreter or the platform cannot read [t]. *)
Record Zone : Type := mk_zone {
  mktime : datetime -> Z;
  local_time : Z -> result Z
}.

(** What a run depends on: the body behind each locator (its lines, or
    the exception of the transport), what the pandas reader and the JSON
    decoder make of a body, and the local time zone. *)
Record World : Type := mk_world {
  http_body : string -> result (list string);
  parse_csv : list string -> result (list (string * Series));
  parse_json : list string -> result pyval;
  zone : Zone
}.

(** [urllib.request.urlopen(url).read().decode('utf-8')] *)
Definition urlopen (w : World) (url : string) : io (list string) :=
  fun tr => (http_body w url, tr ++ [url]).

(** [pd.read_csv(url, skiprows=k)]: the reader never sees the first [k]
    lines. *)
Definition read_csv (w : World) (url : string) (skiprows : nat) : io DataFrame :=
  body ← urlopen w url;
  lift (cols ← parse_csv w (drop skiprows body);
        Ok (mk_df None (range_index (length (default [] (snd <$> head cols)))) cols)).

(** [json.loads(text)] *)
Definition json_loads (w : World) (text : list string) : result pyval := parse_json w text.

(** [dt.strftime('%s')] (glibc): the seconds since the epoch of the
    local datetime [dt]. *)
Definition strftime_s (w : World) (dt : datetime) : string :=
  str_int (mktime (zone w) dt).

(** [datetime.fromtimestamp(t)]: the local reading of the instant. *)
Definition fromtimestamp (w : World) (t : Z) : result pyval :=
  PDatetime <$> local_time (zone w) t.

(** ** The class *)

Record CryptoDataDownload : Type := mk_cdd { url : string }.

(** [__init__] *)
Definition init : CryptoDataDownload :=
  mk_cdd "https://www.cryptodatadownload.com/cdd/".

(** [lambda x: int(x / 1000) if len(str(x)) == 13 else x] *)
Definition unix_lambda (x : Z) : result Z :=
  if (String.length (str_int x) =? 13)%nat
  then q ← truediv x 1000; int_of_float q
  else Ok x.

Definition fetch_default (w : World) (self : CryptoDataDownload)
    (exchange_name base_symbol quote_symbol timeframe : string)
    (include_all_volumes : bool) : io DataFrame :=
  let filename :=
    exchange_name +:+ "_" +:+ quote_symbol +:+ base_symbol +:+ "_" +:+ timeframe +:+ ".csv" in
  let base_vc := "Volume " +:+ base_symbol in
  let new_base_vc := "volume_base" in
  let quote_vc := "Volume " +:+ quote_symbol in
  let new_quote_vc := "volume_quote" in
  df ← read_csv w (url self +:+ filename) 1;
  lift (
    let df := df_reverse df in
    df ← df_drop ["symbol"] df;
    let df := df_rename (<["Date" := "date"]> (<[quote_vc := new_quote_vc]>
                           (<[base_vc := new_base_vc]> ∅))) df in
    u ← df_getitem "unix" df; u ← astype_int u;
    let df := df_setitem "unix" u df in
    u ← df_getitem "unix" df; u ← series_apply unix_lambda u;
    let df := df_setitem "unix" u df in
    u ← df_getitem "unix" df; d ← to_datetime_s u;
    let df := df_setitem "date" d df in
    df ← df_set_index "date" df;
    let df := df_map_columns lower df in
    df ← df_reset_index df;
    if negb include_all_volumes then
      df ← df_drop [new_quote_vc] df;
      let df := df_rename {[ new_base_vc := "volume" ]} df in
      Ok df
    else Ok df).

(** [for i in range(size): acc = body(acc, i)] *)
Fixpoint for_range {A : Type} (body : A -> nat -> result A) (acc : A) (start count : nat)
    : result A :=
  match count with
  | O => Ok acc
  | S count' => acc' ← body acc start; for_range body acc' (S start) count'
  end.

(** The body of the loop of [fetch_mofid]: the row of index [i] of the
    decoded response, appended to [df]. *)
Definition mofid_row (w : World) (base_vc : string) (json_content : pyval)
    (df : DataFrame) (i : nat) : result DataFrame :=
  t ← getitem_key json_content "t"; ti ← getitem_index t i;
  ts ← py_int ti; date ← fromtimestamp w ts;
  o ← getitem_key json_content "o"; oi ← getitem_index o i;
  h ← getitem_key json_content "h"; hi ← getitem_index h i;
  l ← getitem_key json_content "l"; li ← getitem_index l i;
  c ← getitem_key json_content "c"; ci ← getitem_index c i;
  v ← getitem_key json_content "v"; vi ← getitem_index v i;
  v' ← getitem_key json_content "v"; vi' ← getitem_index v' i;
  Ok (df_append [("date", date); ("open", oi); ("high", hi); ("low", li);
                 ("close", ci); (base_vc, vi); ("volume", vi')] df).

(** The rows of [fetch_mofid]: the empty frame and the loop that fills it,
    one row for each entry of the ["t"] array of the response. *)
Definition mofid_rows (w : World) (base_vc : string) (json_content : pyval)
    : result DataFrame :=
  let df := df_empty ["date"; "open"; "high"; "low"; "close"; base_vc; "volume"] in
  t ← getitem_key json_content "t";
  size ← py_len t;
  for_range (mofid_row w base_vc json_content) df 0 size.

Definition fetch_mofid (w : World) (self : CryptoDataDownload)
    (base_symbol quote_symbol timeframe : string) : io DataFrame :=
  let base_vc := "Volume " +:+ base_symbol in
  let new_base_vc := "volume_base" in
  let quote_vc := "Volume " +:+ quote_symbol in
  let new_quote_vc := "volume_quote" in
  let timeframe := "1" in
  let startEpoch := strftime_s w (mk_datetime 2022 8 24 0 0) in
  let endEpoch := strftime_s w (mk_datetime 2022 8 24 23 59) in
  let url :=
    "https://rlcchartapi.mofidonline.com/ChartData/history?symbol=" +:+ base_symbol
    +:+ "&resolution=" +:+ timeframe +:+ "&from=" +:+ startEpoch +:+ "&to=" +:+ endEpoch in
  rawContent ← urlopen w url;
  lift (
    json_content ← json_loads w rawContent;
    df ← mofid_rows w base_vc json_content;
    let df := df_rename (<["Date" := "date"]> (<[quote_vc := new_quote_vc]>
                           (<[base_vc := new_base_vc]> ∅))) df in
    u ← df_getitem "unix" df; u ← astype_int u;
    let df := df_setitem "unix" u df in
    u ← df_getitem "unix" df; u ← series_apply unix_lambda u;
    let df := df_setitem "unix" u df in
    u ← df_getitem "unix" df; d ← to_datetime_s u;
    let df := df_setitem "date" d df in
    df ← df_set_index "date" df;
    let df := df_map_columns lower df in
    df ← df_reset_index df;
    Ok df).

Definition fetch_gemini (w : World) (self : CryptoDataDownload)
    (base_symbol quote_symbol timeframe : string) : io DataFrame :=
  let timeframe :=
    if endswith timeframe "h" then drop_last timeframe +:+ "hr" else timeframe in
  let filename :=
    "gemini" +:+ "_" +:+ quote_symbol +:+ base_symbol +:+ "_" +:+ timeframe +:+ ".csv" in
  df ← read_csv w (url self +:+ filename) 1;
  lift (
    let df := df_reverse df in
    df ← df_drop ["Symbol"; "Unix Timestamp"] df;
    let df := df_map_columns lower df in
    df ← df_set_index "date" df;
    df ← df_reset_index df;
    Ok df).

Definition fetch (w : World) (self : CryptoDataDownload)
    (exchange_name base_symbol quote_symbol timeframe : string)
    (include_all_volumes : bool) : io DataFrame :=
  if String.eqb (lower exchange_name) "gemini" then
    fetch_gemini w self base_symbol quote_symbol timeframe
  else if String.eqb (lower exchange_name) "mofid" then
    fetch_mofid w self base_symbol quote_symbol timeframe
  else
    fetch_default w self exchange_name base_symbol quote_symbol timeframe
                  include_all_volumes.

(** ** Vocabulary of the specification *)

(** The number of decimal digits of an integer, its sign apart. *)
Definition decimal_digits (x : Z) : nat := String.length (str_nonneg (Z.abs x)).

(** The normalization of a [unix] value in the words of the
    specification: thirteen digits mean milliseconds. *)
Definition normalize_by_digits (x : Z) : Z :=
  if (decimal_digits x =? 13)%nat then x / 1000 else x.

(** What rounding can do to a mantissa [m] at exponent [e]: keep it, add
    one, or, when adding one overflows 53 bits, halve and move up. *)
Definition rounded (m e : Z) (m' : positive) (e' : Z) : Prop :=
  ((Zpos m' = m \/ Zpos m' = m + 1) /\ e' = e)
  \/ (m + 1 = 2 ^ 53 /\ Zpos m' = 2 ^ 52 /\ e' = e + 1).

(** What [unix_lambda] computes, in integer arithmetic: the length test
    is on the rendering of [x], minus sign included, and [int] truncates
    toward zero. *)
Definition normalize_unix (x : Z) : Z :=
  if (String.length (str_int x) =? 13)%nat then Z.quot x 1000 else x.

(** ** Closed forms of the reshaping *)

(** The dictionary passed to the first [rename]. *)
Definition default_rename (base_symbol quote_symbol : string) : gmap string string :=
  <["Date" := "date"]> (<["Volume " +:+ quote_symbol := "volume_quote"]>
    (<["Volume " +:+ base_symbol := "volume_base"]> ∅)).

(** A label after the first [rename]. *)
Definition renamed (base_symbol quote_symbol l : string) : string :=
  default l (default_rename base_symbol quote_symbol !! l).

(** A label after the last [rename]. *)
Definition volume_renamed (l : string) : string :=
  default l (({[ "volume_base" := "volume" ]} : gmap string string) !! l).

(** Every column labelled [label] becomes [s]. *)
Definition set_column (label : string) (s : Series) (cols : list (string * Series))
    : list (string * Series) :=
  (fun c => if decide (c.1 = label) then (label, s) else c) <$> cols.

(** The columns [fetch_default] returns when it returns, from the columns
    [cols] read, the normalized [unix] column [u] and the timestamps [d]
    made from it. *)
Definition default_columns (base_symbol quote_symbol : string) (include_all_volumes : bool)
    (cols : list (string * Series)) (u d : Series) : list (string * Series) :=
  let kept := filter (fun c => c.1 ∉ ["symbol"]) (prod_map id reverse <$> cols) in
  let named := prod_map (renamed base_symbol quote_symbol) id <$> kept in
  let body := filter (fun c => c.1 ≠ "date") (set_column "unix" u named) in
  let all := ("date", d) :: (prod_map lower id <$> body) in
  if include_all_volumes then all
  else prod_map volume_renamed id <$> filter (fun c => c.1 ∉ ["volume_quote"]) all.

(** The locator of the default routine. *)
Definition default_url (self : CryptoDataDownload)
    (exchange_name base_symbol quote_symbol timeframe : string) : string :=
  url self +:+ exchange_name +:+ "_" +:+ quote_symbol +:+ base_symbol +:+ "_"
  +:+ timeframe +:+ ".csv".

(** A timestamp in seconds that [pd.to_datetime] accepts. *)
Definition datetime_ok (x : Z) : Prop := -9223372036 <= x <= 9223372036.

(** The labels after the first [rename], from the labels read. *)
Definition named_labels (base_symbol quote_symbol : string) (header : list string)
    : list string :=
  renamed base_symbol quote_symbol <$> filter (fun l => l ∉ ["symbol"]) header.

(** The labels [fetch_default] returns when it returns. *)
Definition default_labels (base_symbol quote_symbol : string) (include_all_volumes : bool)
    (header : list string) : list string :=
  let all :=
    "date" :: (lower <$> filter (fun l => l ≠ "date")
                           (named_labels base_symbol quote_symbol header)) in
  if include_all_volumes then all
  else volume_renamed <$> filter (fun l => l ∉ ["volume_quote"]) all.

(** How many columns carry a label. *)
Definition count_label (l : string) (ls : list string) : nat :=
  length (filter (fun x => x = l) ls).

(** The header the provider's files have for a pair: one column
    ["Volume <base>"], one column ["Volume <quote>"], and no other column
    whose lower-cased name is a volume name of the output. *)
Definition provider_layout (base_symbol quote_symbol : string) (header : list string)
    : Prop :=
  base_symbol ≠ quote_symbol
  /\ count_label ("Volume " +:+ base_symbol) header = 1%nat
  /\ count_label ("Volume " +:+ quote_symbol) header = 1%nat
  /\ forall l, l ∈ header ->
       l ≠ "Volume " +:+ base_symbol -> l ≠ "Volume " +:+ quote_symbol ->
       lower l ∉ ["volume"; "volume_base"; "volume_quote"].

(** ** A file of the provider, row by row *)

(** One data row under the header
    [unix,date,symbol,open,high,low,close,Volume <quote>,Volume <base>]
    (the file of a pair is named quote first, and so are its volumes). *)
Record csv_row : Type := mk_row {
  row_unix : Z;
  row_date : pyval;
  row_symbol : pyval;
  row_open : pyval;
  row_high : pyval;
  row_low : pyval;
  row_close : pyval;
  row_volume_quote : pyval;
  row_volume_base : pyval
}.

Definition provider_header (base_symbol quote_symbol : string) : list string :=
  ["unix"; "date"; "symbol"; "open"; "high"; "low"; "close";
   "Volume " +:+ quote_symbol; "Volume " +:+ base_symbol].

(** What the reader makes of such a file. *)
Definition provider_table (base_symbol quote_symbol : string) (rows : list csv_row)
    : list (string * Series) :=
  [ ("unix", (fun r => PInt (row_unix r)) <$> rows);
    ("date", row_date <$> rows);
    ("symbol", row_symbol <$> rows);
    ("open", row_open <$> rows);
    ("high", row_high <$> rows);
    ("low", row_low <$> rows);
    ("close", row_close <$> rows);
    ("Volume " +:+ quote_symbol, row_volume_quote <$> rows);
    ("Volume " +:+ base_symbol, row_volume_base <$> rows) ].

(** The last millisecond whose second [pd.to_datetime] accepts. *)
Definition last_millisecond : Z := 9223372036999.

(** ** Sample worlds *)

(** The frame of a run that returned. *)
Definition frame_of (r : result DataFrame * list string) : DataFrame :=
  match r.1 with
  | Ok df => df
  | Raise _ => df_empty []
  end.

(** A zone that keeps one offset from UTC all year, as the interpreter
    reads it on Linux with a time of 64 bits: an instant is read when its
    local reading, and that of the same time the day before, fall in the
    years 1 to 9999; outside, [ValueError], or [OSError] where the C
    library gives up, or [OverflowError] past 64 bits. *)
Definition fixed_zone (offset : Z) : Zone :=
  mk_zone
    (fun dt => naive_seconds dt - offset)
    (fun t =>
       let local := t + offset in
       if negb ((- 2 ^ 63 <=? t) && (t <? 2 ^ 63)) then Raise OverflowError
       else if negb ((-67768040609740800 <=? local) && (local <=? 67767976233532799))
       then Raise OSError
       else if (-62135510400 <=? local) && (local <=? 253402300799) then Ok local
       else Raise ValueError).

(** A world that serves the lines [lines] at every locator, and whose
    reader turns these lines, banner apart, into the columns [cols]. *)
Definition file_world (lines : list string) (cols : list (string * Series)) : World :=
  mk_world (fun _ => Ok lines)
           (fun ls => if decide (ls = drop 1 lines) then Ok cols
                      else Raise (ParserError "unexpected input"))
           (fun _ => Raise ValueError)
           (fixed_zone 0).

(** A file of the provider for BTC/USD: banner, header, three rows,
    newest first, timestamps in milliseconds. *)
Definition sample_lines : list string :=
  [ "https://www.CryptoDataDownload.com";
    "unix,date,symbol,open,high,low,close,Volume BTC,Volume USD";
    "1700000120000,2023-11-14 22:15:20,BTC/USD,35,36,34,35,3,105";
    "1700000060000,2023-11-14 22:14:20,BTC/USD,34,35,33,35,2,70";
    "1700000000000,2023-11-14 22:13:20,BTC/USD,33,34,33,34,1,34" ].

Definition sample_rows : list csv_row :=
  [ mk_row 1700000120000 (PStr "2023-11-14 22:15:20") (PStr "BTC/USD")
           (PInt 35) (PInt 36) (PInt 34) (PInt 35) (PInt 3) (PInt 105);
    mk_row 1700000060000 (PStr "2023-11-14 22:14:20") (PStr "BTC/USD")
           (PInt 34) (PInt 35) (PInt 33) (PInt 35) (PInt 2) (PInt 70);
    mk_row 1700000000000 (PStr "2023-11-14 22:13:20") (PStr "BTC/USD")
           (PInt 33) (PInt 34) (PInt 33) (PInt 34) (PInt 1) (PInt 34) ].

(** The pair is asked for as base USD, quote BTC. *)
Definition sample_table : list (string * Series) :=
  provider_table "USD" "BTC" sample_rows.

Definition sample_world : World := file_world sample_lines sample_table.


(** The same file with timestamps of the year 2286. *)
Definition far_lines : list string :=
  [ "https://www.CryptoDataDownload.com";
    "unix,date,symbol,open,high,low,close,Volume BTC,Volume USD";
    "9999999999999,2286-11-20 17:46:39,BTC/USD,35,36,34,35,3,105";
    "9999999939999,2286-11-20 17:45:39,BTC/USD,34,35,33,35,2,70";
    "9999999879999,2286-11-20 17:44:39,BTC/USD,33,34,33,34,1,34" ].

Definition far_rows : list csv_row :=
  [ mk_row 9999999999999 (PStr "2286-11-20 17:46:39") (PStr "BTC/USD")
           (PInt 35) (PInt 36) (PInt 34) (PInt 35) (PInt 3) (PInt 105);
    mk_row 9999999939999 (PStr "2286-11-20 17:45:39") (PStr "BTC/USD")
           (PInt 34) (PInt 35) (PInt 33) (PInt 35) (PInt 2) (PInt 70);
    mk_row 9999999879999 (PStr "2286-11-20 17:44:39") (PStr "BTC/USD")
           (PInt 33) (PInt 34) (PInt 33) (PInt 34) (PInt 1) (PInt 34) ].

Definition far_world : World :=
  file_world far_lines (provider_table "USD" "BTC" far_rows).

(** The provider's file with one row, stamped in milliseconds before
    1970. *)
Definition early_lines : list string :=
  [ "https://www.CryptoDataDownload.com";
    "unix,date,symbol,open,high,low,close,Volume BTC,Volume USD";
    "-123456789012,1966-02-02 02:26:50,BTC/USD,35,36,34,35,3,105" ].

Definition early_rows : list csv_row :=
  [ mk_row (-123456789012) (PStr "1966-02-02 02:26:50") (PStr "BTC/USD")
           (PInt 35) (PInt 36) (PInt 34) (PInt 35) (PInt 3) (PInt 105) ].

Definition early_world : World :=
  file_world early_lines (provider_table "USD" "BTC" early_rows).

(** Equality of two strings up to the case of their letters. *)
Fixpoint caseless_eq (s t : string) : bool :=
  match s, t with
  | EmptyString, EmptyString => true
  | String a s', String b t' => Ascii.eqb (ascii_lower a) (ascii_lower b) && caseless_eq s' t'
  | _, _ => false
  end.

(** ** The Mofid routine *)

(** The day the routine asks for, as seconds since the epoch. *)
Definition mofid_start (w : World) : Z :=
  mktime (zone w) (mk_datetime 2022 8 24 0 0).

Definition mofid_end (w : World) : Z :=
  mktime (zone w) (mk_datetime 2022 8 24 23 59).

Definition mofid_url (w : World) (base_symbol : string) : string :=
  "https://rlcchartapi.mofidonline.com/ChartData/history?symbol=" +:+ base_symbol
  +:+ "&resolution=1&from=" +:+ str_int (mofid_start w)
  +:+ "&to=" +:+ str_int (mofid_end w).


(** A response of the charting service: an object with the arrays ["t"]
    (seconds since the epoch), ["o"], ["h"], ["l"], ["c"] and ["v"], all of
    one length. *)
Record mofid_arrays (json : pyval) (ts : list Z) (os hs ls cs vs : list pyval) : Prop := {
  arr_t : getitem_key json "t" = Ok (PList (PInt <$> ts));
  arr_o : getitem_key json "o" = Ok (PList os);
  arr_h : getitem_key json "h" = Ok (PList hs);
  arr_l : getitem_key json "l" = Ok (PList ls);
  arr_c : getitem_key json "c" = Ok (PList cs);
  arr_v : getitem_key json "v" = Ok (PList vs);
  len_o : length os = length ts;
  len_h : length hs = length ts;
  len_l : length ls = length ts;
  len_c : length cs = length ts;
  len_v : length vs = length ts
}.

(** Instants that [datetime.fromtimestamp] reads in the local zone, with
    their local readings. *)
Definition local_readings (w : World) (ts locals : list Z) : Prop :=
  Forall2 (fun t s => local_time (zone w) t = Ok s) ts locals.

(** The frame the loop builds from such a response, whose instants have
    the local readings [locals]. *)
Definition mofid_frame (base_vc : string)
    (locals : list Z) (os hs ls cs vs : list pyval) : DataFrame :=
  mk_df None (range_index (length locals))
        [ ("date", PDatetime <$> locals);
          ("open", os); ("high", hs); ("low", ls); ("close", cs);
          (base_vc, vs); ("volume", vs) ].

(** A world whose charting service answers every request with [json], in
    a zone of fixed offset. *)
Definition chart_world (json : pyval) (offset : Z) : World :=
  mk_world (fun _ => Ok ["{...}"]) (fun _ => Raise (ParserError "not a table"))
           (fun _ => Ok json) (fixed_zone offset).

(** One bar of 2022-08-24 (UTC). *)
Definition day_response : pyval :=
  PDict [("s", PStr "ok"); ("t", PList [PInt 1661331600]); ("o", PList [PInt 5200]);
         ("h", PList [PInt 5250]); ("l", PList [PInt 5190]); ("c", PList [PInt 5240]);
         ("v", PList [PInt 120000])].

(** ** The values the default routine takes for [unix] *)

(** Seconds that [pd.to_datetime] accepts as they are, milliseconds of
    thirteen digits up to the last one it accepts, and the negative
    values of twelve digits, which the length test takes for
    milliseconds as well. *)
Definition unix_accepted (x : Z) : Prop :=
  -9223372036 <= x <= 9223372036
  \/ 10 ^ 12 <= x <= last_millisecond
  \/ - 10 ^ 12 < x <= - 10 ^ 11.

(** ** The tables on which pandas is followed *)

(** An integer of a column of dtype int64, the least one apart, which
    pandas keeps for a missing value. *)
Definition int64_cell (x : Z) : Prop := - 2 ^ 63 < x < 2 ^ 63.

(** A label of ASCII characters. *)
Definition ascii_label (l : string) : Prop :=
  Forall (fun c => (N_of_ascii c < 128)%N) (list_ascii_of_string l).

#[export] Instance ascii_label_dec l : Decision (ascii_label l).
Proof. unfold ascii_label. apply _. Defined.

(** What the statements on the outcome of a reshaping assume of the table
    read: the names of its columns are distinct (the reader sees to it) and
    ASCII, a column [unix] holds integers of 64 bits, and [date] and [Date]
    do not both name a column.  Outside these tables the model does not
    follow pandas: it lower-cases A to Z only, does not wrap a column of
    unsigned integers, and has no index of pairs. *)
Definition plain_table (cols : list (string * Series)) : Prop :=
  NoDup cols.*1
  /\ Forall ascii_label cols.*1
  /\ (forall raw, ("unix", raw) ∈ cols ->
        exists xs, raw = PInt <$> xs /\ Forall int64_cell xs)
  /\ ¬ ("date" ∈ cols.*1 /\ "Date" ∈ cols.*1).

(** Two tables with the same labels, column by column, and the same cells
    except under the labels [ls]. *)
Definition same_but (ls : list string) (cols cols' : list (string * Series)) : Prop :=
  Forall2 (fun c c' => c.1 = c'.1 /\ length c.2 = length c'.2
                       /\ (c.1 ∉ ls -> c.2 = c'.2)) cols cols'.

(** ** More sample worlds *)

(** A file of the Gemini family: banner, header, two rows, newest
    first. *)
Definition gemini_lines : list string :=
  [ "https://www.CryptoDataDownload.com";
    "Unix Timestamp,Date,Symbol,Open,High,Low,Close,Volume";
    "1700006400000,2023-11-15 00:00:00,BTCUSD,35500,35800,35400,35700,12";
    "1700002800000,2023-11-14 23:00:00,BTCUSD,35300,35600,35200,35500,9" ].

Definition gemini_table : list (string * Series) :=
  [ ("Unix Timestamp", [PInt 1700006400000; PInt 1700002800000]);
    ("Date", [PStr "2023-11-15 00:00:00"; PStr "2023-11-14 23:00:00"]);
    ("Symbol", [PStr "BTCUSD"; PStr "BTCUSD"]);
    ("Open", [PInt 35500; PInt 35300]);
    ("High", [PInt 35800; PInt 35600]);
    ("Low", [PInt 35400; PInt 35200]);
    ("Close", [PInt 35700; PInt 35500]);
    ("Volume", [PInt 12; PInt 9]) ].

Definition gemini_world : World := file_world gemini_lines gemini_table.

(** A file in the layout the provider used before it added the [unix]
    column. *)
Definition undated_lines : list string :=
  [ "https://www.CryptoDataDownload.com";
    "date,symbol,open,high,low,close,Volume BTC,Volume USD";
    "2019-05-02,BTCUSD,5300,5400,5250,5390,1200,6400000";
    "2019-05-01,BTCUSD,5260,5340,5240,5300,1100,5800000" ].

Definition undated_table : list (string * Series) :=
  [ ("date", [PStr "2019-05-02"; PStr "2019-05-01"]);
    ("symbol", [PStr "BTCUSD"; PStr "BTCUSD"]);
    ("open", [PInt 5300; PInt 5260]);
    ("high", [PInt 5400; PInt 5340]);
    ("low", [PInt 5250; PInt 5240]);
    ("close", [PInt 5390; PInt 5300]);
    ("Volume BTC", [PInt 1200; PInt 1100]);
    ("Volume USD", [PInt 6400000; PInt 5800000]) ].

Definition undated_world : World := file_world undated_lines undated_table.

(** The sample file of the provider with other text in its [date] and
    [symbol] columns. *)
Definition redated_rows : list csv_row :=
  [ mk_row 1700000120000 (PStr "14/11/2023 22:15") (PStr "BTCUSD")
           (PInt 35) (PInt 36) (PInt 34) (PInt 35) (PInt 3) (PInt 105);
    mk_row 1700000060000 (PStr "14/11/2023 22:14") (PStr "BTCUSD")
           (PInt 34) (PInt 35) (PInt 33) (PInt 35) (PInt 2) (PInt 70);
    mk_row 1700000000000 PNone PNone
           (PInt 33) (PInt 34) (PInt 33) (PInt 34) (PInt 1) (PInt 34) ].

Definition redated_world : World :=
  file_world sample_lines (provider_table "USD" "BTC" redated_rows).

(** A response of the charting service whose ["o"] array is one entry
    short. *)
Definition short_response : pyval :=
  PDict [("s", PStr "ok"); ("t", PList [PInt 1661331600; PInt 1661331660]);
         ("o", PList [PInt 5200]);
         ("h", PList [PInt 5250; PInt 5260]); ("l", PList [PInt 5190; PInt 5200]);
         ("c", PList [PInt 5240; PInt 5250]); ("v", PList [PInt 120000; PInt 90000])].

(** A response that reports no data and carries no array. *)
Definition no_data_response : pyval := PDict [("s", PStr "no_data")].

(** ** The tables the default routine returns on *)

(** A column [symbol]; a column [unix] of accepted values; no name other
    than [date] and [Date] that lower-cases to [date]; and, when only one
    volume is asked for, a column that ends up as [volume_quote]. *)
Definition default_accepts (base_symbol quote_symbol : string) (include_all_volumes : bool)
    (cols : list (string * Series)) : Prop :=
  "symbol" ∈ cols.*1
  /\ (exists xs, ("unix", PInt <$> xs) ∈ cols /\ Forall unix_accepted xs)
  /\ (forall l, l ∈ cols.*1 -> lower l = "date" -> l = "date" \/ l = "Date")
  /\ (include_all_volumes = false ->
      exists l, l ∈ cols.*1
        /\ (l = "Volume " +:+ quote_symbol
            \/ (l ≠ "Volume " +:+ base_symbol /\ lower l = "volume_quote"))).

(** ** The Gemini routine *)

(** The locator of the Gemini routine. *)
Definition gemini_url (self : CryptoDataDownload) (base_symbol quote_symbol timeframe : string)
    : string :=
  url self +:+ "gemini_" +:+ quote_symbol +:+ base_symbol +:+ "_"
  +:+ (if endswith timeframe "h" then drop_last timeframe +:+ "hr" else timeframe)
  +:+ ".csv".

(** * Properties *)

(** ** The interpreter: decimal rendering *)

Lemma pow10_pos (k : nat) : 0 < 10 ^ Z.of_nat k.
Proof. apply Z.pow_pos_nonneg; lia. Qed.

Lemma pow10_succ (k : nat) : 10 ^ Z.of_nat (S k) = 10 * 10 ^ Z.of_nat k.
Proof. rewrite Nat2Z.inj_succ, Z.pow_succ_r; lia. Qed.

Lemma pow10_le (j k : nat) : (j <= k)%nat -> 10 ^ Z.of_nat j <= 10 ^ Z.of_nat k.
Proof. intros. apply Z.pow_le_mono_r; lia. Qed.

Lemma digits_of_length fuel : forall n acc,
  0 <= n < 10 ^ Z.of_nat (S fuel) ->
  exists k : nat,
    String.length (digits_of fuel n acc) = (S k + String.length acc)%nat
    /\ n < 10 ^ Z.of_nat (S k) /\ (k = 0%nat \/ 10 ^ Z.of_nat k <= n).
Proof.
  induction fuel as [|fuel IH]; intros n acc Hn.
  - exists 0%nat. simpl. split; [done|]. split; [|by left]. simpl in Hn. lia.
  - simpl. destruct (Z.ltb_spec n 10) as [Hlt | Hge].
    + exists 0%nat. simpl. split; [done|]. split; [lia | by left].
    + destruct (IH (n / 10) (String (digit_char (n mod 10)) acc)) as (k & Hlen & Hub & Hlb).
      { rewrite pow10_succ in Hn. split; [apply Z.div_pos; lia|].
        apply Z.div_lt_upper_bound; lia. }
      exists (S k). split; [rewrite Hlen; simpl; lia|]. split.
      * rewrite pow10_succ.
        assert (n / 10 + 1 <= 10 ^ Z.of_nat (S k)) by lia.
        pose proof (Z.mul_succ_div_gt n 10). lia.
      * right. rewrite pow10_succ. destruct Hlb as [-> | Hlb]; [simpl; lia|].
        pose proof (Z.mul_div_le n 10). lia.
Qed.

Lemma str_nonneg_fuel n : 0 <= n -> n < 10 ^ Z.of_nat (S (Z.to_nat (Z.log2 n))).
Proof.
  intros Hn. destruct (Z.eq_dec n 0) as [-> | Hne]; [done|].
  pose proof (Z.log2_nonneg n) as Hlog.
  destruct (Z.log2_spec n) as [_ Hub]; [lia|].
  rewrite Nat2Z.inj_succ, Z2Nat.id by done.
  eapply Z.lt_le_trans; [exact Hub|].
  apply Z.pow_le_mono_l; lia.
Qed.

(** A positive integer has [k + 1] digits exactly between [10^k] and
    [10^(k+1)]. *)
Lemma str_nonneg_length n (k : nat) :
  0 < n ->
  String.length (str_nonneg n) = S k <-> 10 ^ Z.of_nat k <= n < 10 ^ Z.of_nat (S k).
Proof.
  intros Hn. unfold str_nonneg.
  destruct (digits_of_length (Z.to_nat (Z.log2 n)) n EmptyString) as (j & Hlen & Hub & Hlb).
  { split; [lia | apply str_nonneg_fuel; lia]. }
  rewrite Hlen. simpl String.length. split.
  - intros E. assert (j = k) as -> by lia. split; [|done].
    destruct Hlb as [-> | Hlb]; [simpl; lia | done].
  - intros [Hlo Hhi]. f_equal.
    destruct (Nat.lt_trichotomy j k) as [Hjk | [-> | Hjk]]; [| lia |].
    + pose proof (pow10_le (S j) k ltac:(lia)). lia.
    + destruct Hlb as [-> | Hlb]; [lia|].
      pose proof (pow10_le (S k) j ltac:(lia)). lia.
Qed.

Lemma str_nonneg_zero : str_nonneg 0 = "0"%string.
Proof. reflexivity. Qed.

Lemma str_int_length_nonneg x :
  0 <= x -> String.length (str_int x) = decimal_digits x.
Proof.
  intros Hx. unfold str_int, decimal_digits.
  destruct (Z.ltb_spec x 0); [lia|]. by rewrite Z.abs_eq.
Qed.

Lemma str_int_length_neg x :
  x < 0 -> String.length (str_int x) = S (decimal_digits x).
Proof.
  intros Hx. unfold str_int, decimal_digits.
  destruct (Z.ltb_spec x 0); [|lia]. by rewrite Z.abs_neq by lia.
Qed.

Lemma decimal_digits_spec x (k : nat) :
  x <> 0 ->
  decimal_digits x = S k <-> 10 ^ Z.of_nat k <= Z.abs x < 10 ^ Z.of_nat (S k).
Proof. intros Hx. unfold decimal_digits. apply str_nonneg_length. lia. Qed.

(** ** The interpreter: binary64 division by 1000

    [int(x / 1000)] goes through a float.  For [x] below [2^52] the
    rounding of the quotient never reaches the next integer, so the
    result is the integer quotient, truncated toward zero. *)

Lemma digits2_pos_size p : digits2_pos p = Pos.size p.
Proof. induction p; simpl; congruence. Qed.

Lemma Zdigits2_log2 m : 0 < m -> Zdigits2 m = Z.log2 m + 1.
Proof.
  destruct m as [|p|p]; try lia. intros _. simpl. rewrite digits2_pos_size.
  destruct p; simpl; lia.
Qed.

Lemma Zdigits2_bounds m d : 0 < d -> 2 ^ (d - 1) <= m < 2 ^ d -> Zdigits2 m = d.
Proof.
  intros Hd H. assert (0 < 2 ^ (d - 1)) by (apply Z.pow_pos_nonneg; lia).
  rewrite Zdigits2_log2 by lia.
  rewrite (Z.log2_unique m (d - 1)); [lia | lia |].
  replace (Z.succ (d - 1)) with d by lia. done.
Qed.

Lemma Zdigits2_range m : 0 < m -> 2 ^ (Zdigits2 m - 1) <= m < 2 ^ Zdigits2 m.
Proof.
  intros Hm. rewrite Zdigits2_log2 by done.
  replace (Z.log2 m + 1 - 1) with (Z.log2 m) by lia.
  destruct (Z.log2_spec m Hm). split; [done|].
  by replace (Z.log2 m + 1) with (Z.succ (Z.log2 m)) by lia.
Qed.

Lemma pos_iter_xO p n : Zpos (Pos.iter xO p n) = Zpos p * 2 ^ Zpos n.
Proof.
  revert p. induction n using Pos.peano_ind; intros p.
  - simpl. lia.
  - rewrite Pos.iter_succ, Pos2Z.inj_xO, IHn, Pos2Z.inj_succ, Z.pow_succ_r; lia.
Qed.

Lemma shr_fexp_exact m e l :
  2 ^ 52 <= m < 2 ^ 53 -> -1074 <= e ->
  shr_fexp prec emax m e l = (shr_record_of_loc m l, e).
Proof.
  intros Hm He. unfold shr_fexp. rewrite (Zdigits2_bounds m 53) by lia.
  unfold fexp, emin, prec, emax.
  replace (Z.max (53 + e - 53) (3 - 1024 - 53) - e) with 0 by lia. done.
Qed.

Lemma shr_fexp_one m e l :
  2 ^ 53 <= m < 2 ^ 54 -> -1075 <= e ->
  shr_fexp prec emax m e l = (shr_1 (shr_record_of_loc m l), e + 1).
Proof.
  intros Hm He. unfold shr_fexp. rewrite (Zdigits2_bounds m 54) by lia.
  unfold fexp, emin, prec, emax.
  replace (Z.max (54 + e - 53) (3 - 1024 - 53) - e) with 1 by lia. done.
Qed.

Lemma shr_m_shr_1 m r s : 0 <= m -> shr_m (shr_1 (Build_shr_record m r s)) = m / 2.
Proof.
  intros Hm. destruct m as [|[p|p|]|p]; [| | | |lia]; simpl.
  - reflexivity.
  - apply (Z.div_unique _ _ _ 1); lia.
  - apply (Z.div_unique _ _ _ 0); lia.
  - reflexivity.
Qed.

Lemma shr_m_of_loc m l : shr_m (shr_record_of_loc m l) = m.
Proof. by destruct l as [|[]]. Qed.

Lemma round_nearest_even_cases m l :
  round_nearest_even m l = m \/ round_nearest_even m l = m + 1.
Proof. destruct l as [|[]]; simpl; auto. destruct (Z.even m); auto. Qed.

Lemma round_finish s m e l :
  2 ^ 52 <= m < 2 ^ 53 -> -1074 <= e <= 969 ->
  exists m' e',
    (let '(mrs, e2) := shr_fexp prec emax (round_nearest_even m l) e loc_Exact in
     match shr_m mrs with
     | Z0 => S754_zero s
     | Zpos m0 => if e2 <=? emax - prec then S754_finite s m0 e2 else S754_infinity s
     | Zneg _ => S754_nan
     end) = S754_finite s m' e'
    /\ rounded m e m' e'.
Proof.
  intros Hm He. unfold rounded.
  destruct (round_nearest_even_cases m l) as [-> | ->].
  - rewrite shr_fexp_exact by lia. simpl.
    destruct m as [|p|p]; try lia.
    exists p, e. replace (e <=? emax - prec) with true by (unfold emax, prec; lia). auto.
  - destruct (Z.eq_dec (m + 1) (2 ^ 53)) as [Heq | Hne].
    + rewrite shr_fexp_one by lia. rewrite Heq. simpl.
      exists 4503599627370496%positive, (e + 1).
      replace (e + 1 <=? emax - prec) with true by (unfold emax, prec; lia).
      split; [done|]. right. lia.
    + rewrite shr_fexp_exact by lia. simpl.
      destruct (m + 1) as [|p|p] eqn:E; try lia.
      exists p, e. replace (e <=? emax - prec) with true by (unfold emax, prec; lia).
      split; [done|]. left. lia.
Qed.

Lemma binary_round_aux_exact s (m : positive) e :
  2 ^ 52 <= Zpos m < 2 ^ 53 -> -1074 <= e <= 971 ->
  binary_round_aux prec emax s (Zpos m) e loc_Exact = S754_finite s m e.
Proof.
  intros Hm He. unfold binary_round_aux.
  rewrite shr_fexp_exact by lia. simpl.
  rewrite shr_fexp_exact by lia. simpl.
  by replace (e <=? emax - prec) with true by (unfold emax, prec; lia).
Qed.

Lemma binary_round_aux_53 s m e l :
  2 ^ 52 <= m < 2 ^ 53 -> -1074 <= e <= 969 ->
  exists m' e',
    binary_round_aux prec emax s m e l = S754_finite s m' e' /\ rounded m e m' e'.
Proof.
  intros Hm He. unfold binary_round_aux.
  rewrite shr_fexp_exact by lia. rewrite shr_m_of_loc.
  apply round_finish; lia.
Qed.

Lemma binary_round_aux_54 s m e l :
  2 ^ 53 <= m < 2 ^ 54 -> -1075 <= e <= 968 ->
  exists m' e',
    binary_round_aux prec emax s m e l = S754_finite s m' e'
    /\ rounded (m / 2) (e + 1) m' e'.
Proof.
  intros Hm He. unfold binary_round_aux.
  rewrite shr_fexp_one by lia.
  assert (Hh : shr_m (shr_1 (shr_record_of_loc m l)) = m / 2).
  { destruct l as [|[]]; simpl shr_record_of_loc; apply shr_m_shr_1; lia. }
  rewrite Hh.
  assert (2 ^ 52 <= m / 2 < 2 ^ 53).
  { split; [apply Z.div_le_lower_bound | apply Z.div_lt_upper_bound]; lia. }
  apply round_finish; lia.
Qed.

(** Conversion of a positive integer below [2^53] is exact: the mantissa
    is the integer shifted up to 53 bits. *)
Lemma float_of_int_pos s (p : positive) :
  Zpos p < 2 ^ 53 ->
  exists m : positive,
    binary_round prec emax s p 0 = S754_finite s m (Zdigits2 (Zpos p) - 53)
    /\ Zpos m = Zpos p * 2 ^ (53 - Zdigits2 (Zpos p)).
Proof.
  intros Hp. pose proof (Zdigits2_range (Zpos p) ltac:(lia)) as Hr.
  set (d := Zdigits2 (Zpos p)) in *.
  assert (Hd1 : 1 <= d) by (subst d; simpl; lia).
  assert (Hd : d <= 53).
  { destruct (Z_le_gt_dec d 53); [done|].
    assert (2 ^ 53 <= 2 ^ (d - 1)) by (apply Z.pow_le_mono_r; lia). lia. }
  unfold binary_round. change (Zpos (digits2_pos p)) with d.
  unfold fexp, emin, shl_align, prec, emax.
  replace (Z.max (d + 0 - 53) (3 - 1024 - 53)) with (d - 53) by lia.
  replace (d - 53 - 0) with (d - 53) by lia.
  assert (Hscale : 2 ^ 52 <= Zpos p * 2 ^ (53 - d) < 2 ^ 53).
  { replace (2 ^ 52) with (2 ^ (d - 1) * 2 ^ (53 - d))
      by (rewrite <- Z.pow_add_r by lia; f_equal; lia).
    replace (2 ^ 53) with (2 ^ d * 2 ^ (53 - d))
      by (rewrite <- Z.pow_add_r by lia; f_equal; lia).
    assert (0 < 2 ^ (53 - d)) by (apply Z.pow_pos_nonneg; lia). nia. }
  destruct (d - 53) as [|k|k] eqn:Ek; [| lia |].
  - exists p. replace (53 - d) with 0 in * by lia.
    rewrite Z.pow_0_r, Z.mul_1_r in *. split; [|done].
    apply (binary_round_aux_exact s p 0); lia.
  - exists (Pos.iter xO p k).
    assert (Hm : Zpos (Pos.iter xO p k) = Zpos p * 2 ^ (53 - d)).
    { rewrite pos_iter_xO. do 2 f_equal. lia. }
    split; [|done].
    apply (binary_round_aux_exact s _ (Zneg k)); lia.
Qed.

Lemma float_of_int_1000 :
  float_of_int 1000 = S754_finite false 8796093022208000 (-43).
Proof. reflexivity. Qed.

(** Truncating a rounded quotient.  [q] is the quotient of [p * K] by
    1000 for a power of two [K] above 2000, and [m'] stands at most one
    unit in the last place above [q], or above [q / 2]: dividing back by
    the scale gives the integer quotient of [p] by 1000. *)
Lemma quotient_back p K c :
  0 <= p -> 1000 < K -> 0 <= c <= 1 ->
  (p * K / 1000 + c) / K = p / 1000.
Proof.
  intros Hp HK Hc.
  pose proof (Z.div_mod p 1000 ltac:(lia)) as Hdm.
  pose proof (Z.mod_pos_bound p 1000 ltac:(lia)) as Hr.
  set (n := p / 1000) in *. set (r := p mod 1000) in *.
  pose proof (Z.div_mod (p * K) 1000 ltac:(lia)) as Hq.
  pose proof (Z.mod_pos_bound (p * K) 1000 ltac:(lia)) as Hqr.
  set (q := p * K / 1000) in *. set (t := (p * K) mod 1000) in *.
  symmetry. apply (Z.div_unique _ _ _ (q + c - n * K)); nia.
Qed.

Lemma quotient_back_half p K c :
  0 <= p -> 1000 < K -> 0 <= c <= 1 ->
  (p * (2 * K) / 1000 / 2 + c) / K = p / 1000.
Proof.
  intros Hp HK Hc.
  pose proof (Z.div_mod p 1000 ltac:(lia)) as Hdm.
  pose proof (Z.mod_pos_bound p 1000 ltac:(lia)) as Hr.
  set (n := p / 1000) in *. set (r := p mod 1000) in *.
  pose proof (Z.div_mod (p * (2 * K)) 1000 ltac:(lia)) as Hq.
  pose proof (Z.mod_pos_bound (p * (2 * K)) 1000 ltac:(lia)) as Hqr.
  set (q := p * (2 * K) / 1000) in *. set (t := (p * (2 * K)) mod 1000) in *.
  pose proof (Z.div_mod q 2 ltac:(lia)) as Hh.
  pose proof (Z.mod_pos_bound q 2 ltac:(lia)) as Hhr.
  set (h := q / 2) in *. set (b := q mod 2) in *.
  symmetry. apply (Z.div_unique _ _ _ (h + c - n * K)); nia.
Qed.

Lemma SFdiv_core_53 m1 e1 m2 e2 :
  2 ^ 52 <= m1 < 2 ^ 53 -> 2 ^ 52 <= m2 < 2 ^ 53 -> -1000 <= e1 - e2 ->
  SFdiv_core_binary prec emax m1 e1 m2 e2
  = (m1 * 2 ^ 53 / m2, e1 - e2 - 53, new_location m2 ((m1 * 2 ^ 53) mod m2)).
Proof.
  intros H1 H2 He. unfold SFdiv_core_binary.
  rewrite (Zdigits2_bounds m1 53), (Zdigits2_bounds m2 53) by lia.
  unfold fexp, emin, prec, emax.
  match goal with |- context [Z.min ?a ?b] => replace (Z.min a b) with (e1 - e2 - 53) by lia end.
  replace (e1 - e2 - (e1 - e2 - 53)) with 53 by lia.
  rewrite Z.shiftl_mul_pow2 by lia.
  unfold Z.div, Z.modulo.
  by destruct (Z.div_eucl (m1 * 2 ^ 53) m2).
Qed.

Lemma pow2_half_quot k : 1 <= k -> 2 ^ 52 / 2 ^ (k - 1) = 2 ^ 53 / 2 ^ k.
Proof.
  intros Hk. replace (2 ^ 53) with (2 * 2 ^ 52) by lia.
  replace (2 ^ k) with (2 * 2 ^ (k - 1)).
  - rewrite Z.div_mul_cancel_l; [done | | lia].
    apply Z.pow_nonzero; lia.
  - rewrite <- Z.pow_succ_r by lia. f_equal. lia.
Qed.

(** Truncation of a float produced by [rounded] from mantissa [m] at a
    negative exponent [- k]. *)
Lemma int_of_rounded s m k m' e' :
  1 <= k -> 2 ^ 52 <= m < 2 ^ 53 -> rounded m (- k) m' e' ->
  exists c, 0 <= c <= 1 /\
    int_of_float (S754_finite s m' e') = Ok (cond_Zopp s ((m + c) / 2 ^ k)).
Proof.
  intros Hk Hm [[Hm' ->] | (Hov & Hm' & ->)]; simpl.
  - destruct (Z.leb_spec 0 (- k)); [lia|]. rewrite Z.opp_involutive.
    destruct Hm' as [-> | ->]; [exists 0 | exists 1]; (split; [lia|]);
      by rewrite ?Z.add_0_r.
  - destruct (Z.leb_spec 0 (- k + 1)) as [Hle | Hlt].
    + assert (k = 1) as -> by lia. exists 1. split; [lia|].
      rewrite Hm', Hov. simpl. done.
    + exists 1. split; [lia|]. rewrite Hm', Hov.
      replace (- (- k + 1)) with (k - 1) by lia.
      by rewrite pow2_half_quot.
Qed.

Lemma int_truediv_1000_pos s (p : positive) :
  Zpos p < 2 ^ 52 ->
  int_of_float (SFdiv prec emax (binary_round prec emax s p 0) (float_of_int 1000))
  = Ok (cond_Zopp s (Zpos p / 1000)).
Proof.
  intros Hp.
  destruct (float_of_int_pos s p) as (mx & -> & Hmx); [lia|].
  pose proof (Zdigits2_range (Zpos p) ltac:(lia)) as Hr.
  set (d := Zdigits2 (Zpos p)) in *.
  assert (Hd1 : 1 <= d) by (subst d; simpl; lia).
  assert (Hd : d <= 52).
  { destruct (Z_le_gt_dec d 52); [done|].
    assert (2 ^ 52 <= 2 ^ (d - 1)) by (apply Z.pow_le_mono_r; lia). lia. }
  rewrite float_of_int_1000.
  assert (Hmxr : 2 ^ 52 <= Zpos mx < 2 ^ 53).
  { rewrite Hmx.
    replace (2 ^ 52) with (2 ^ (d - 1) * 2 ^ (53 - d))
      by (rewrite <- Z.pow_add_r by lia; f_equal; lia).
    replace (2 ^ 53) with (2 ^ d * 2 ^ (53 - d))
      by (rewrite <- Z.pow_add_r by lia; f_equal; lia).
    assert (0 < 2 ^ (53 - d)) by (apply Z.pow_pos_nonneg; lia). nia. }
  unfold SFdiv. rewrite SFdiv_core_53 by lia.
  rewrite xorb_false_r.
  (* the quotient of the mantissas is that of [p * 2^(63-d)] by 1000 *)
  set (K := 2 ^ (63 - d)).
  assert (HK : 2048 <= K).
  { subst K. change 2048 with (2 ^ 11). apply Z.pow_le_mono_r; lia. }
  assert (Hq : Zpos mx * 2 ^ 53 / 8796093022208000 = Zpos p * K / 1000).
  { rewrite Hmx. subst K.
    replace (Zpos p * 2 ^ (53 - d) * 2 ^ 53) with (Zpos p * 2 ^ (63 - d) * 2 ^ 43).
    - change 8796093022208000 with (1000 * 2 ^ 43).
      rewrite Z.div_mul_cancel_r; lia.
    - replace (63 - d) with (53 - d + 10) by lia.
      rewrite Z.pow_add_r by lia. lia. }
  rewrite Hq.
  set (q := Zpos p * K / 1000) in *.
  assert (HpK : 2 ^ 62 <= Zpos p * K < 2 ^ 63).
  { subst K.
    replace (2 ^ 62) with (2 ^ (d - 1) * 2 ^ (63 - d))
      by (rewrite <- Z.pow_add_r by lia; f_equal; lia).
    replace (2 ^ 63) with (2 ^ d * 2 ^ (63 - d))
      by (rewrite <- Z.pow_add_r by lia; f_equal; lia).
    assert (0 < 2 ^ (63 - d)) by (apply Z.pow_pos_nonneg; lia). nia. }
  assert (Hqr : 2 ^ 52 <= q < 2 ^ 54).
  { subst q. split; [apply Z.div_le_lower_bound | apply Z.div_lt_upper_bound]; lia. }
  replace (d - 53 - -43 - 53) with (- (63 - d)) by lia.
  destruct (Z_lt_ge_dec q (2 ^ 53)) as [Hlt | Hge].
  - destruct (binary_round_aux_53 s q (- (63 - d))
                (new_location 8796093022208000 ((Zpos mx * 2 ^ 53) mod 8796093022208000)))
      as (m' & e' & -> & Hrd); [lia | lia |].
    destruct (int_of_rounded s q (63 - d) m' e') as (c & Hc & ->); [lia | lia | done |].
    fold K. subst q. by rewrite quotient_back by lia.
  - destruct (binary_round_aux_54 s q (- (63 - d))
                (new_location 8796093022208000 ((Zpos mx * 2 ^ 53) mod 8796093022208000)))
      as (m' & e' & -> & Hrd); [lia | lia |].
    assert (Hh : 2 ^ 52 <= q / 2 < 2 ^ 53).
    { split; [apply Z.div_le_lower_bound | apply Z.div_lt_upper_bound]; lia. }
    replace (- (63 - d) + 1) with (- (62 - d)) in Hrd by lia.
    destruct (int_of_rounded s (q / 2) (62 - d) m' e') as (c & Hc & ->); [lia | lia | done |].
    assert (HK2 : K = 2 * 2 ^ (62 - d)).
    { subst K. rewrite <- Z.pow_succ_r by lia. f_equal. lia. }
    assert (1024 <= 2 ^ (62 - d)).
    { change 1024 with (2 ^ 10). apply Z.pow_le_mono_r; lia. }
    subst q. rewrite HK2. by rewrite quotient_back_half by lia.
Qed.

(** [int(x / 1000)] is the quotient truncated toward zero. *)
Lemma int_truediv_1000 x :
  Z.abs x < 2 ^ 52 ->
  (q ← truediv x 1000; int_of_float q) = Ok (Z.quot x 1000).
Proof.
  intros Hx. unfold truediv. simpl. unfold float_of_int at 1, binary_normalize.
  destruct x as [|p|p].
  - reflexivity.
  - rewrite int_truediv_1000_pos by lia. simpl.
    by rewrite Z.quot_div_nonneg by lia.
  - rewrite int_truediv_1000_pos by lia. simpl. f_equal.
    change (Z.neg p) with (- Z.pos p).
    rewrite Z.quot_opp_l by lia. by rewrite Z.quot_div_nonneg by lia.
Qed.

(** ** The normalization of [unix] *)

Lemma pow10_13_lt : 10 ^ Z.of_nat 13 < 2 ^ 52.
Proof. reflexivity. Qed.

Lemma str_int_13_bound x :
  String.length (str_int x) = 13%nat -> Z.abs x < 2 ^ 52.
Proof.
  intros Hlen. destruct (Z_lt_ge_dec x 0) as [Hneg | Hpos].
  - rewrite str_int_length_neg in Hlen by done.
    assert (Hd : decimal_digits x = 12%nat) by lia.
    apply (decimal_digits_spec x 11) in Hd; [|lia].
    pose proof (pow10_le 12 13 ltac:(lia)). pose proof pow10_13_lt. lia.
  - rewrite str_int_length_nonneg in Hlen by lia.
    destruct (Z.eq_dec x 0) as [-> | Hne]; [done|].
    apply (decimal_digits_spec x 12) in Hlen; [|done].
    pose proof pow10_13_lt. lia.
Qed.

(** The float never shows: [unix_lambda] always returns, and returns
    [normalize_unix]. *)
Lemma unix_lambda_total x : unix_lambda x = Ok (normalize_unix x).
Proof.
  unfold unix_lambda, normalize_unix.
  destruct (Nat.eqb_spec (String.length (str_int x)) 13) as [Hlen | _]; [|done].
  apply int_truediv_1000. by apply str_int_13_bound.
Qed.

Lemma normalize_unix_nonneg x :
  0 <= x -> normalize_unix x = normalize_by_digits x.
Proof.
  intros Hx. unfold normalize_unix, normalize_by_digits.
  rewrite str_int_length_nonneg by done.
  destruct (decimal_digits x =? 13)%nat; [|done].
  by rewrite Z.quot_div_nonneg by lia.
Qed.

Lemma normalize_unix_neg x :
  x < 0 ->
  normalize_unix x = if (decimal_digits x =? 12)%nat then Z.quot x 1000 else x.
Proof.
  intros Hx. unfold normalize_unix. by rewrite str_int_length_neg by done.
Qed.

(** Thirteen digits are the values from [10^12] up to [10^13], of
    either sign. *)
Lemma thirteen_digits x :
  decimal_digits x = 13%nat <-> 10 ^ 12 <= Z.abs x < 10 ^ 13.
Proof.
  destruct (Z.eq_dec x 0) as [-> | Hne]; [split; [done | simpl; lia]|].
  apply (decimal_digits_spec x 12 Hne).
Qed.

Lemma normalize_unix_millis x :
  10 ^ 12 <= x < 10 ^ 13 -> normalize_unix x = x / 1000.
Proof.
  intros Hx. rewrite normalize_unix_nonneg by lia. unfold normalize_by_digits.
  assert (decimal_digits x = 13%nat) as -> by (apply thirteen_digits; lia). done.
Qed.

(** ** The two monads *)

Lemma bind_Ok {A B : Type} (m : result A) (f : A -> result B) (b : B) :
  m ≫= f = Ok b -> exists a, m = Ok a /\ f a = Ok b.
Proof. destruct m as [a|e]; [|done]. intros H. by exists a. Qed.

Lemma mapM_Ok {A B : Type} (f : A -> result B) l l' :
  result_mapM f l = Ok l' -> Forall2 (fun a b => f a = Ok b) l l'.
Proof.
  revert l'. induction l as [|a l IH]; intros l' H; simpl in H.
  - injection H as <-. constructor.
  - apply bind_Ok in H as (b & Hb & H). apply bind_Ok in H as (bs & Hbs & H).
    injection H as <-. constructor; auto.
Qed.

Lemma mapM_total {A B : Type} (f : A -> result B) (g : A -> B) l :
  (forall a, a ∈ l -> f a = Ok (g a)) -> result_mapM f l = Ok (g <$> l).
Proof.
  induction l as [|a l IH]; intros H; [done|]. simpl.
  rewrite H by left. simpl. rewrite IH; [done|]. intros b Hb. apply H. by right.
Qed.

(** Closed decidable facts on labels. *)
Ltac by_compute := apply (bool_decide_unpack _); vm_compute; exact I.

Ltac bind_inv H :=
  repeat (let a := fresh "a" in let E := fresh "E" in
          apply bind_Ok in H as (a & E & H); cbv beta zeta in H).

(** ** Series *)

Lemma astype_int_Ok s s' :
  astype_int s = Ok s' -> exists xs, result_mapM py_int s = Ok xs /\ s' = PInt <$> xs.
Proof.
  unfold astype_int. revert s'. induction s as [|v s IH]; intros s' H; simpl in *.
  - injection H as <-. by exists [].
  - bind_inv H. injection H as <-.
    destruct (py_int v) as [x|]; [|done]. simpl in E. injection E as <-.
    destruct (IH _ E0) as (xs & -> & ->). by exists (x :: xs).
Qed.

Lemma astype_int_ints xs : astype_int (PInt <$> xs) = Ok (PInt <$> xs).
Proof.
  unfold astype_int. induction xs as [|x xs IH]; [done|].
  rewrite fmap_cons. cbn [result_mapM]. rewrite IH. done.
Qed.

Lemma mapM_py_int_ints zs : result_mapM py_int (PInt <$> zs) = Ok zs.
Proof.
  induction zs as [|z zs IH]; [done|].
  rewrite fmap_cons. cbn [result_mapM py_int mbind result_bind]. by rewrite IH.
Qed.

Lemma series_apply_unix xs :
  series_apply unix_lambda (PInt <$> xs) = Ok (PInt <$> (normalize_unix <$> xs)).
Proof.
  unfold series_apply. induction xs as [|x xs IH]; [done|].
  rewrite !fmap_cons. cbn [result_mapM]. rewrite unix_lambda_total, IH. done.
Qed.

Lemma to_datetime_s_Ok ys d :
  to_datetime_s (PInt <$> ys) = Ok d -> d = PDatetime <$> ys /\ Forall datetime_ok ys.
Proof.
  unfold to_datetime_s. revert d. induction ys as [|y ys IH]; intros d H; simpl in H.
  - injection H as <-. by split.
  - bind_inv H. injection H as <-.
    destruct (Z.leb_spec (-9223372036) y); [|done].
    destruct (Z.leb_spec y 9223372036); [|done]. simpl in E. injection E as <-.
    destruct (IH _ E0) as [-> Hall]. split; [done|].
    constructor; [unfold datetime_ok; lia | done].
Qed.

Lemma to_datetime_s_ints ys :
  Forall datetime_ok ys -> to_datetime_s (PInt <$> ys) = Ok (PDatetime <$> ys).
Proof.
  unfold to_datetime_s. induction 1 as [|y ys Hy _ IH]; [done|].
  rewrite !fmap_cons. cbn [result_mapM]. rewrite IH. unfold datetime_ok in Hy.
  destruct (Z.leb_spec (-9223372036) y); [|lia].
  destruct (Z.leb_spec y 9223372036); [|lia]. done.
Qed.

(** ** Frames *)

Lemma length_range_index n : length (range_index n) = n.
Proof. unfold range_index. by rewrite length_fmap, length_seq. Qed.

Lemma filter_fmap {A B : Type} (f : A -> B) (P : B -> Prop) `{!forall y, Decision (P y)}
    (l : list A) :
  filter P (f <$> l) = f <$> filter (fun x => P (f x)) l.
Proof.
  induction l as [|x l IH]; [done|].
  rewrite fmap_cons, !filter_cons. destruct (decide (P (f x))); by rewrite IH.
Qed.

Lemma filter_ext_in {A : Type} (P Q : A -> Prop)
    `{!forall x, Decision (P x)} `{!forall x, Decision (Q x)} (l : list A) :
  (forall x, x ∈ l -> P x <-> Q x) -> filter P l = filter Q l.
Proof.
  induction l as [|x l IH]; intros Hext; [done|].
  rewrite !filter_cons.
  assert (HPQ : P x <-> Q x) by (apply Hext; left).
  rewrite IH by (intros y Hy; apply Hext; by right).
  destruct (decide (P x)), (decide (Q x)); tauto.
Qed.

Lemma labels_reverse df : labels (df_reverse df) = labels df.
Proof.
  unfold labels, df_reverse. simpl. rewrite <- list_fmap_compose.
  apply list_fmap_ext. by intros _ [l s] _.
Qed.

Lemma df_drop_Ok ls df df' :
  df_drop ls df = Ok df' ->
  Forall (fun l => l ∈ labels df) ls
  /\ df' = mk_df (df_index_name df) (df_index df)
                 (filter (fun c => c.1 ∉ ls) (df_columns df)).
Proof.
  unfold df_drop. destruct (filter _ ls) as [|l rest] eqn:E; [|done].
  intros H. injection H as <-. split; [|done].
  apply Forall_forall. intros l Hl.
  destruct (decide (l ∈ labels df)) as [|Hn]; [done|].
  exfalso. eapply filter_nil_not_elem_of; [exact E | exact Hn | exact Hl].
Qed.

Lemma df_drop_run ls df :
  Forall (fun l => l ∈ labels df) ls ->
  df_drop ls df = Ok (mk_df (df_index_name df) (df_index df)
                            (filter (fun c => c.1 ∉ ls) (df_columns df))).
Proof.
  intros H. unfold df_drop.
  destruct (filter _ ls) as [|l rest] eqn:E; [done|].
  assert (Hl : l ∈ filter (fun l => l ∉ labels df) ls) by (rewrite E; left).
  apply list_elem_of_filter in Hl as [Hn Hl].
  rewrite Forall_forall in H. by destruct Hn; apply H.
Qed.

Lemma df_getitem_Ok label df s :
  df_getitem label df = Ok s <->
  filter (fun c => c.1 = label) (df_columns df) = [(label, s)].
Proof.
  unfold df_getitem. split.
  - destruct (filter _ _) as [|[l s'] [|c rest]] eqn:E; try done.
    intros H. injection H as <-.
    assert (Hin : (l, s') ∈ filter (fun c => c.1 = label) (df_columns df))
      by (rewrite E; left).
    apply list_elem_of_filter in Hin as [Hl _]. simpl in Hl. by subst.
  - by intros ->.
Qed.

Lemma df_getitem_elem label df s :
  df_getitem label df = Ok s -> (label, s) ∈ df_columns df.
Proof.
  intros H%df_getitem_Ok.
  assert (Hin : (label, s) ∈ filter (fun c => c.1 = label) (df_columns df))
    by (rewrite H; left).
  by apply list_elem_of_filter in Hin as [_ ?].
Qed.

Lemma df_getitem_absent label df :
  label ∉ labels df -> df_getitem label df = Raise (KeyError label).
Proof.
  intros Hn. unfold df_getitem.
  destruct (filter _ _) as [|c rest] eqn:E; [done|].
  assert (Hin : c ∈ filter (fun c => c.1 = label) (df_columns df)) by (rewrite E; left).
  apply list_elem_of_filter in Hin as [Hl Hin].
  destruct Hn. unfold labels. rewrite <- Hl. by apply list_elem_of_fmap_2.
Qed.

Lemma set_column_labels label s cols : (set_column label s cols).*1 = cols.*1.
Proof.
  unfold set_column. rewrite <- list_fmap_compose. apply list_fmap_ext.
  intros _ c _. simpl. by destruct (decide (c.1 = label)).
Qed.

Lemma set_column_idemp label s1 s2 cols :
  set_column label s2 (set_column label s1 cols) = set_column label s2 cols.
Proof.
  unfold set_column. rewrite <- list_fmap_compose. apply list_fmap_ext.
  intros _ c _. simpl. destruct (decide (c.1 = label)); simpl.
  - by rewrite decide_True.
  - by rewrite decide_False.
Qed.

Lemma set_column_filter_same label s cols :
  filter (fun c => c.1 = label) (set_column label s cols)
  = (fun _ => (label, s)) <$> filter (fun c => c.1 = label) cols.
Proof.
  induction cols as [|c cols IH]; [done|].
  unfold set_column in *. rewrite fmap_cons, !filter_cons.
  destruct (decide (c.1 = label)); simpl.
  - rewrite decide_True by done. by rewrite IH.
  - rewrite decide_False by done. by rewrite IH.
Qed.

Lemma set_column_filter_other (P : string * Series -> Prop) `{!forall c, Decision (P c)}
    label s cols :
  (forall s', ¬ P (label, s')) ->
  filter P (set_column label s cols) = filter P cols.
Proof.
  intros Hn. induction cols as [|[l s0] cols IH]; [done|].
  unfold set_column in *. rewrite fmap_cons, !filter_cons. simpl.
  destruct (decide (l = label)) as [->|]; simpl.
  - rewrite !decide_False by done. by rewrite IH.
  - by rewrite IH.
Qed.

Lemma df_setitem_present label s df :
  label ∈ labels df ->
  df_setitem label s df
  = mk_df (df_index_name df) (df_index df) (set_column label s (df_columns df)).
Proof. intros H. unfold df_setitem. by rewrite decide_True. Qed.

Lemma df_setitem_absent label s df :
  label ∉ labels df ->
  df_setitem label s df
  = mk_df (df_index_name df) (df_index df) (df_columns df ++ [(label, s)]).
Proof. intros H. unfold df_setitem. by rewrite decide_False. Qed.

Lemma filter_label_absent label (cols : list (string * Series)) :
  label ∉ cols.*1 -> filter (fun c => c.1 = label) cols = [].
Proof.
  intros Hn. induction cols as [|c cols IH]; [done|].
  rewrite fmap_cons, not_elem_of_cons in Hn. destruct Hn as [Hne Hn].
  rewrite filter_cons, decide_False by done. by apply IH.
Qed.

Lemma filter_label_present label (cols : list (string * Series)) :
  label ∈ cols.*1 -> filter (fun c => c.1 = label) cols <> [].
Proof.
  intros Hin Hnil. apply list_elem_of_fmap in Hin as (c & -> & Hc).
  by eapply filter_nil_not_elem_of.
Qed.

Lemma df_getitem_setitem label s df s' :
  df_getitem label (df_setitem label s df) = Ok s' -> s' = s.
Proof.
  intros H%df_getitem_Ok. destruct (decide (label ∈ labels df)) as [Hin | Hn].
  - rewrite df_setitem_present in H by done. simpl in H.
    rewrite set_column_filter_same in H.
    destruct (filter _ (df_columns df)) as [|c rest]; [done|].
    rewrite fmap_cons in H. by injection H.
  - rewrite df_setitem_absent in H by done. simpl in H.
    rewrite filter_app, filter_label_absent in H by done.
    rewrite filter_cons, decide_True in H by done. by injection H.
Qed.

Lemma df_getitem_setitem_run label s df :
  (length (filter (fun c => c.1 = label) (df_columns df)) <= 1)%nat ->
  df_getitem label (df_setitem label s df) = Ok s.
Proof.
  intros Hlen. apply df_getitem_Ok.
  destruct (decide (label ∈ labels df)) as [Hin | Hn].
  - rewrite df_setitem_present by done. simpl. rewrite set_column_filter_same.
    pose proof (filter_label_present label (df_columns df) Hin) as Hne.
    destruct (filter _ (df_columns df)) as [|c [|c' rest]]; [done | done |].
    simpl in Hlen. lia.
  - rewrite df_setitem_absent by done. simpl.
    rewrite filter_app, filter_label_absent by done.
    by rewrite filter_cons, decide_True.
Qed.

Lemma df_setitem_filter_other label s df :
  filter (fun c => c.1 ≠ label) (df_columns (df_setitem label s df))
  = filter (fun c => c.1 ≠ label) (df_columns df).
Proof.
  destruct (decide (label ∈ labels df)) as [Hin | Hn].
  - rewrite df_setitem_present by done. simpl.
    apply set_column_filter_other. by intros s' ?.
  - rewrite df_setitem_absent by done. simpl.
    rewrite filter_app, filter_cons, decide_False by (by intros ?).
    by rewrite filter_nil, app_nil_r.
Qed.

Lemma df_set_index_setitem label s df df' :
  df_set_index label (df_setitem label s df) = Ok df' ->
  df' = mk_df (Some label) s (filter (fun c => c.1 ≠ label) (df_columns df)).
Proof.
  unfold df_set_index. intros H. bind_inv H. injection H as <-.
  apply df_getitem_setitem in E as ->. f_equal. apply df_setitem_filter_other.
Qed.

Lemma df_set_index_setitem_run label s df :
  (length (filter (fun c => c.1 = label) (df_columns df)) <= 1)%nat ->
  df_set_index label (df_setitem label s df)
  = Ok (mk_df (Some label) s (filter (fun c => c.1 ≠ label) (df_columns df))).
Proof.
  intros Hlen. unfold df_set_index. rewrite df_getitem_setitem_run by done.
  cbn [mbind result_bind]. by rewrite df_setitem_filter_other.
Qed.

Lemma df_reset_index_named name idx cols df' :
  df_reset_index (mk_df (Some name) idx cols) = Ok df' ->
  (name ∉ cols.*1) /\ df' = mk_df None (range_index (length idx)) ((name, idx) :: cols).
Proof.
  unfold df_reset_index, labels. simpl.
  destruct (decide (name ∈ cols.*1)); [done|]. intros H. by injection H as <-.
Qed.

Lemma df_reset_index_named_run name idx cols :
  name ∉ cols.*1 ->
  df_reset_index (mk_df (Some name) idx cols)
  = Ok (mk_df None (range_index (length idx)) ((name, idx) :: cols)).
Proof. intros Hn. unfold df_reset_index, labels. simpl. by rewrite decide_False. Qed.

Lemma astype_int_run s xs :
  result_mapM py_int s = Ok xs -> astype_int s = Ok (PInt <$> xs).
Proof.
  unfold astype_int. revert xs. induction s as [|v s IH]; intros xs H; simpl in H.
  - by injection H as <-.
  - bind_inv H. injection H as <-. cbn [result_mapM]. rewrite E. simpl.
    by rewrite (IH _ E0).
Qed.

Lemma labels_filter_notin (ls : list string) (cols : list (string * Series)) :
  (filter (fun c => c.1 ∉ ls) cols).*1 = filter (fun l => l ∉ ls) cols.*1.
Proof.
  induction cols as [|[l s] cols IH]; [done|].
  rewrite fmap_cons, !filter_cons. simpl.
  case_decide; rewrite ?fmap_cons; simpl; by rewrite IH.
Qed.

Lemma labels_filter_ne (l0 : string) (cols : list (string * Series)) :
  (filter (fun c => c.1 ≠ l0) cols).*1 = filter (fun l => l ≠ l0) cols.*1.
Proof.
  induction cols as [|[l s] cols IH]; [done|].
  rewrite fmap_cons, !filter_cons. simpl.
  case_decide; rewrite ?fmap_cons; simpl; by rewrite IH.
Qed.

Lemma labels_filter_eq (l0 : string) (cols : list (string * Series)) :
  (filter (fun c => c.1 = l0) cols).*1 = filter (fun l => l = l0) cols.*1.
Proof.
  induction cols as [|[l s] cols IH]; [done|].
  rewrite fmap_cons, !filter_cons. simpl.
  case_decide; rewrite ?fmap_cons; simpl; by rewrite IH.
Qed.

Lemma fmap_fst_prod_map {A : Type} (f : string -> string) (g : A -> A)
    (cols : list (string * A)) :
  (prod_map f g <$> cols).*1 = f <$> cols.*1.
Proof.
  induction cols as [|[l s] cols IH]; [done|]. rewrite !fmap_cons. simpl. by rewrite IH.
Qed.

Lemma Forall_filtered {A : Type} (P Q : A -> Prop) `{!forall x, Decision (Q x)} (l : list A) :
  Forall P l -> Forall P (filter Q l).
Proof.
  rewrite !Forall_forall. intros Hall x Hx. apply Hall.
  by apply list_elem_of_filter in Hx as [_ ?].
Qed.

(** ** The default routine *)

Lemma renamed_spec b q l :
  renamed b q l =
  if decide (l = "Date") then "date"
  else if decide (l = "Volume " +:+ q) then "volume_quote"
  else if decide (l = "Volume " +:+ b) then "volume_base"
  else l.
Proof.
  unfold renamed, default_rename. rewrite !lookup_insert, lookup_empty.
  repeat case_decide; simplify_eq; done.
Qed.

Lemma renamed_unix b q l : renamed b q l = "unix" <-> l = "unix".
Proof.
  rewrite renamed_spec. repeat case_decide; simplify_eq; split; try done.
Qed.

Lemma volume_renamed_spec l :
  volume_renamed l = if decide (l = "volume_base") then "volume" else l.
Proof.
  unfold volume_renamed. rewrite lookup_singleton.
  repeat case_decide; simplify_eq; done.
Qed.

Lemma lower_unix : lower "unix" = "unix"%string.
Proof. reflexivity. Qed.

Lemma read_csv_run w u k tr :
  read_csv w u k tr
  = (body ← http_body w u; cols ← parse_csv w (drop k body);
     Ok (mk_df None (range_index (length (default [] (snd <$> head cols)))) cols),
     tr ++ [u]).
Proof.
  unfold read_csv, urlopen, lift, mbind, io_bind.
  by destruct (http_body w u).
Qed.


(** The [unix] column that the code finds after the first [rename] is the
    column that the reader delivered under that label, rows reversed. *)
Lemma unix_source b q (cols : list (string * Series)) :
  filter (fun c => c.1 = "unix")
         (prod_map (renamed b q) id
            <$> filter (fun c => c.1 ∉ ["symbol"]) (prod_map id reverse <$> cols))
  = prod_map (renamed b q) id
      <$> (prod_map id reverse <$> filter (fun c => c.1 = "unix") cols).
Proof.
  rewrite filter_fmap. f_equal.
  rewrite list_filter_filter, filter_fmap. f_equal.
  apply filter_ext_in. intros [l s] _. simpl. rewrite renamed_unix.
  split; [tauto|]. intros ->. split; [done|].
  rewrite list_elem_of_singleton. done.
Qed.

Lemma df_setitem_twice label s1 s2 df :
  label ∈ labels df ->
  df_setitem label s2 (df_setitem label s1 df)
  = mk_df (df_index_name df) (df_index df) (set_column label s2 (df_columns df)).
Proof.
  intros Hin. rewrite (df_setitem_present label s1) by done.
  rewrite df_setitem_present by (unfold labels; simpl; by rewrite set_column_labels).
  simpl. by rewrite set_column_idemp.
Qed.

Lemma fetch_default_inv w self ex b q tf iav tr out tr' :
  fetch_default w self ex b q tf iav tr = (Ok out, tr') ->
  exists body cols raw xs,
    http_body w (default_url self ex b q tf) = Ok body
    /\ parse_csv w (drop 1 body) = Ok cols
    /\ tr' = tr ++ [default_url self ex b q tf]
    /\ filter (fun c => c.1 = "unix") cols = [("unix"%string, raw)]
    /\ result_mapM py_int (reverse raw) = Ok xs
    /\ Forall datetime_ok (normalize_unix <$> xs)
    /\ out = mk_df None (range_index (length xs))
               (default_columns b q iav cols (PInt <$> (normalize_unix <$> xs))
                  (PDatetime <$> (normalize_unix <$> xs))).
Proof.
  unfold fetch_default. fold (default_url self ex b q tf).
  fold (default_rename b q).
  unfold mbind at 1, io_bind. rewrite read_csv_run.
  destruct (http_body w _) as [body|] eqn:Hbody; [|done].
  cbn [mbind result_bind].
  destruct (parse_csv w _) as [cols|] eqn:Hcols; [|done].
  unfold lift. intros H. injection H as H <-.
  bind_inv H.
  (* the frame after [drop] and the first [rename] *)
  apply df_drop_Ok in E as [_ Ha].
  assert (Hnamed : df_columns (df_rename (default_rename b q) a)
                   = prod_map (renamed b q) id
                       <$> filter (fun c => c.1 ∉ ["symbol"]) (prod_map id reverse <$> cols)).
  { by rewrite Ha. }
  clear Ha. set (named := df_rename (default_rename b q) a) in *. clearbody named.
  (* the [unix] column *)
  assert (Hin : "unix"%string ∈ labels named).
  { apply df_getitem_elem in E0. unfold labels. apply list_elem_of_fmap.
    by exists ("unix"%string, a0). }
  apply df_getitem_Ok in E0. rewrite Hnamed, unix_source in E0.
  destruct (filter (fun c => c.1 = "unix") cols) as [|[l raw] [|c rest]] eqn:Hraw;
    try done.
  rewrite !fmap_cons in E0. simpl in E0. injection E0 as Hl <-.
  apply renamed_unix in Hl as ->.
  apply astype_int_Ok in E1 as (xs & Hxs & ->).
  apply df_getitem_setitem in E2 as ->.
  rewrite series_apply_unix in E3. injection E3 as <-.
  apply df_getitem_setitem in E4 as ->.
  apply to_datetime_s_Ok in E5 as [-> Hok].
  (* index and labels *)
  rewrite df_setitem_twice in E6 by done.
  apply df_set_index_setitem in E6 as ->. simpl in E7.
  apply (df_reset_index_named "date") in E7 as [_ ->].
  exists body, cols, raw, xs. repeat (split; [done|]).
  cbn [df_index df_columns df_index_name] in H.
  rewrite !length_fmap in H. unfold default_columns. rewrite <- Hnamed.
  destruct iav; cbn [negb] in H.
  - by injection H as <-.
  - bind_inv H. apply df_drop_Ok in E as [_ ->]. by injection H as <-.
Qed.

Lemma named_columns_labels b q (cols : list (string * Series)) :
  (prod_map (renamed b q) id
     <$> filter (fun c => c.1 ∉ ["symbol"]) (prod_map id reverse <$> cols)).*1
  = named_labels b q cols.*1.
Proof.
  unfold named_labels. rewrite fmap_fst_prod_map. f_equal.
  rewrite labels_filter_notin. f_equal.
  rewrite fmap_fst_prod_map. apply list_fmap_id.
Qed.

Lemma default_columns_labels b q iav cols u d :
  (default_columns b q iav cols u d).*1 = default_labels b q iav cols.*1.
Proof.
  unfold default_columns, default_labels.
  assert (Hall :
    (prod_map lower id <$>
       filter (fun c => c.1 ≠ "date")
         (set_column "unix" u
            (prod_map (renamed b q) id
               <$> filter (fun c => c.1 ∉ ["symbol"]) (prod_map id reverse <$> cols)))).*1
    = lower <$> filter (fun l => l ≠ "date") (named_labels b q cols.*1)).
  { rewrite fmap_fst_prod_map. f_equal.
    rewrite labels_filter_ne.
    by rewrite set_column_labels, named_columns_labels. }
  destruct iav.
  - rewrite fmap_cons. simpl. by rewrite Hall.
  - rewrite fmap_fst_prod_map. f_equal.
    rewrite labels_filter_notin.
    rewrite fmap_cons. simpl. by rewrite Hall.
Qed.

(** When the routine returns: the conditions under which every step of
    the reshaping goes through, and the frame that comes out. *)
Lemma fetch_default_run w self ex b q tf iav tr body cols raw xs :
  http_body w (default_url self ex b q tf) = Ok body ->
  parse_csv w (drop 1 body) = Ok cols ->
  "symbol"%string ∈ cols.*1 ->
  filter (fun c => c.1 = "unix") cols = [("unix"%string, raw)] ->
  result_mapM py_int (reverse raw) = Ok xs ->
  Forall datetime_ok (normalize_unix <$> xs) ->
  (length (filter (fun l => l = "date") (named_labels b q cols.*1)) <= 1)%nat ->
  "date"%string ∉ lower <$> filter (fun l => l ≠ "date") (named_labels b q cols.*1) ->
  (iav = false ->
   "volume_quote"%string ∈ lower <$> filter (fun l => l ≠ "date") (named_labels b q cols.*1)) ->
  fetch_default w self ex b q tf iav tr
  = (Ok (mk_df None (range_index (length xs))
           (default_columns b q iav cols (PInt <$> (normalize_unix <$> xs))
              (PDatetime <$> (normalize_unix <$> xs)))),
     tr ++ [default_url self ex b q tf]).
Proof.
  intros Hbody Hcols Hsym Hraw Hxs Hok Hdate1 Hdate2 Hvq.
  unfold fetch_default. fold (default_url self ex b q tf).
  fold (default_rename b q).
  unfold mbind at 1, io_bind. rewrite read_csv_run, Hbody.
  cbn [mbind result_bind]. rewrite Hcols. unfold lift. f_equal.
  set (df0 := df_reverse _).
  rewrite (df_drop_run ["symbol"] df0).
  2:{ apply Forall_singleton. subst df0. rewrite labels_reverse. exact Hsym. }
  cbn [mbind result_bind].
  set (named := df_rename (default_rename b q) _).
  assert (Hnamed : df_columns named
                   = prod_map (renamed b q) id
                       <$> filter (fun c => c.1 ∉ ["symbol"]) (prod_map id reverse <$> cols))
    by done.
  assert (Hlab : labels named = named_labels b q cols.*1).
  { unfold labels. rewrite Hnamed. apply named_columns_labels. }
  clearbody named. clear df0.
  assert (Hu : filter (fun c => c.1 = "unix") (df_columns named)
               = [("unix"%string, reverse raw)]).
  { rewrite Hnamed, unix_source, Hraw. rewrite !fmap_cons. simpl. f_equal. f_equal.
    by apply renamed_unix. }
  assert (Hin : "unix"%string ∈ labels named).
  { unfold labels. apply list_elem_of_fmap. exists ("unix"%string, reverse raw).
    split; [done|]. eapply list_elem_of_filter. rewrite Hu. left. }
  rewrite (proj2 (df_getitem_Ok "unix" named (reverse raw)) Hu).
  cbn [mbind result_bind]. rewrite (astype_int_run _ _ Hxs).
  cbn [mbind result_bind]. rewrite df_getitem_setitem_run by (rewrite Hu; simpl; lia).
  cbn [mbind result_bind]. rewrite series_apply_unix.
  cbn [mbind result_bind]. rewrite df_setitem_twice by done.
  rewrite (proj2 (df_getitem_Ok "unix" _ (PInt <$> (normalize_unix <$> xs)))).
  2:{ simpl. rewrite set_column_filter_same, Hu. done. }
  cbn [mbind result_bind]. rewrite (to_datetime_s_ints _ Hok).
  cbn [mbind result_bind].
  rewrite df_set_index_setitem_run.
  2:{ cbn [df_columns].
      rewrite (set_column_filter_other (fun c => c.1 = "date")) by (by intros s' ?).
      rewrite <- (length_fmap fst), labels_filter_eq. fold (labels named).
      by rewrite Hlab. }
  cbn [mbind result_bind df_columns df_index df_index_name].
  unfold df_map_columns. cbn [df_columns df_index df_index_name].
  rewrite df_reset_index_named_run.
  2:{ rewrite fmap_fst_prod_map, labels_filter_ne, set_column_labels.
      fold (labels named). by rewrite Hlab. }
  cbn [mbind result_bind]. rewrite !length_fmap.
  unfold default_columns. rewrite <- Hnamed.
  destruct iav; cbn [negb]; [done|].
  rewrite df_drop_run.
  2:{ apply Forall_singleton. unfold labels. cbn [df_columns].
      rewrite fmap_cons. right.
      rewrite fmap_fst_prod_map, labels_filter_ne, set_column_labels.
      fold (labels named). rewrite Hlab. by apply Hvq. }
  done.
Qed.

Lemma default_columns_unix b q iav cols u d raw :
  ("unix"%string, raw) ∈ cols ->
  ("unix"%string, u) ∈ default_columns b q iav cols u d.
Proof.
  intros Hin. unfold default_columns.
  set (named := prod_map (renamed b q) id <$> _).
  assert (Hnamed : ("unix"%string, reverse raw) ∈ named).
  { subst named. apply list_elem_of_fmap. exists ("unix"%string, reverse raw).
    split; [unfold prod_map; simpl; f_equal; symmetry; by apply renamed_unix|].
    apply list_elem_of_filter. split; [simpl; by_compute|].
    apply list_elem_of_fmap. by exists ("unix"%string, raw). }
  assert (Hbody : ("unix"%string, u)
                  ∈ prod_map lower id
                      <$> filter (fun c => c.1 ≠ "date") (set_column "unix" u named)).
  { apply list_elem_of_fmap. exists ("unix"%string, u). split; [done|].
    apply list_elem_of_filter. split; [done|].
    unfold set_column. apply list_elem_of_fmap. exists ("unix"%string, reverse raw).
    split; [|done]. by rewrite decide_True. }
  destruct iav.
  - by right.
  - apply list_elem_of_fmap. exists ("unix"%string, u). split; [done|].
    apply list_elem_of_filter. split; [simpl; by_compute | by right].
Qed.

Lemma default_columns_date b q iav cols u d :
  ("date"%string, d) ∈ default_columns b q iav cols u d.
Proof.
  unfold default_columns. destruct iav; [by left|].
  apply list_elem_of_fmap. exists ("date"%string, d). split; [done|].
  apply list_elem_of_filter. split; [simpl; by_compute | by left].
Qed.

(** ** Labels of the frame returned by the default routine *)

Lemma count_label_fmap_filter (f : string -> string) (P : string -> Prop)
    `{!forall l, Decision (P l)} (v : string) (ls : list string) :
  count_label v (f <$> filter P ls)
  = length (filter (fun l => P l /\ f l = v) ls).
Proof.
  unfold count_label. induction ls as [|l ls IH]; [done|].
  rewrite !filter_cons. destruct (decide (P l)) as [HP | HP].
  - rewrite fmap_cons, filter_cons. destruct (decide (f l = v)) as [Hf | Hf].
    + rewrite decide_True by done. simpl. by rewrite IH.
    + rewrite decide_False by tauto. done.
  - rewrite decide_False by tauto. done.
Qed.

Lemma count_label_zero v ls : count_label v ls = 0%nat <-> v ∉ ls.
Proof.
  unfold count_label. split.
  - intros Hlen Hin. apply length_zero_iff_nil in Hlen.
    by eapply (filter_nil_not_elem_of _ _ v Hlen).
  - intros Hn. induction ls as [|l ls IH]; [done|].
    apply not_elem_of_cons in Hn as [Hne Hn].
    rewrite filter_cons, decide_False by done. by apply IH.
Qed.

Lemma count_label_cons_ne v l ls : l ≠ v -> count_label v (l :: ls) = count_label v ls.
Proof. intros Hne. unfold count_label. by rewrite filter_cons, decide_False. Qed.

Lemma volume_label_inj b q : "Volume " +:+ b = "Volume " +:+ q -> b = q.
Proof. simpl. intros H. by simplify_eq. Qed.

(** The labels besides ["date"], before the last step, as one map over a
    filter of the header. *)
Lemma body_labels b q (header : list string) :
  lower <$> filter (fun l => l ≠ "date") (named_labels b q header)
  = (fun l => lower (renamed b q l))
      <$> filter (fun l => (l ∉ ["symbol"]) /\ renamed b q l ≠ "date") header.
Proof.
  unfold named_labels. induction header as [|l ls IH]; [done|].
  rewrite !filter_cons. destruct (decide (l ∉ ["symbol"])) as [Hs | Hs].
  - rewrite fmap_cons, filter_cons.
    destruct (decide (renamed b q l ≠ "date")) as [Hd | Hd].
    + rewrite decide_True by done. rewrite !fmap_cons. by rewrite IH.
    + rewrite decide_False by tauto. done.
  - rewrite decide_False by tauto. done.
Qed.

Lemma lower_renamed_cases b q l :
  l ∉ ["symbol"] -> renamed b q l ≠ "date" ->
  (l = "Volume " +:+ q /\ lower (renamed b q l) = "volume_quote")
  \/ (l ≠ "Volume " +:+ q /\ l = "Volume " +:+ b /\ lower (renamed b q l) = "volume_base")
  \/ (l ≠ "Volume " +:+ q /\ l ≠ "Volume " +:+ b /\ renamed b q l = l).
Proof.
  intros _ Hd. rewrite renamed_spec in *.
  repeat case_decide; simplify_eq; auto.
Qed.

Lemma volume_base_kept b q :
  b ≠ q ->
  ("Volume " +:+ b ∉ ["symbol"]) /\ renamed b q ("Volume " +:+ b) ≠ "date"
  /\ lower (renamed b q ("Volume " +:+ b)) = "volume_base".
Proof.
  intros Hbq. rewrite renamed_spec.
  rewrite decide_False by (simpl; discriminate).
  rewrite decide_False by (intros ?%volume_label_inj; done).
  rewrite decide_True by done.
  split; [|done]. rewrite list_elem_of_singleton. simpl. discriminate.
Qed.

Lemma volume_quote_kept b q :
  ("Volume " +:+ q ∉ ["symbol"]) /\ renamed b q ("Volume " +:+ q) ≠ "date"
  /\ lower (renamed b q ("Volume " +:+ q)) = "volume_quote".
Proof.
  rewrite renamed_spec.
  rewrite decide_False by (simpl; discriminate).
  rewrite decide_True by done.
  split; [|done]. rewrite list_elem_of_singleton. simpl. discriminate.
Qed.

(** With both volumes kept, a header of the provider's layout gives one
    [volume_base], one [volume_quote] and no [volume]. *)
Lemma default_labels_all_volumes b q header :
  provider_layout b q header ->
  count_label "volume_base" (default_labels b q true header) = 1%nat
  /\ count_label "volume_quote" (default_labels b q true header) = 1%nat
  /\ "volume"%string ∉ default_labels b q true header.
Proof.
  intros (Hbq & Hb & Hq & Hother). unfold default_labels. rewrite body_labels.
  pose proof (volume_base_kept b q Hbq) as (Hb1 & Hb2 & Hb3).
  pose proof (volume_quote_kept b q) as (Hq1 & Hq2 & Hq3).
  repeat split.
  - rewrite count_label_cons_ne by done.
    etrans; [apply count_label_fmap_filter|].
    rewrite <- Hb. unfold count_label. f_equal. apply filter_ext_in.
    intros l Hl. split.
    + intros [[Hs Hd] Hv].
      destruct (lower_renamed_cases b q l Hs Hd)
        as [[-> Hc] | [(_ & -> & _) | (Hnq & Hnb & Hc)]]; [congruence | done |].
      rewrite Hc in Hv. specialize (Hother l Hl Hnb Hnq). rewrite Hv in Hother.
      exfalso. apply Hother. by_compute.
    + by intros ->.
  - rewrite count_label_cons_ne by done.
    etrans; [apply count_label_fmap_filter|].
    rewrite <- Hq. unfold count_label. f_equal. apply filter_ext_in.
    intros l Hl. split.
    + intros [[Hs Hd] Hv].
      destruct (lower_renamed_cases b q l Hs Hd)
        as [[-> Hc] | [(_ & -> & Hc) | (Hnq & Hnb & Hc)]]; [done | congruence |].
      rewrite Hc in Hv. specialize (Hother l Hl Hnb Hnq). rewrite Hv in Hother.
      exfalso. apply Hother. by_compute.
    + by intros ->.
  - intros Hin. apply elem_of_cons in Hin as [? | Hin]; [done|].
    apply list_elem_of_fmap in Hin as (l & Hv & Hl).
    apply list_elem_of_filter in Hl as [[Hs Hd] Hl].
    destruct (lower_renamed_cases b q l Hs Hd)
      as [[-> Hc] | [(_ & -> & Hc) | (Hnq & Hnb & Hc)]]; [congruence | congruence |].
    rewrite Hc in Hv. specialize (Hother l Hl Hnb Hnq). rewrite <- Hv in Hother.
    apply Hother. by_compute.
Qed.

(** Without the second volume, neither [volume_base] nor [volume_quote]
    is left, whatever the header. *)
Lemma default_labels_one_volume_absent b q header :
  ("volume_base"%string ∉ default_labels b q false header)
  /\ ("volume_quote"%string ∉ default_labels b q false header).
Proof.
  unfold default_labels. split; intros Hin.
  - apply list_elem_of_fmap in Hin as (l & Hv & _).
    rewrite volume_renamed_spec in Hv. by case_decide.
  - apply list_elem_of_fmap in Hin as (l & Hv & Hl).
    apply list_elem_of_filter in Hl as [Hl _].
    rewrite volume_renamed_spec in Hv. case_decide; [done|]. subst l.
    apply Hl. by_compute.
Qed.

(** With one volume, a header of the provider's layout gives exactly one
    [volume]. *)
Lemma default_labels_one_volume b q header :
  provider_layout b q header ->
  count_label "volume" (default_labels b q false header) = 1%nat.
Proof.
  intros (Hbq & Hb & Hq & Hother). unfold default_labels. rewrite body_labels.
  pose proof (volume_base_kept b q Hbq) as (Hb1 & Hb2 & Hb3).
  rewrite filter_cons, decide_True by by_compute. rewrite fmap_cons.
  rewrite count_label_cons_ne by done.
  etrans; [apply count_label_fmap_filter|].
  rewrite filter_fmap, length_fmap, list_filter_filter.
  rewrite <- Hb. unfold count_label. f_equal. apply filter_ext_in.
  intros l Hl. split.
  - intros [[Hnv Hv] [Hs Hd]].
    destruct (lower_renamed_cases b q l Hs Hd)
      as [[-> Hc] | [(_ & -> & _) | (Hnq & Hnb & Hc)]]; [|done|].
    + exfalso. apply Hnv. rewrite Hc. by_compute.
    + rewrite Hc in Hv. specialize (Hother l Hl Hnb Hnq).
      rewrite volume_renamed_spec in Hv. exfalso. apply Hother.
      case_decide as Hvb; [rewrite Hvb | rewrite Hv]; by_compute.
  - intros ->. rewrite Hb3. split; [|done]. split; [by_compute | done].
Qed.

(** ** Claims on the default routine *)

(** C8.  When the retrieval fails, or the reader fails on what was
    retrieved, [fetch_default] raises that very exception, and the only
    request it has made is the one for its own locator: nothing is tried
    again and no other provider is asked. *)
Theorem fetch_default_propagates w self ex b q tf iav tr e :
  http_body w (default_url self ex b q tf) = Raise e
  \/ (exists body, http_body w (default_url self ex b q tf) = Ok body
                   /\ parse_csv w (drop 1 body) = Raise e) ->
  fetch_default w self ex b q tf iav tr = (Raise e, tr ++ [default_url self ex b q tf]).
Proof.
  intros H. unfold fetch_default. fold (default_url self ex b q tf).
  unfold mbind at 1, io_bind. rewrite read_csv_run.
  destruct H as [-> | (body & -> & Hparse)]; [done|].
  cbn [mbind result_bind]. by rewrite Hparse.
Qed.

Lemma fetch_default_propagates_witness :
  fetch_default (mk_world (fun _ => Raise (URLError "HTTP Error 404: Not Found"))
                          (fun _ => Ok []) (fun _ => Ok PNone) (fixed_zone 0))
                init "binance" "USD" "BTC" "d" false []
  = (Raise (URLError "HTTP Error 404: Not Found"),
     ["https://www.cryptodatadownload.com/cdd/binance_BTCUSD_d.csv"]).
Proof.
  apply (fetch_default_propagates
           (mk_world (fun _ => Raise (URLError "HTTP Error 404: Not Found"))
                     (fun _ => Ok []) (fun _ => Ok PNone) (fixed_zone 0))
           init "binance" "USD" "BTC" "d" false []).
  left. reflexivity.
Defined.

(** The labels of a returned frame are [default_labels] of the header. *)
Lemma fetch_default_labels w self ex b q tf iav tr out tr' body cols :
  http_body w (default_url self ex b q tf) = Ok body ->
  parse_csv w (drop 1 body) = Ok cols ->
  fetch_default w self ex b q tf iav tr = (Ok out, tr') ->
  labels out = default_labels b q iav cols.*1.
Proof.
  intros Hbody Hcols Hrun.
  apply fetch_default_inv in Hrun as (body' & cols' & raw & xs & Hb & Hc & _ & _ & _ & _ & ->).
  rewrite Hbody in Hb. injection Hb as <-. rewrite Hcols in Hc. injection Hc as <-.
  apply default_columns_labels.
Qed.

(** C2, amended.  For every call of [fetch_default] that returns: with
    [include_all_volumes] false the frame has no column [volume_base] and
    no column [volume_quote]; and when the header read has the provider's
    layout, it has exactly one column [volume] in that case, and with
    [include_all_volumes] true exactly one [volume_base], exactly one
    [volume_quote] and no [volume]. *)
Theorem fetch_default_volume_columns w self ex b q tf iav tr out tr' body cols :
  http_body w (default_url self ex b q tf) = Ok body ->
  parse_csv w (drop 1 body) = Ok cols ->
  fetch_default w self ex b q tf iav tr = (Ok out, tr') ->
  (iav = false ->
   ("volume_base"%string ∉ labels out) /\ ("volume_quote"%string ∉ labels out))
  /\ (provider_layout b q cols.*1 ->
      if iav
      then count_label "volume_base" (labels out) = 1%nat
           /\ count_label "volume_quote" (labels out) = 1%nat
           /\ ("volume"%string ∉ labels out)
      else count_label "volume" (labels out) = 1%nat
           /\ ("volume_base"%string ∉ labels out)
           /\ ("volume_quote"%string ∉ labels out)).
Proof.
  intros Hbody Hcols Hrun.
  rewrite (fetch_default_labels _ _ _ _ _ _ _ _ _ _ _ _ Hbody Hcols Hrun).
  split.
  - intros ->. apply default_labels_one_volume_absent.
  - intros Hlay. destruct iav.
    + by apply default_labels_all_volumes.
    + split; [by apply default_labels_one_volume|].
      apply default_labels_one_volume_absent.
Qed.

Lemma sample_layout : provider_layout "USD" "BTC" sample_table.*1.
Proof.
  split; [discriminate|]. split; [reflexivity|]. split; [reflexivity|].
  intros l Hl Hb Hq. simpl in Hl.
  repeat (apply elem_of_cons in Hl as [-> | Hl]; [first [done | by_compute]|]).
  by apply elem_of_nil in Hl.
Qed.

Lemma fetch_default_volume_columns_witness :
  let out := frame_of (fetch_default sample_world init "Bitstamp" "USD" "BTC" "d" false []) in
  count_label "volume" (labels out) = 1%nat
  /\ ("volume_base"%string ∉ labels out)
  /\ ("volume_quote"%string ∉ labels out).
Proof.
  intros out.
  apply (proj2 (fetch_default_volume_columns sample_world init "Bitstamp" "USD" "BTC" "d"
                  false [] out
                  ["https://www.cryptodatadownload.com/cdd/Bitstamp_BTCUSD_d.csv"]
                  sample_lines sample_table eq_refl eq_refl eq_refl)).
  exact sample_layout.
Defined.

(** C2 as stated fails.  The provider's file for BTC/USD is also reached
    with the symbols cut elsewhere; no column is then called
    ["Volume SD"] or ["Volume BTCU"], the call returns, and with
    [include_all_volumes] true the frame has neither [volume_base] nor
    [volume_quote]. *)
Lemma fetch_default_volume_columns_counterexample :
  let run := fetch_default sample_world init "Bitstamp" "SD" "BTCU" "d" true [] in
  run.2 = ["https://www.cryptodatadownload.com/cdd/Bitstamp_BTCUSD_d.csv"]
  /\ run.1 = Ok (frame_of run)
  /\ labels (frame_of run)
     = ["date"; "unix"; "open"; "high"; "low"; "close"; "volume btc"; "volume usd"]
  /\ ("volume_base"%string ∉ labels (frame_of run))
  /\ ("volume_quote"%string ∉ labels (frame_of run)).
Proof.
  intros run. split; [reflexivity|]. split; [reflexivity|]. split; [reflexivity|].
  split; by_compute.
Qed.

(** C9.  Every frame [fetch_default] returns, with either value of
    [include_all_volumes], has a column labelled [unix]; and when the
    column read under that label holds integers of 64 bits, the column
    returned holds these integers, in reverse order, each normalized. *)
Theorem fetch_default_keeps_unix w self ex b q tf iav tr out tr' body cols :
  http_body w (default_url self ex b q tf) = Ok body ->
  parse_csv w (drop 1 body) = Ok cols ->
  fetch_default w self ex b q tf iav tr = (Ok out, tr') ->
  "unix"%string ∈ labels out
  /\ forall xs, ("unix"%string, PInt <$> xs) ∈ cols -> Forall int64_cell xs ->
       ("unix"%string, PInt <$> (normalize_unix <$> reverse xs)) ∈ df_columns out.
Proof.
  intros Hbody Hcols Hrun.
  apply fetch_default_inv in Hrun
    as (body' & cols' & raw & xs' & Hb & Hc & _ & Hraw & Hxs & _ & ->).
  rewrite Hbody in Hb. injection Hb as <-. rewrite Hcols in Hc. injection Hc as <-.
  assert (Hin : ("unix"%string, raw) ∈ cols).
  { eapply (list_elem_of_filter (fun c => c.1 = "unix")). rewrite Hraw. left. }
  assert (Hout : ("unix"%string, PInt <$> (normalize_unix <$> xs'))
                 ∈ default_columns b q iav cols (PInt <$> (normalize_unix <$> xs'))
                     (PDatetime <$> (normalize_unix <$> xs')))
    by (by eapply default_columns_unix).
  split.
  - unfold labels. cbn [df_columns]. apply list_elem_of_fmap.
    by exists ("unix"%string, PInt <$> (normalize_unix <$> xs')).
  - intros xs Hxs_in _. cbn [df_columns].
    assert (raw = PInt <$> xs) as ->.
    { assert (H : ("unix"%string, PInt <$> xs) ∈ filter (fun c => c.1 = "unix") cols)
        by (by apply list_elem_of_filter).
      rewrite Hraw in H. apply list_elem_of_singleton in H. by injection H. }
    rewrite <- fmap_reverse, mapM_py_int_ints in Hxs. by injection Hxs as <-.
Qed.

Lemma fetch_default_keeps_unix_witness :
  ("unix"%string, PInt <$> (normalize_unix <$> reverse (row_unix <$> sample_rows)))
  ∈ df_columns (frame_of (fetch_default sample_world init "Bitstamp" "USD" "BTC" "d"
                            true [])).
Proof.
  apply (proj2 (fetch_default_keeps_unix sample_world init "Bitstamp" "USD" "BTC" "d" true []
                  (frame_of (fetch_default sample_world init "Bitstamp" "USD" "BTC" "d"
                               true []))
                  ["https://www.cryptodatadownload.com/cdd/Bitstamp_BTCUSD_d.csv"]
                  sample_lines sample_table eq_refl eq_refl eq_refl)
           (row_unix <$> sample_rows)).
  - left.
  - unfold int64_cell. repeat constructor; simpl; lia.
Defined.

(** ** The default routine on a file of the provider *)

Lemma provider_table_labels b q rows :
  (provider_table b q rows).*1 = provider_header b q.
Proof. reflexivity. Qed.

Lemma named_labels_provider b q :
  b ≠ q ->
  named_labels b q (provider_header b q)
  = ["unix"; "date"; "open"; "high"; "low"; "close"; "volume_quote"; "volume_base"].
Proof.
  intros Hbq. unfold named_labels, provider_header.
  assert (Hs : forall s, "Volume " +:+ s ∉ ["symbol"])
    by (intros s; rewrite list_elem_of_singleton; simpl; discriminate).
  repeat first [ rewrite filter_cons_True by first [apply Hs | by_compute]
               | rewrite filter_cons_False by (intros Hn; apply Hn; left) ].
  rewrite filter_nil, !fmap_cons, fmap_nil.
  pose proof (volume_base_kept b q Hbq) as (_ & _ & Hb).
  pose proof (volume_quote_kept b q) as (_ & _ & Hq).
  rewrite !renamed_spec.
  rewrite (decide_False (P := "Volume " +:+ b = "Date")) by (simpl; discriminate).
  rewrite (decide_False (P := "Volume " +:+ q = "Date")) by (simpl; discriminate).
  rewrite (decide_False (P := "Volume " +:+ b = "Volume " +:+ q))
    by (intros ?%volume_label_inj; done).
  rewrite !(decide_True (P := "Volume " +:+ q = "Volume " +:+ q)) by done.
  rewrite !(decide_True (P := "Volume " +:+ b = "Volume " +:+ b)) by done.
  repeat (rewrite decide_False by (simpl; discriminate)).
  reflexivity.
Qed.

Lemma provider_table_unix b q rows :
  filter (fun c => c.1 = "unix") (provider_table b q rows)
  = [("unix"%string, (fun r => PInt (row_unix r)) <$> rows)].
Proof.
  unfold provider_table.
  rewrite filter_cons_True by done.
  repeat (rewrite filter_cons_False by (simpl; discriminate)).
  by rewrite filter_nil.
Qed.

Lemma set_column_lengths n label s (cols : list (string * Series)) :
  length s = n -> Forall (fun c => length c.2 = n) cols ->
  Forall (fun c => length c.2 = n) (set_column label s cols).
Proof.
  intros Hs Hall. unfold set_column. apply Forall_fmap.
  eapply Forall_impl; [exact Hall|]. intros c Hc. simpl. by case_decide.
Qed.

(** Every column that comes out has the number of rows that went in. *)
Lemma default_columns_lengths n b q iav cols u d :
  Forall (fun c => length c.2 = n) cols -> length u = n -> length d = n ->
  Forall (fun c => length c.2 = n) (default_columns b q iav cols u d).
Proof.
  intros Hcols Hu Hd. unfold default_columns.
  set (named := prod_map (renamed b q) id <$> _).
  assert (Hnamed : Forall (fun c => length c.2 = n) named).
  { subst named. apply Forall_fmap. apply Forall_filtered. apply Forall_fmap.
    eapply Forall_impl; [exact Hcols|]. intros [l s] Hc. simpl in *.
    by rewrite length_reverse. }
  assert (Hall : Forall (fun c => length c.2 = n)
                   (("date"%string, d)
                      :: (prod_map lower id
                            <$> filter (fun c => c.1 ≠ "date") (set_column "unix" u named)))).
  { constructor; [done|]. apply Forall_fmap. apply Forall_filtered.
    eapply Forall_impl; [by apply set_column_lengths|]. by intros [l s] Hc. }
  destruct iav; [done|].
  apply Forall_fmap. apply Forall_filtered.
  eapply Forall_impl; [exact Hall|]. by intros [l s] Hc.
Qed.

(** A label carried by one column selects that column. *)
Lemma df_getitem_unique label s df :
  (label, s) ∈ df_columns df -> count_label label (labels df) = 1%nat ->
  df_getitem label df = Ok s.
Proof.
  intros Hin Hcount. apply df_getitem_Ok.
  assert (Hf : (label, s) ∈ filter (fun c => c.1 = label) (df_columns df))
    by (by apply list_elem_of_filter).
  unfold count_label, labels in Hcount. rewrite <- labels_filter_eq, length_fmap in Hcount.
  destruct (filter _ (df_columns df)) as [|c [|c' rest]]; simpl in Hcount; try lia.
  by apply list_elem_of_singleton in Hf as <-.
Qed.


Lemma default_labels_provider b q iav :
  b ≠ q ->
  default_labels b q iav (provider_header b q)
  = ["date"; "unix"; "open"; "high"; "low"; "close"]
      ++ (if iav then ["volume_quote"; "volume_base"] else ["volume"]).
Proof.
  intros Hbq. unfold default_labels. rewrite named_labels_provider by done.
  destruct iav; vm_compute; reflexivity.
Qed.

Lemma millis_seconds x :
  10 ^ 12 <= x <= last_millisecond ->
  normalize_unix x = x / 1000 /\ datetime_ok (x / 1000) /\ 10 ^ 9 <= x / 1000 < 10 ^ 10.
Proof.
  unfold last_millisecond, datetime_ok. intros Hx.
  rewrite normalize_unix_millis by lia.
  assert (10 ^ 9 <= x / 1000) by (apply Z.div_le_lower_bound; lia).
  assert (x / 1000 <= 9223372036) by (apply Z.lt_succ_r, Z.div_lt_upper_bound; lia).
  lia.
Qed.

(** ** The normalization of [unix], as claimed *)

(** C3, amended.  [unix_lambda] returns for every integer.  On a value
    that is not negative it is the normalization of the specification:
    division by 1000 exactly when the value has 13 digits.  On a negative
    value the minus sign counts in the length that is tested, so the
    values divided, toward zero, are those of 12 digits.  In particular
    1700000000000 becomes 1700000000, which stays as it is. *)
Theorem unix_normalization x :
  unix_lambda x
  = Ok (if 0 <=? x then normalize_by_digits x
        else if (decimal_digits x =? 12)%nat then Z.quot x 1000 else x)
  /\ unix_lambda 1700000000000 = Ok 1700000000
  /\ unix_lambda 1700000000 = Ok 1700000000.
Proof.
  split; [|split; reflexivity].
  rewrite unix_lambda_total. f_equal.
  destruct (Z.leb_spec 0 x).
  - by apply normalize_unix_nonneg.
  - by apply normalize_unix_neg.
Qed.

(** C3 as stated fails on a negative value of 12 digits: the
    specification leaves it alone, the code divides it. *)
Lemma unix_normalization_counterexample :
  decimal_digits (-123456789012) = 12%nat
  /\ normalize_by_digits (-123456789012) = -123456789012
  /\ unix_lambda (-123456789012) = Ok (-123456789).
Proof. repeat split. Qed.

(** Such a value goes through a call that returns. *)
Example unix_normalization_in_a_call :
  df_getitem "unix"
    (frame_of (fetch_default early_world init "Bitstamp" "USD" "BTC" "d" false []))
  = Ok [PInt (-123456789)].
Proof. vm_compute. reflexivity. Qed.

(** ** Dispatch *)

Lemma caseless_eq_lower s t : caseless_eq s t = true <-> lower s = lower t.
Proof.
  revert t. induction s as [|a s IH]; intros [|b t]; simpl; try done.
  rewrite andb_true_iff, IH, Ascii.eqb_eq. split.
  - by intros [-> ->].
  - intros H. by injection H.
Qed.

Lemma fetch_by_name w self ex b q tf iav :
  (caseless_eq ex "gemini" = true ->
   fetch w self ex b q tf iav = fetch_gemini w self b q tf)
  /\ (caseless_eq ex "mofid" = true ->
      fetch w self ex b q tf iav = fetch_mofid w self b q tf)
  /\ (caseless_eq ex "gemini" = false -> caseless_eq ex "mofid" = false ->
      fetch w self ex b q tf iav = fetch_default w self ex b q tf iav).
Proof.
  unfold fetch.
  assert (Hg : String.eqb (lower ex) "gemini" = caseless_eq ex "gemini").
  { apply eq_true_iff_eq. by rewrite String.eqb_eq, caseless_eq_lower. }
  assert (Hm : String.eqb (lower ex) "mofid" = caseless_eq ex "mofid").
  { apply eq_true_iff_eq. by rewrite String.eqb_eq, caseless_eq_lower. }
  rewrite Hg, Hm. repeat split.
  - by intros ->.
  - intros Hmo. rewrite Hmo.
    destruct (caseless_eq ex "gemini") eqn:Hge; [|done].
    apply caseless_eq_lower in Hge. apply caseless_eq_lower in Hmo.
    rewrite Hge in Hmo. discriminate.
  - by intros -> ->.
Qed.

(** C1.  [fetch] goes by the name of the exchange, letter case apart:
    any spelling of "gemini" runs the Gemini routine, any spelling of
    "mofid" the Mofid routine, and every other name runs the default
    routine; so "Gemini" and "GEMINI" run the Gemini routine and "binance"
    the default one.  The outcome of [fetch] is the outcome of the routine
    it runs: the dispatch itself raises nothing. *)
Theorem fetch_dispatch w self ex b q tf iav :
  (caseless_eq ex "gemini" = true ->
   fetch w self ex b q tf iav = fetch_gemini w self b q tf)
  /\ (caseless_eq ex "mofid" = true ->
      fetch w self ex b q tf iav = fetch_mofid w self b q tf)
  /\ (caseless_eq ex "gemini" = false -> caseless_eq ex "mofid" = false ->
      fetch w self ex b q tf iav = fetch_default w self ex b q tf iav)
  /\ fetch w self "Gemini" b q tf iav = fetch_gemini w self b q tf
  /\ fetch w self "GEMINI" b q tf iav = fetch_gemini w self b q tf
  /\ fetch w self "binance" b q tf iav = fetch_default w self "binance" b q tf iav.
Proof.
  pose proof (fetch_by_name w self ex b q tf iav) as (Hg & Hm & Hd).
  repeat split; try done.
Qed.

Lemma fetch_dispatch_witness :
  fetch sample_world init "gEmInI" "BTC" "USD" "1h" false
  = fetch_gemini sample_world init "BTC" "USD" "1h"
  /\ fetch sample_world init "MOFID" "BTC" "USD" "1h" false
     = fetch_mofid sample_world init "BTC" "USD" "1h"
  /\ fetch sample_world init "Kraken" "BTC" "USD" "1h" false
     = fetch_default sample_world init "Kraken" "BTC" "USD" "1h" false.
Proof.
  split.
  - exact (proj1 (fetch_dispatch sample_world init "gEmInI" "BTC" "USD" "1h" false) eq_refl).
  - split.
    + exact (proj1 (proj2 (fetch_dispatch sample_world init "MOFID" "BTC" "USD" "1h" false))
               eq_refl).
    + exact (proj1 (proj2 (proj2 (fetch_dispatch sample_world init "Kraken" "BTC" "USD" "1h"
                                   false)))
               eq_refl eq_refl).
Defined.

(** C10.  When the name spells "gemini" or "mofid", [fetch] runs a routine
    that has no [include_all_volumes] parameter, and what [fetch] does is
    the same for both values of the argument. *)
Theorem fetch_ignores_all_volumes w self ex b q tf :
  caseless_eq ex "gemini" = true \/ caseless_eq ex "mofid" = true ->
  fetch w self ex b q tf true = fetch w self ex b q tf false
  /\ exists routine : io DataFrame,
       (routine = fetch_gemini w self b q tf \/ routine = fetch_mofid w self b q tf)
       /\ forall iav, fetch w self ex b q tf iav = routine.
Proof.
  intros [Hg | Hm].
  - assert (Hall : forall iav, fetch w self ex b q tf iav = fetch_gemini w self b q tf).
    { intros iav. by apply fetch_by_name. }
    split; [by rewrite !Hall|]. exists (fetch_gemini w self b q tf). auto.
  - assert (Hall : forall iav, fetch w self ex b q tf iav = fetch_mofid w self b q tf).
    { intros iav. by apply fetch_by_name. }
    split; [by rewrite !Hall|]. exists (fetch_mofid w self b q tf). auto.
Qed.

Lemma fetch_ignores_all_volumes_witness :
  fetch sample_world init "Gemini" "BTC" "USD" "1h" true
  = fetch sample_world init "Gemini" "BTC" "USD" "1h" false
  /\ exists routine : io DataFrame,
       (routine = fetch_gemini sample_world init "BTC" "USD" "1h"
        \/ routine = fetch_mofid sample_world init "BTC" "USD" "1h")
       /\ forall iav, fetch sample_world init "Gemini" "BTC" "USD" "1h" iav = routine.
Proof.
  apply (fetch_ignores_all_volumes sample_world init "Gemini" "BTC" "USD" "1h").
  left. reflexivity.
Defined.

(** ** The locator of the Gemini routine *)

Lemma list_ascii_of_string_app s t :
  list_ascii_of_string (s +:+ t) = list_ascii_of_string s ++ list_ascii_of_string t.
Proof. induction s as [|a s IH]; [done|]. simpl. by rewrite IH. Qed.

Lemma endswith_h tf : endswith tf "h" = true <-> exists p, tf = p +:+ "h".
Proof.
  unfold endswith. rewrite bool_decide_eq_true. split.
  - intros [k Hk]. exists (string_of_list_ascii k).
    rewrite <- (string_of_list_ascii_of_string tf), Hk.
    rewrite <- (list_ascii_of_string_of_list_ascii k) at 1.
    change ["h"%char] with (list_ascii_of_string "h").
    by rewrite <- list_ascii_of_string_app, string_of_list_ascii_of_string.
  - intros [p ->]. exists (list_ascii_of_string p). apply list_ascii_of_string_app.
Qed.

Lemma drop_last_h p : drop_last (p +:+ "h") = p.
Proof.
  unfold drop_last. rewrite list_ascii_of_string_app, length_app. simpl.
  replace (length (list_ascii_of_string p) + 1 - 1)%nat
    with (length (list_ascii_of_string p)) by lia.
  by rewrite take_app_length, string_of_list_ascii_of_string.
Qed.

Lemma fetch_gemini_trace w self b q tf tr :
  (fetch_gemini w self b q tf tr).2
  = tr ++ [url self +:+ "gemini_" +:+ q +:+ b +:+ "_"
             +:+ (if endswith tf "h" then drop_last tf +:+ "hr" else tf) +:+ ".csv"].
Proof.
  unfold fetch_gemini. unfold mbind at 1, io_bind. rewrite read_csv_run.
  destruct (http_body w _) as [body|]; [|done]. cbn [mbind result_bind].
  by destruct (parse_csv w _).
Qed.

(** C6.  The one request of [fetch_gemini] is for
    [<url>gemini_<quote><base>_<timeframe>.csv], where a time frame that
    ends in "h" has had that "h" replaced with "hr" and any other time
    frame is used as given: "1h" asks for a file named with "1hr", "1d" for
    one named with "1d". *)
Theorem fetch_gemini_locator w self b q tf tr :
  (forall p, tf = p +:+ "h" ->
     (fetch_gemini w self b q tf tr).2
     = tr ++ [url self +:+ "gemini_" +:+ q +:+ b +:+ "_" +:+ (p +:+ "hr") +:+ ".csv"])
  /\ ((forall p, tf ≠ p +:+ "h") ->
      (fetch_gemini w self b q tf tr).2
      = tr ++ [url self +:+ "gemini_" +:+ q +:+ b +:+ "_" +:+ tf +:+ ".csv"])
  /\ (fetch_gemini w init "BTC" "USD" "1h" tr).2
     = tr ++ ["https://www.cryptodatadownload.com/cdd/gemini_USDBTC_1hr.csv"]
  /\ (fetch_gemini w init "BTC" "USD" "1d" tr).2
     = tr ++ ["https://www.cryptodatadownload.com/cdd/gemini_USDBTC_1d.csv"].
Proof.
  rewrite !fetch_gemini_trace. repeat split.
  - intros p ->. rewrite (proj2 (endswith_h (p +:+ "h"))) by (by exists p).
    by rewrite drop_last_h.
  - intros Hno. destruct (endswith tf "h") eqn:E; [|done].
    apply endswith_h in E as [p ->]. by destruct (Hno p).
Qed.

Lemma fetch_gemini_locator_witness :
  (fetch_gemini sample_world init "ETH" "USD" "4h" []).2
  = ["https://www.cryptodatadownload.com/cdd/gemini_USDETH_4hr.csv"]
  /\ (fetch_gemini sample_world init "ETH" "USD" "minute" []).2
     = ["https://www.cryptodatadownload.com/cdd/gemini_USDETH_minute.csv"].
Proof.
  split.
  - exact (proj1 (fetch_gemini_locator sample_world init "ETH" "USD" "4h" []) "4" eq_refl).
  - apply (proj1 (proj2 (fetch_gemini_locator sample_world init "ETH" "USD" "minute" []))).
    intros p Hp.
    assert (E : endswith "minute" "h" = true) by (apply endswith_h; by exists p).
    vm_compute in E. discriminate E.
Defined.

(** ** The Mofid routine *)

Lemma for_range_invariant {A : Type} (P : A -> Prop) (body : A -> nat -> result A)
    acc start count acc' :
  (forall a i a', P a -> body a i = Ok a' -> P a') ->
  P acc -> for_range body acc start count = Ok acc' -> P acc'.
Proof.
  intros Hstep. revert acc start. induction count as [|n IH]; intros acc start Hacc H.
  - simpl in H. by injection H as <-.
  - simpl in H. apply bind_Ok in H as (a & Ha & H). eapply IH; [|exact H]. eauto.
Qed.

Lemma filter_none {A : Type} (P : A -> Prop) `{!forall x, Decision (P x)} (l : list A) :
  (forall x, x ∈ l -> ¬ P x) -> filter P l = [].
Proof.
  induction l as [|x l IH]; intros Hall; [done|].
  rewrite filter_cons, decide_False by (apply Hall; left).
  apply IH. intros y Hy. apply Hall. by right.
Qed.

(** A row whose keys all name columns adds one cell to each column. *)
Lemma df_append_known row df :
  (forall k, k ∈ row.*1 -> k ∈ labels df) ->
  df_append row df
  = mk_df None (range_index (S (length (df_index df))))
          ((fun c => (c.1, c.2 ++ [default nan (dict_get row c.1)])) <$> df_columns df).
Proof.
  intros Hkeys. unfold df_append. rewrite filter_none.
  - by rewrite fmap_nil, app_nil_r.
  - intros k Hk Hn. apply Hn, Hkeys.
    rewrite elem_of_reverse, elem_of_remove_dups, elem_of_reverse in Hk. exact Hk.
Qed.

Lemma labels_df_append_known row df :
  (forall k, k ∈ row.*1 -> k ∈ labels df) -> labels (df_append row df) = labels df.
Proof.
  intros Hkeys. rewrite df_append_known by done. unfold labels. simpl.
  rewrite <- list_fmap_compose. apply list_fmap_ext. by intros _ [l s] _.
Qed.

(** Whatever the response, the frame that leaves the loop has the seven
    columns it was created with. *)
Lemma mofid_rows_labels w bv json df :
  mofid_rows w bv json = Ok df ->
  labels df = ["date"; "open"; "high"; "low"; "close"; bv; "volume"].
Proof.
  unfold mofid_rows. intros H. bind_inv H.
  eapply (for_range_invariant
            (fun df => labels df = ["date"; "open"; "high"; "low"; "close"; bv; "volume"]));
    [| | exact H]; [|done].
  intros d i d' Hd Hbody. unfold mofid_row in Hbody. bind_inv Hbody.
  injection Hbody as <-.
  rewrite labels_df_append_known; [done|].
  intros k Hk. rewrite Hd. exact Hk.
Qed.

Lemma fetch_mofid_run w self b q tf tr :
  fetch_mofid w self b q tf tr
  = (rawContent ← http_body w (mofid_url w b);
     json_content ← json_loads w rawContent;
     _ ← mofid_rows w ("Volume " +:+ b) json_content;
     Raise (KeyError "unix"),
     tr ++ [mofid_url w b]).
Proof.
  unfold fetch_mofid. fold (default_rename b q).
  change (_ +:+ b +:+ "&resolution=" +:+ "1" +:+ "&from=" +:+ _ +:+ "&to=" +:+ _)
    with (mofid_url w b).
  unfold urlopen, lift, mbind at 1, io_bind.
  destruct (http_body w _) as [raw|]; [|done]. cbn [mbind result_bind]. f_equal.
  destruct (json_loads w raw) as [json|]; [|done]. cbn [mbind result_bind].
  destruct (mofid_rows w _ json) as [df|] eqn:Hrows; [|done]. cbn [mbind result_bind].
  apply mofid_rows_labels in Hrows.
  rewrite df_getitem_absent; [done|].
  unfold labels, df_rename. simpl. rewrite fmap_fst_prod_map. fold (labels df).
  rewrite Hrows. intros Hin. apply list_elem_of_fmap in Hin as (l & Hl & Hin).
  symmetry in Hl. apply renamed_unix in Hl as ->.
  repeat (apply elem_of_cons in Hin as [Hin | Hin]; [simpl in Hin; discriminate|]).
  by apply elem_of_nil in Hin.
Qed.

Lemma dict_get_skip k v rest key :
  k ≠ key -> dict_get ((k, v) :: rest) key = dict_get rest key.
Proof.
  intros Hne. simpl. destruct (dict_get rest key); [done|].
  by rewrite (proj2 (String.eqb_neq k key)).
Qed.

Lemma dict_get_here k v rest :
  dict_get rest k = None -> dict_get ((k, v) :: rest) k = Some v.
Proof. intros Hn. simpl. by rewrite Hn, String.eqb_refl. Qed.

Lemma getitem_index_list items i x :
  items !! i = Some x -> getitem_index (PList items) i = Ok x.
Proof. intros H. simpl. by rewrite H. Qed.

(** *** On a response of the service

    The response has the six arrays, of one length, and instants that
    the interpreter reads. *)
Section Response.
Context (w : World) (b : string) (json : pyval).
Context (ts locals : list Z) (os hs ls cs vs : list pyval).
Hypothesis Harr : mofid_arrays json ts os hs ls cs vs.
Hypothesis Hok : local_readings w ts locals.

(** One turn of the loop: from the first [k] entries to the first
    [k + 1]. *)
Lemma mofid_step k :
  (k < length ts)%nat ->
  mofid_row w ("Volume " +:+ b) json
    (mofid_frame ("Volume " +:+ b) (take k locals) (take k os) (take k hs) (take k ls)
       (take k cs) (take k vs)) k
  = Ok (mofid_frame ("Volume " +:+ b) (take (S k) locals) (take (S k) os) (take (S k) hs)
          (take (S k) ls) (take (S k) cs) (take (S k) vs)).
Proof.
  destruct Harr as [Ht Ho Hh Hl Hc Hv Lo Lh Ll Lc Lv]. intros Hk. unfold mofid_row.
  pose proof (Forall2_length _ _ _ Hok) as Llocals.
  destruct (lookup_lt_is_Some_2 ts k ltac:(lia)) as [t Et].
  destruct (lookup_lt_is_Some_2 locals k ltac:(lia)) as [s Es].
  destruct (lookup_lt_is_Some_2 os k ltac:(lia)) as [o Eo].
  destruct (lookup_lt_is_Some_2 hs k ltac:(lia)) as [h Eh].
  destruct (lookup_lt_is_Some_2 ls k ltac:(lia)) as [l El].
  destruct (lookup_lt_is_Some_2 cs k ltac:(lia)) as [c Ec].
  destruct (lookup_lt_is_Some_2 vs k ltac:(lia)) as [v Ev].
  rewrite Ht, Ho, Hh, Hl, Hc, Hv. cbn [mbind result_bind].
  rewrite (getitem_index_list (PInt <$> ts) k (PInt t))
    by (by rewrite list_lookup_fmap, Et).
  rewrite (getitem_index_list _ _ _ Eo), (getitem_index_list _ _ _ Eh),
    (getitem_index_list _ _ _ El), (getitem_index_list _ _ _ Ec),
    (getitem_index_list _ _ _ Ev).
  cbn [mbind result_bind py_int]. unfold fromtimestamp.
  rewrite (Forall2_lookup_lr _ _ _ _ _ _ Hok Et Es).
  cbn [fmap result_fmap mbind result_bind]. f_equal.
  rewrite df_append_known.
  2:{ intros key Hkey. exact Hkey. }
  unfold mofid_frame. cbn [df_index df_columns fmap list_fmap fst snd].
  rewrite length_range_index.
  rewrite !(take_S_r _ _ _ Es), !(take_S_r _ _ _ Eo), !(take_S_r _ _ _ Eh),
    !(take_S_r _ _ _ El), !(take_S_r _ _ _ Ec), !(take_S_r _ _ _ Ev).
  rewrite fmap_app. cbn [fmap list_fmap].
  repeat first
    [ rewrite dict_get_here
        by (repeat (rewrite dict_get_skip by (simpl; discriminate)); reflexivity)
    | rewrite dict_get_skip by (simpl; discriminate) ].
  rewrite length_app, Nat.add_1_r. reflexivity.
Qed.

(** The loop, from the first [k] entries to all of them. *)
Lemma mofid_loop count : forall k,
  (k + count = length ts)%nat ->
  for_range (mofid_row w ("Volume " +:+ b) json)
    (mofid_frame ("Volume " +:+ b) (take k locals) (take k os) (take k hs) (take k ls)
       (take k cs) (take k vs))
    k count
  = Ok (mofid_frame ("Volume " +:+ b) locals os hs ls cs vs).
Proof.
  induction count as [|count IH]; intros k Hk.
  - destruct Harr. pose proof (Forall2_length _ _ _ Hok). simpl.
    rewrite !take_ge by lia. done.
  - cbn [for_range]. rewrite mofid_step by lia.
    cbn [mbind result_bind]. apply IH. lia.
Qed.

(** The loop builds one row for each entry. *)
Lemma mofid_rows_run :
  mofid_rows w ("Volume " +:+ b) json
  = Ok (mofid_frame ("Volume " +:+ b) locals os hs ls cs vs).
Proof.
  unfold mofid_rows. rewrite (arr_t _ _ _ _ _ _ _ Harr).
  cbn [mbind result_bind py_len]. rewrite length_fmap.
  by apply (mofid_loop (length ts) 0%nat).
Qed.
End Response.

(** C5.  [fetch_mofid] never returns a frame: in every world and for all
    arguments it raises.  On a response of the service (arrays [t], [o],
    [h], [l], [c], [v] of one length, instants that the interpreter reads
    in the local zone) the loop succeeds; the frame then has the columns
    [date], [open], [high], [low], [close], the volume column named after
    the base symbol and [volume]; no label is [unix] after the renaming;
    and the exception is the [KeyError] of reading that column. *)
Theorem fetch_mofid_never_returns w self b q tf tr :
  (exists e, (fetch_mofid w self b q tf tr).1 = Raise e)
  /\ (forall raw json ts locals os hs ls cs vs,
        http_body w (mofid_url w b) = Ok raw ->
        parse_json w raw = Ok json ->
        mofid_arrays json ts os hs ls cs vs ->
        local_readings w ts locals ->
        let df := mofid_frame ("Volume " +:+ b) locals os hs ls cs vs in
        mofid_rows w ("Volume " +:+ b) json = Ok df
        /\ labels df
           = ["date"; "open"; "high"; "low"; "close"; "Volume " +:+ b; "volume"]
        /\ ("unix"%string ∉ labels (df_rename (default_rename b q) df))
        /\ (fetch_mofid w self b q tf tr).1 = Raise (KeyError "unix")).
Proof.
  rewrite fetch_mofid_run. cbn [fst]. split.
  - destruct (http_body w _) as [raw|e]; [|by exists e]. cbn [mbind result_bind].
    destruct (json_loads w raw) as [json|e]; [|by exists e]. cbn [mbind result_bind].
    destruct (mofid_rows w _ json) as [df|e]; [|by exists e]. by exists (KeyError "unix").
  - intros raw json ts locals os hs ls cs vs Hraw Hjson Harr Hok.
    pose proof (mofid_rows_run w b json ts locals os hs ls cs vs Harr Hok) as Hrows.
    split; [done|]. split; [done|]. split.
    + unfold labels, df_rename. cbn [df_columns]. rewrite fmap_fst_prod_map.
      intros Hin. apply list_elem_of_fmap in Hin as (l & Hl & Hin).
      symmetry in Hl. apply renamed_unix in Hl as ->.
      unfold mofid_frame in Hin. cbn [df_columns fmap list_fmap fst] in Hin.
      repeat (apply elem_of_cons in Hin as [Hin | Hin]; [simpl in Hin; discriminate|]).
      by apply elem_of_nil in Hin.
    + rewrite Hraw. cbn [mbind result_bind]. unfold json_loads. rewrite Hjson.
      cbn [mbind result_bind]. by rewrite Hrows.
Qed.

Lemma day_response_arrays :
  mofid_arrays day_response [1661331600] [PInt 5200] [PInt 5250] [PInt 5190] [PInt 5240]
    [PInt 120000].
Proof. by constructor. Qed.

Lemma fetch_mofid_never_returns_witness :
  let w := chart_world day_response 0 in
  let df := mofid_frame "Volume IKCO1" [1661331600] [PInt 5200] [PInt 5250] [PInt 5190]
              [PInt 5240] [PInt 120000] in
  mofid_rows w "Volume IKCO1" day_response = Ok df
  /\ labels df = ["date"; "open"; "high"; "low"; "close"; "Volume IKCO1"; "volume"]
  /\ ("unix"%string ∉ labels (df_rename (default_rename "IKCO1" "IRR") df))
  /\ (fetch_mofid w init "IKCO1" "IRR" "1" []).1 = Raise (KeyError "unix").
Proof.
  intros w.
  apply (proj2 (fetch_mofid_never_returns w init "IKCO1" "IRR" "1" []) ["{...}"]
           day_response [1661331600] [1661331600] [PInt 5200] [PInt 5250] [PInt 5190]
           [PInt 5240] [PInt 120000] eq_refl eq_refl day_response_arrays).
  repeat constructor.
Defined.



(** * Further properties *)

(** ** The normalization of [unix] settles *)

(** The renderings of thirteen characters. *)
Lemma str_int_13 x :
  String.length (str_int x) = 13%nat
  <-> 10 ^ 12 <= x < 10 ^ 13 \/ - 10 ^ 12 < x <= - 10 ^ 11.
Proof.
  destruct (Z_lt_ge_dec x 0) as [Hneg | Hpos].
  - rewrite str_int_length_neg by done. split.
    + intros H. assert (Hd : decimal_digits x = 12%nat) by lia.
      apply (decimal_digits_spec x 11) in Hd; [|lia].
      change (10 ^ Z.of_nat 11) with (10 ^ 11) in Hd.
      change (10 ^ Z.of_nat 12) with (10 ^ 12) in Hd. lia.
    + intros [H | H]; [lia|]. f_equal. apply (decimal_digits_spec x 11); [lia|].
      change (10 ^ Z.of_nat 11) with (10 ^ 11).
      change (10 ^ Z.of_nat 12) with (10 ^ 12). lia.
  - rewrite str_int_length_nonneg by lia. rewrite thirteen_digits. lia.
Qed.

Lemma quot_1000_bounds x :
  (0 <= x -> 1000 * Z.quot x 1000 <= x < 1000 * Z.quot x 1000 + 1000)
  /\ (x <= 0 -> 1000 * Z.quot x 1000 - 1000 < x <= 1000 * Z.quot x 1000).
Proof.
  split; intros Hx; Z.to_euclidean_division_equations; lia.
Qed.

Lemma normalize_unix_settled x : String.length (str_int (normalize_unix x)) ≠ 13%nat.
Proof.
  unfold normalize_unix.
  destruct (Nat.eqb_spec (String.length (str_int x)) 13) as [Hlen | Hlen]; [|done].
  apply str_int_13 in Hlen. rewrite str_int_13.
  destruct (quot_1000_bounds x) as [Hpos Hneg]. lia.
Qed.

Lemma normalize_unix_shrinks x : Z.abs (normalize_unix x) <= Z.abs x.
Proof.
  unfold normalize_unix. destruct (_ =? _)%nat; [|lia].
  destruct (quot_1000_bounds x) as [Hpos Hneg]. lia.
Qed.

(** X1.  The function applied to every cell of [unix] always
    returns (the float division never overflows nor yields a NaN), its
    result never has thirteen characters again and is no larger in
    magnitude than its argument, so a second application changes
    nothing. *)
Theorem unix_lambda_settles x :
  exists y,
    unix_lambda x = Ok y
    /\ String.length (str_int y) ≠ 13%nat
    /\ Z.abs y <= Z.abs x
    /\ unix_lambda y = Ok y.
Proof.
  exists (normalize_unix x).
  split; [apply unix_lambda_total|].
  split; [apply normalize_unix_settled|].
  split; [apply normalize_unix_shrinks|].
  rewrite unix_lambda_total. f_equal. unfold normalize_unix at 1.
  destruct (Nat.eqb_spec (String.length (str_int (normalize_unix x))) 13) as [Hlen | _];
    [|done].
  by apply normalize_unix_settled in Hlen.
Qed.

(** The raw values whose normalization [pd.to_datetime] accepts. *)
Lemma unix_accepted_spec x : datetime_ok (normalize_unix x) <-> unix_accepted x.
Proof.
  unfold datetime_ok, unix_accepted, normalize_unix, last_millisecond.
  destruct (quot_1000_bounds x) as [Hpos Hneg].
  destruct (Nat.eqb_spec (String.length (str_int x)) 13) as [Hlen | Hlen];
    rewrite str_int_13 in Hlen; lia.
Qed.

(** ** The default routine: what it takes for [unix] *)

Lemma Forall2_elem_l {A B : Type} (P : A -> B -> Prop) l l' a :
  Forall2 P l l' -> a ∈ l -> exists b, b ∈ l' /\ P a b.
Proof.
  induction 1 as [|x y l l' Hxy _ IH]; intros Hin; [by apply elem_of_nil in Hin|].
  apply elem_of_cons in Hin as [-> | Hin].
  - exists y. split; [left | done].
  - destruct (IH Hin) as (b & Hb & HP). exists b. split; [by right | done].
Qed.

(** X2.  When [fetch_default] returns on a table whose [unix] column
    holds integers of 64 bits, each of them is either a number of seconds
    within the range of a pandas timestamp, or a number of milliseconds
    of thirteen digits up to 9223372036999, or a negative number of twelve
    digits.  Any other such value (milliseconds before September 2001, for
    one) makes the call raise. *)
Theorem fetch_default_unix_range w self ex b q tf iav tr out tr' body cols :
  http_body w (default_url self ex b q tf) = Ok body ->
  parse_csv w (drop 1 body) = Ok cols ->
  fetch_default w self ex b q tf iav tr = (Ok out, tr') ->
  forall xs, ("unix"%string, PInt <$> xs) ∈ cols -> Forall int64_cell xs ->
    Forall unix_accepted xs.
Proof.
  intros Hbody Hcols Hrun xs Hin _.
  apply fetch_default_inv in Hrun
    as (body' & cols' & raw & xs' & Hb & Hc & _ & Hraw & Hxs & Hok & _).
  rewrite Hbody in Hb. injection Hb as <-. rewrite Hcols in Hc. injection Hc as <-.
  assert (raw = PInt <$> xs) as ->.
  { assert (H : ("unix"%string, PInt <$> xs) ∈ filter (fun c => c.1 = "unix") cols)
      by (by apply list_elem_of_filter).
    rewrite Hraw in H. apply list_elem_of_singleton in H. by injection H. }
  rewrite <- fmap_reverse, mapM_py_int_ints in Hxs. injection Hxs as <-.
  rewrite Forall_fmap, Forall_reverse in Hok.
  eapply Forall_impl; [exact Hok|]. intros x Hx. by apply unix_accepted_spec.
Qed.

Lemma fetch_default_unix_range_witness :
  Forall unix_accepted (row_unix <$> sample_rows).
Proof.
  apply (fetch_default_unix_range sample_world init "Bitstamp" "USD" "BTC" "d" false []
           (frame_of (fetch_default sample_world init "Bitstamp" "USD" "BTC" "d" false []))
           ["https://www.cryptodatadownload.com/cdd/Bitstamp_BTCUSD_d.csv"]
           sample_lines sample_table eq_refl eq_refl eq_refl).
  - left.
  - unfold int64_cell. repeat constructor; simpl; lia.
Defined.

(** ** The default routine: the columns it cannot do without *)

Lemma df_drop_missing l df :
  l ∉ labels df -> df_drop [l] df = Raise (KeyError l).
Proof.
  intros Hl. unfold df_drop. by rewrite filter_cons_True by done.
Qed.

Lemma named_labels_unix b q header :
  "unix"%string ∈ named_labels b q header <-> "unix"%string ∈ header.
Proof.
  unfold named_labels. rewrite list_elem_of_fmap. split.
  - intros (l & Hl & Hin). symmetry in Hl. apply renamed_unix in Hl as ->.
    by apply list_elem_of_filter in Hin as [_ Hin].
  - intros Hin. exists "unix"%string. split; [symmetry; by apply renamed_unix|].
    apply list_elem_of_filter. split; [by_compute | done].
Qed.

(** X3.  A table without a column [symbol] makes [fetch_default] raise
    [KeyError] for [symbol]; a table with [symbol] and without [unix] makes
    it raise [KeyError] for [unix].  In both cases the one request has
    been made. *)
Theorem fetch_default_missing_column w self ex b q tf iav tr body cols :
  http_body w (default_url self ex b q tf) = Ok body ->
  parse_csv w (drop 1 body) = Ok cols ->
  ("symbol"%string ∉ cols.*1 ->
   fetch_default w self ex b q tf iav tr
   = (Raise (KeyError "symbol"), tr ++ [default_url self ex b q tf]))
  /\ ("symbol"%string ∈ cols.*1 -> "unix"%string ∉ cols.*1 ->
      fetch_default w self ex b q tf iav tr
      = (Raise (KeyError "unix"), tr ++ [default_url self ex b q tf])).
Proof.
  intros Hbody Hcols.
  assert (Hstart : forall k : DataFrame -> result DataFrame,
            (df ← read_csv w (default_url self ex b q tf) 1; lift (k df)) tr
            = (k (mk_df None (range_index (length (default [] (snd <$> head cols)))) cols),
               tr ++ [default_url self ex b q tf])).
  { intros k. unfold mbind at 1, io_bind. rewrite read_csv_run, Hbody.
    cbn [mbind result_bind]. by rewrite Hcols. }
  split.
  - intros Hsym. unfold fetch_default. fold (default_url self ex b q tf).
    cbv zeta. rewrite Hstart. f_equal. cbv beta.
    rewrite df_drop_missing; [done|]. by rewrite labels_reverse.
  - intros Hsym Hunix. unfold fetch_default. fold (default_url self ex b q tf).
    fold (default_rename b q). cbv zeta. rewrite Hstart. f_equal. cbv beta.
    rewrite (df_drop_run ["symbol"]).
    2:{ apply Forall_singleton. by rewrite labels_reverse. }
    cbn [mbind result_bind].
    rewrite df_getitem_absent; [done|].
    unfold labels, df_rename, df_reverse. cbn [df_columns].
    fold (renamed b q).
    rewrite named_columns_labels. by rewrite named_labels_unix.
Qed.

Lemma fetch_default_missing_column_witness :
  fetch_default gemini_world init "gemini" "USD" "BTC" "1hr" false []
  = (Raise (KeyError "symbol"),
     ["https://www.cryptodatadownload.com/cdd/gemini_BTCUSD_1hr.csv"])
  /\ fetch_default undated_world init "Bitstamp" "USD" "BTC" "d" false []
     = (Raise (KeyError "unix"),
        ["https://www.cryptodatadownload.com/cdd/Bitstamp_BTCUSD_d.csv"]).
Proof.
  split.
  - apply (proj1 (fetch_default_missing_column gemini_world init "gemini" "USD" "BTC" "1hr"
                    false [] gemini_lines gemini_table eq_refl eq_refl)).
    by_compute.
  - apply (proj2 (fetch_default_missing_column undated_world init "Bitstamp" "USD" "BTC"
                    "d" false [] undated_lines undated_table eq_refl eq_refl)); by_compute.
Defined.

(** ** The default routine: the two settings of [include_all_volumes] *)

Lemma io_bind_lift {A B : Type} (m : io A) (k : A -> result B) tr :
  (a ← m; lift (k a)) tr
  = match m tr with
    | (Ok a, tr') => (k a, tr')
    | (Raise e, tr') => (Raise e, tr')
    end.
Proof. reflexivity. Qed.

Lemma df_reset_index_unnamed df df' :
  df_reset_index df = Ok df' -> df_index_name df' = None.
Proof.
  unfold df_reset_index. case_decide; [done|]. by intros [= <-].
Qed.

Lemma filter_not_singleton l0 (cols : list (string * Series)) :
  filter (fun c => c.1 ∉ [l0]) cols = filter (fun c => c.1 ≠ l0) cols.
Proof.
  apply filter_ext_in. intros c _. by rewrite list_elem_of_singleton.
Qed.

(** X4.  The call with [include_all_volumes] false ends as the call with
    [include_all_volumes] true followed by the removal of [volume_quote]
    and the renaming of [volume_base]: it raises what the other raises;
    where the other returns a frame without [volume_quote] it raises
    [KeyError] for [volume_quote]; otherwise it returns that frame less
    the columns [volume_quote], with [volume_base] called [volume], the
    index and every other column unchanged. *)
Theorem fetch_default_one_volume w self ex b q tf tr :
  fetch_default w self ex b q tf false tr
  = match fetch_default w self ex b q tf true tr with
    | (Ok df, tr') =>
        (if decide ("volume_quote"%string ∈ labels df)
         then Ok (mk_df None (df_index df)
                    (prod_map volume_renamed id
                       <$> filter (fun c => c.1 ≠ "volume_quote") (df_columns df)))
         else Raise (KeyError "volume_quote"),
         tr')
    | (Raise e, tr') => (Raise e, tr')
    end.
Proof.
  unfold fetch_default. cbv zeta. rewrite !io_bind_lift.
  destruct (read_csv w _ 1 tr) as [[df|e] tr']; [|done].
  cbn [negb].
  repeat match goal with
         | |- context [@mbind result _ _ _ _ ?m] =>
             lazymatch m with
             | df_reset_index _ => fail
             | _ => destruct m; cbn [mbind result_bind]; [|done]
             end
         end.
  match goal with
  | |- context [@mbind result _ _ _ _ ?m] => destruct m as [out|e] eqn:Hreset
  end; cbn [mbind result_bind]; [|done].
  apply df_reset_index_unnamed in Hreset.
  f_equal. unfold df_drop.
  case_decide as Hvq.
  - rewrite filter_cons_False by (intros Hn; by apply Hn).
    rewrite filter_nil. unfold df_rename. cbn [df_index_name df_index df_columns].
    rewrite Hreset, filter_not_singleton. done.
  - by rewrite filter_cons_True by done.
Qed.

(** ** The default routine: the cells it passes on *)

Lemma ascii_lower_idemp c : ascii_lower (ascii_lower c) = ascii_lower c.
Proof. destruct c as [[] [] [] [] [] [] [] []]; reflexivity. Qed.

Lemma lower_idemp s : lower (lower s) = lower s.
Proof. induction s as [|c s IH]; [done|]. simpl. by rewrite ascii_lower_idemp, IH. Qed.

Lemma all_columns_source b q cols u d l s :
  (l, s) ∈ ("date"%string, d)
           :: (prod_map lower id
                 <$> filter (fun c => c.1 ≠ "date")
                       (set_column "unix" u
                          (prod_map (renamed b q) id
                             <$> filter (fun c => c.1 ∉ ["symbol"])
                                   (prod_map id reverse <$> cols)))) ->
  l ≠ "date" -> l ≠ "unix" ->
  exists l0 s0,
    (l0, s0) ∈ cols /\ l0 ≠ "symbol" /\ s = reverse s0 /\ l = lower (renamed b q l0).
Proof.
  intros Hin Hd Hu. apply elem_of_cons in Hin as [Heq | Hin].
  { by injection Heq as -> ->. }
  apply list_elem_of_fmap in Hin as ([l1 s1] & Heq & Hin).
  cbn in Heq. injection Heq as -> ->.
  apply list_elem_of_filter in Hin as [_ Hin].
  unfold set_column in Hin. apply list_elem_of_fmap in Hin as ([l2 s2] & Heq & Hin).
  cbn in Heq. case_decide as Hl2.
  { injection Heq as -> ->. by rewrite lower_unix in Hu. }
  injection Heq as -> ->.
  apply list_elem_of_fmap in Hin as ([l3 s3] & Heq & Hin).
  cbn in Heq. injection Heq as -> ->.
  apply list_elem_of_filter in Hin as [Hsym Hin]. cbn in Hsym.
  apply list_elem_of_fmap in Hin as ([l0 s0] & Heq & Hin).
  cbn in Heq. injection Heq as -> ->.
  exists l0, s0. repeat split; try done.
  intros ->. apply Hsym. left.
Qed.

Lemma all_columns_kept b q cols u d l0 s0 :
  (l0, s0) ∈ cols -> l0 ≠ "symbol" -> l0 ≠ "unix" -> renamed b q l0 ≠ "date" ->
  (lower (renamed b q l0), reverse s0)
  ∈ ("date"%string, d)
    :: (prod_map lower id
          <$> filter (fun c => c.1 ≠ "date")
                (set_column "unix" u
                   (prod_map (renamed b q) id
                      <$> filter (fun c => c.1 ∉ ["symbol"])
                            (prod_map id reverse <$> cols)))).
Proof.
  intros Hin Hsym Hunix Hdate. right.
  apply list_elem_of_fmap. exists (renamed b q l0, reverse s0). split; [done|].
  apply list_elem_of_filter. split; [done|].
  unfold set_column. apply list_elem_of_fmap. exists (renamed b q l0, reverse s0).
  split.
  { rewrite decide_False; [done|]. cbn. by rewrite renamed_unix. }
  apply list_elem_of_fmap. exists (l0, reverse s0). split; [done|].
  apply list_elem_of_filter. split.
  { cbn. by rewrite list_elem_of_singleton. }
  apply list_elem_of_fmap. by exists (l0, s0).
Qed.

(** X5.  [fetch_default] computes [unix] and [date] and nothing else: in
    a frame it returns on a table with ASCII column names, every column
    other than [date] and [unix] is a
    column of the table read, with its cells unchanged and in reverse
    order, under its final name; and every column read comes out that way,
    apart from [symbol], [unix], the columns named [date] or [Date], and,
    with [include_all_volumes] false, the columns that end up as
    [volume_quote]. *)
Theorem fetch_default_cells w self ex b q tf iav tr out tr' body cols :
  http_body w (default_url self ex b q tf) = Ok body ->
  parse_csv w (drop 1 body) = Ok cols ->
  Forall ascii_label cols.*1 ->
  fetch_default w self ex b q tf iav tr = (Ok out, tr') ->
  let final l0 :=
    if iav then lower (renamed b q l0) else volume_renamed (lower (renamed b q l0)) in
  (forall l s, (l, s) ∈ df_columns out -> l ≠ "date" -> l ≠ "unix" ->
     exists l0 s0, (l0, s0) ∈ cols /\ l0 ≠ "symbol" /\ s = reverse s0 /\ l = final l0)
  /\ (forall l0 s0, (l0, s0) ∈ cols ->
        l0 ≠ "symbol" -> l0 ≠ "unix" -> l0 ≠ "date" -> l0 ≠ "Date" ->
        (iav = false -> lower (renamed b q l0) ≠ "volume_quote") ->
        (final l0, reverse s0) ∈ df_columns out).
Proof.
  intros Hbody Hcols _ Hrun final.
  apply fetch_default_inv in Hrun
    as (body' & cols' & raw & xs & Hb & Hc & _ & _ & _ & _ & ->).
  rewrite Hbody in Hb. injection Hb as <-. rewrite Hcols in Hc. injection Hc as <-.
  cbn [df_columns]. unfold default_columns. subst final. split.
  - intros l s Hin Hd Hu. destruct iav.
    + by apply all_columns_source in Hin.
    + apply list_elem_of_fmap in Hin as ([l1 s1] & Heq & Hin).
      cbn in Heq. injection Heq as -> ->.
      apply list_elem_of_filter in Hin as [_ Hin].
      rewrite volume_renamed_spec in Hd, Hu.
      apply all_columns_source in Hin as (l0 & s0 & Hin & Hsym & -> & ->).
      * by exists l0, s0.
      * intros ->. by rewrite decide_False in Hd by done.
      * intros ->. by rewrite decide_False in Hu by done.
  - intros l0 s0 Hin Hsym Hunix Hd1 Hd2 Hvq.
    assert (Hdate : renamed b q l0 ≠ "date").
    { rewrite renamed_spec. repeat case_decide; done. }
    pose proof (all_columns_kept b q cols
                  (PInt <$> (normalize_unix <$> xs)) (PDatetime <$> (normalize_unix <$> xs))
                  l0 s0 Hin Hsym Hunix Hdate) as Hkept.
    destruct iav; [done|].
    apply list_elem_of_fmap. exists (lower (renamed b q l0), reverse s0). split; [done|].
    apply list_elem_of_filter. split; [|done].
    cbn. rewrite list_elem_of_singleton. by apply Hvq.
Qed.

Lemma fetch_default_cells_witness :
  ("volume"%string, [PInt 34; PInt 70; PInt 105])
  ∈ df_columns (frame_of (fetch_default sample_world init "Bitstamp" "USD" "BTC" "d" false [])).
Proof.
  apply (proj2 (fetch_default_cells sample_world init "Bitstamp" "USD" "BTC" "d" false []
                  (frame_of (fetch_default sample_world init "Bitstamp" "USD" "BTC" "d"
                               false []))
                  ["https://www.cryptodatadownload.com/cdd/Bitstamp_BTCUSD_d.csv"]
                  sample_lines sample_table eq_refl eq_refl
                  ltac:(apply (bool_decide_unpack _); vm_compute; exact I) eq_refl)
           "Volume USD"%string [PInt 105; PInt 70; PInt 34]).
  - do 8 right. left.
  - discriminate.
  - discriminate.
  - discriminate.
  - discriminate.
  - intros _. discriminate.
Defined.

(** ** The default routine: when it returns *)

Lemma df_set_index_setitem_inv label s df df' :
  df_set_index label (df_setitem label s df) = Ok df' ->
  (length (filter (fun c => c.1 = label) (df_columns df)) <= 1)%nat.
Proof.
  unfold df_set_index. intros H. bind_inv H. clear H.
  apply df_getitem_Ok in E.
  destruct (decide (label ∈ labels df)) as [Hin | Hout].
  - rewrite df_setitem_present in E by done. cbn [df_columns] in E.
    rewrite set_column_filter_same in E.
    apply (f_equal length) in E. rewrite length_fmap in E. simpl in E. lia.
  - rewrite filter_label_absent by done. simpl. lia.
Qed.

Lemma fetch_default_needs w self ex b q tf iav tr out tr' :
  fetch_default w self ex b q tf iav tr = (Ok out, tr') ->
  exists body cols,
    http_body w (default_url self ex b q tf) = Ok body
    /\ parse_csv w (drop 1 body) = Ok cols
    /\ "symbol"%string ∈ cols.*1
    /\ (length (filter (fun l => l = "date") (named_labels b q cols.*1)) <= 1)%nat
    /\ ("date"%string ∉ lower <$> filter (fun l => l ≠ "date") (named_labels b q cols.*1))
    /\ (iav = false ->
        "volume_quote"%string
        ∈ lower <$> filter (fun l => l ≠ "date") (named_labels b q cols.*1)).
Proof.
  unfold fetch_default. fold (default_url self ex b q tf).
  fold (default_rename b q).
  unfold mbind at 1, io_bind. rewrite read_csv_run.
  destruct (http_body w _) as [body|] eqn:Hbody; [|done].
  cbn [mbind result_bind].
  destruct (parse_csv w _) as [cols|] eqn:Hcols; [|done].
  unfold lift. intros H. injection H as H <-.
  bind_inv H.
  apply df_drop_Ok in E as [Hsym Ha].
  rewrite Forall_singleton, labels_reverse in Hsym.
  assert (Hnamed : df_columns (df_rename (default_rename b q) a)
                   = prod_map (renamed b q) id
                       <$> filter (fun c => c.1 ∉ ["symbol"]) (prod_map id reverse <$> cols)).
  { by rewrite Ha. }
  clear Ha. set (named := df_rename (default_rename b q) a) in *. clearbody named.
  assert (Hlab : labels named = named_labels b q cols.*1).
  { unfold labels. rewrite Hnamed. apply named_columns_labels. }
  assert (Hin : "unix"%string ∈ labels named).
  { apply df_getitem_elem in E0. unfold labels. apply list_elem_of_fmap.
    by exists ("unix"%string, a0). }
  rewrite df_setitem_twice in E6 by done.
  pose proof (df_set_index_setitem_inv _ _ _ _ E6) as Hdate1.
  cbn [df_columns] in Hdate1.
  rewrite (set_column_filter_other (fun c => c.1 = "date")) in Hdate1
    by (by intros s' ?).
  rewrite <- (length_fmap fst), labels_filter_eq in Hdate1.
  fold (labels named) in Hdate1. rewrite Hlab in Hdate1.
  apply df_set_index_setitem in E6 as ->.
  unfold df_map_columns in E7. cbn [df_columns df_index df_index_name] in E7.
  apply (df_reset_index_named "date") in E7 as [Hdate2 ->].
  rewrite fmap_fst_prod_map, labels_filter_ne, set_column_labels in Hdate2.
  fold (labels named) in Hdate2. rewrite Hlab in Hdate2.
  exists body, cols. split; [done|]. split; [done|]. split; [exact Hsym|].
  split; [exact Hdate1|]. split; [exact Hdate2|].
  intros ->. cbn [negb] in H. bind_inv H. apply df_drop_Ok in E as [Hvq _].
  rewrite Forall_singleton in Hvq. unfold labels in Hvq. cbn [df_columns] in Hvq.
  rewrite fmap_cons in Hvq. apply elem_of_cons in Hvq as [Hvq | Hvq]; [done|].
  rewrite fmap_fst_prod_map, labels_filter_ne, set_column_labels in Hvq.
  fold (labels named) in Hvq. by rewrite Hlab in Hvq.
Qed.

Lemma renamed_date b q l : renamed b q l = "date" <-> l = "date" \/ l = "Date".
Proof.
  rewrite renamed_spec.
  destruct (decide (l = "Date")) as [-> | H1]; [split; [by right | done]|].
  destruct (decide (l = "Volume " +:+ q)) as [-> | H2].
  { split; [done|]. intros [H | H]; simpl in H; discriminate. }
  destruct (decide (l = "Volume " +:+ b)) as [-> | H3].
  { split; [done|]. intros [H | H]; simpl in H; discriminate. }
  split; [by left | by intros [H | H]].
Qed.

Lemma named_date_count b q header :
  length (filter (fun l => l = "date") (named_labels b q header))
  = length (filter (fun l => l = "date" \/ l = "Date") header).
Proof.
  unfold named_labels.
  change (count_label "date" (renamed b q <$> filter (fun l => l ∉ ["symbol"]) header)
          = length (filter (fun l => l = "date" \/ l = "Date") header)).
  rewrite count_label_fmap_filter. f_equal. apply filter_ext_in. intros l _.
  rewrite renamed_date, list_elem_of_singleton. split; [tauto|].
  intros H. split; [|done]. destruct H as [-> | ->]; discriminate.
Qed.

Lemma named_date_clash b q header :
  "date"%string ∈ lower <$> filter (fun l => l ≠ "date") (named_labels b q header)
  <-> exists l, l ∈ header /\ lower l = "date" /\ ¬ (l = "date" \/ l = "Date").
Proof.
  rewrite body_labels, list_elem_of_fmap. split.
  - intros (l & Hl & Hin). apply list_elem_of_filter in Hin as [[Hsym Hd] Hin].
    exists l. split; [done|]. rewrite <- renamed_date. split; [|done].
    destruct (lower_renamed_cases b q l Hsym Hd) as [[_ E] | [(_ & _ & E) | (_ & _ & E)]];
      rewrite E in Hl; try discriminate. done.
  - intros (l & Hin & Hlow & Hd). rewrite <- renamed_date in Hd.
    assert (Hsym : l ∉ ["symbol"]).
    { rewrite list_elem_of_singleton. intros ->. discriminate. }
    exists l. split; [|apply list_elem_of_filter; by split].
    destruct (lower_renamed_cases b q l Hsym Hd)
      as [[-> _] | [(_ & -> & _) | (_ & _ & E)]];
      [simpl in Hlow; discriminate | simpl in Hlow; discriminate | by rewrite E].
Qed.

Lemma named_quote_volume b q header :
  "volume_quote"%string ∈ lower <$> filter (fun l => l ≠ "date") (named_labels b q header)
  <-> exists l, l ∈ header
        /\ (l = "Volume " +:+ q \/ (l ≠ "Volume " +:+ b /\ lower l = "volume_quote")).
Proof.
  rewrite body_labels, list_elem_of_fmap. split.
  - intros (l & Hl & Hin). apply list_elem_of_filter in Hin as [[Hsym Hd] Hin].
    exists l. split; [done|].
    destruct (lower_renamed_cases b q l Hsym Hd)
      as [[E _] | [(_ & _ & E) | (_ & Hb & E)]].
    + by left.
    + rewrite E in Hl. discriminate.
    + right. split; [done|]. by rewrite E in Hl.
  - intros (l & Hin & [-> | [Hb Hlow]]).
    + destruct (volume_quote_kept b q) as (Hsym & Hd & E).
      exists ("Volume " +:+ q). split; [done|]. apply list_elem_of_filter. by split.
    + assert (Hsym : l ∉ ["symbol"]).
      { rewrite list_elem_of_singleton. intros ->. discriminate. }
      assert (Hd : renamed b q l ≠ "date").
      { rewrite renamed_date. intros [-> | ->]; discriminate. }
      exists l. split; [|apply list_elem_of_filter; by split].
      destruct (lower_renamed_cases b q l Hsym Hd)
        as [[_ E] | [(_ & E & _) | (_ & _ & E)]]; [done | done | by rewrite E].
Qed.

Lemma mapM_Forall {A B : Type} (f : A -> result B) (P : B -> Prop) l :
  (exists xs, result_mapM f l = Ok xs /\ Forall P xs)
  <-> Forall (fun v => exists x, f v = Ok x /\ P x) l.
Proof.
  induction l as [|a l IH]; simpl.
  - split; [intros _; constructor | intros _; by exists []].
  - rewrite Forall_cons, <- IH. split.
    + intros (xs & H & HP). bind_inv H. injection H as <-.
      apply Forall_cons in HP as [HP1 HP2]. split; [by exists a0 | by exists a1].
    + intros [(x & Hx & HPx) (xs & Hxs & HPxs)]. exists (x :: xs).
      rewrite Hx. cbn. rewrite Hxs. cbn. split; [done | by constructor].
Qed.

Lemma unix_cells_accepted raw :
  (exists xs, result_mapM py_int (reverse raw) = Ok xs
              /\ Forall datetime_ok (normalize_unix <$> xs))
  <-> Forall (fun v => exists x, py_int v = Ok x /\ unix_accepted x) raw.
Proof.
  rewrite <- (Forall_reverse _ raw), <- mapM_Forall.
  split; intros (xs & Hxs & Hok); exists xs; (split; [done|]);
    rewrite Forall_fmap in *; (eapply Forall_impl; [exact Hok|]);
    intros x; cbn; apply unix_accepted_spec.
Qed.

Lemma filter_label_unique l s (cols : list (string * Series)) :
  NoDup cols.*1 -> (l, s) ∈ cols -> filter (fun c => c.1 = l) cols = [(l, s)].
Proof.
  induction cols as [|[l' s'] cols IH]; intros Hnd Hin; [by apply elem_of_nil in Hin|].
  rewrite fmap_cons in Hnd. apply NoDup_cons in Hnd as [Hl' Hnd]. cbn in Hl'.
  apply elem_of_cons in Hin as [Heq | Hin].
  - injection Heq as <- <-. rewrite filter_cons_True by done.
    by rewrite filter_label_absent.
  - assert (l' ≠ l).
    { intros ->. apply Hl'. apply list_elem_of_fmap. by exists (l, s). }
    rewrite filter_cons_False by done. by apply IH.
Qed.

Lemma one_of_two (a b : string) header :
  NoDup header -> ¬ (a ∈ header /\ b ∈ header) ->
  (length (filter (fun l => l = a \/ l = b) header) <= 1)%nat.
Proof.
  induction header as [|x header IH]; intros Hnd Hboth; [simpl; lia|].
  apply NoDup_cons in Hnd as [Hx Hnd].
  destruct (decide (x = a \/ x = b)) as [Hab | Hab].
  - rewrite filter_cons_True by done. rewrite filter_none; [simpl; lia|].
    intros l Hl [-> | ->]; destruct Hab as [-> | ->]; try done;
      apply Hboth; split; first [left | by right].
  - rewrite filter_cons_False by done. apply IH; [done|].
    intros [Ha Hb]. apply Hboth. split; by right.
Qed.

(** X6.  On a table with distinct ASCII column names, a [unix] column
    of integers of 64 bits and not both a [date] and a [Date] column,
    [fetch_default] returns exactly when the table has a column [symbol],
    has a column [unix] whose values are all accepted, has no name other
    than [date] and [Date] that lower-cases to [date], and, with
    [include_all_volumes] false, has a column that ends up as
    [volume_quote] (the quote volume, or a name other than the base
    volume's that lower-cases to [volume_quote]). *)
Theorem fetch_default_returns_iff w self ex b q tf iav tr body cols :
  http_body w (default_url self ex b q tf) = Ok body ->
  parse_csv w (drop 1 body) = Ok cols ->
  plain_table cols ->
  (exists out,
     fetch_default w self ex b q tf iav tr = (Ok out, tr ++ [default_url self ex b q tf]))
  <-> default_accepts b q iav cols.
Proof.
  intros Hbody Hcols (Hnd & _ & Hint & Hboth). unfold default_accepts. split.
  - intros (out & Hrun).
    pose proof Hrun as Hneeds.
    apply fetch_default_needs in Hneeds
      as (body' & cols' & Hb & Hc & Hsym & Hd1 & Hd2 & Hvq).
    rewrite Hbody in Hb. injection Hb as <-. rewrite Hcols in Hc. injection Hc as <-.
    apply fetch_default_inv in Hrun
      as (body' & cols' & raw & xs' & Hb & Hc & _ & Hraw & Hxs & Hok & _).
    rewrite Hbody in Hb. injection Hb as <-. rewrite Hcols in Hc. injection Hc as <-.
    split; [done|]. split.
    { assert (Hin : ("unix"%string, raw) ∈ cols).
      { eapply (list_elem_of_filter (fun c => c.1 = "unix")). rewrite Hraw. left. }
      destruct (Hint raw Hin) as (xs & -> & _). exists xs. split; [done|].
      rewrite <- fmap_reverse, mapM_py_int_ints in Hxs. injection Hxs as <-.
      rewrite Forall_fmap, Forall_reverse in Hok.
      eapply Forall_impl; [exact Hok|]. intros x Hx. by apply unix_accepted_spec. }
    split.
    { intros l Hin Hlow. destruct (decide (l = "date" \/ l = "Date")) as [|Hn]; [done|].
      exfalso. apply Hd2. apply named_date_clash. by exists l. }
    intros Hiav. by apply named_quote_volume, Hvq.
  - intros (Hsym & (xs & Hin & Hacc) & Hd2 & Hvq).
    eexists.
    eapply (fetch_default_run _ _ _ _ _ _ _ _ _ _ (PInt <$> xs) (reverse xs));
      try done.
    + by apply filter_label_unique.
    + rewrite <- fmap_reverse. apply mapM_py_int_ints.
    + apply Forall_fmap, Forall_reverse. eapply Forall_impl; [exact Hacc|].
      intros x Hx. by apply unix_accepted_spec.
    + rewrite named_date_count. by apply one_of_two.
    + rewrite named_date_clash. intros (l & Hl & Hlow & Hn). by apply Hn, Hd2.
    + intros Hiav. by apply named_quote_volume, Hvq.
Qed.

Lemma sample_plain : plain_table sample_table.
Proof.
  split; [by_compute|]. split; [by_compute|]. split.
  - intros raw Hin. exists (row_unix <$> sample_rows).
    apply elem_of_cons in Hin as [Heq | Hin].
    + injection Heq as ->. split; [done|].
      unfold int64_cell. repeat constructor; simpl; lia.
    + repeat (apply elem_of_cons in Hin as [Heq | Hin]; [discriminate|]).
      by apply elem_of_nil in Hin.
  - intros [_ Hin]. revert Hin. by_compute.
Qed.

Lemma fetch_default_returns_iff_witness :
  (exists out,
     fetch_default sample_world init "Bitstamp" "USD" "BTC" "d" false []
     = (Ok out, [] ++ [default_url init "Bitstamp" "USD" "BTC" "d"]))
  <-> default_accepts "USD" "BTC" false sample_table.
Proof.
  exact (fetch_default_returns_iff sample_world init "Bitstamp" "USD" "BTC" "d" false []
           sample_lines sample_table eq_refl eq_refl sample_plain).
Defined.

(** ** The default routine: the shape of what it returns *)

Lemma default_labels_shape b q iav header :
  "date"%string ∉ lower <$> filter (fun l => l ≠ "date") (named_labels b q header) ->
  exists rest,
    default_labels b q iav header = "date"%string :: rest
    /\ ("date"%string ∉ rest)
    /\ Forall (fun l => lower l = l) rest.
Proof.
  intros Hdate. unfold default_labels.
  set (body := lower <$> filter (fun l => l ≠ "date") (named_labels b q header)) in *.
  assert (Hlow : Forall (fun l => lower l = l) body).
  { subst body. apply Forall_fmap, Forall_forall. intros l _. apply lower_idemp. }
  clearbody body. destruct iav.
  - by exists body.
  - rewrite filter_cons_True by by_compute. rewrite fmap_cons.
    exists (volume_renamed <$> filter (fun l => l ∉ ["volume_quote"]) body).
    split; [done|]. split.
    + intros Hin. apply list_elem_of_fmap in Hin as (l & Hl & Hin).
      apply list_elem_of_filter in Hin as [_ Hin].
      rewrite volume_renamed_spec in Hl. case_decide; [discriminate|]. by subst l.
    + apply Forall_fmap, Forall_filtered. eapply Forall_impl; [exact Hlow|].
      intros l Hl. cbn. rewrite volume_renamed_spec. by case_decide.
Qed.

Lemma count_label_head l rest : l ∉ rest -> count_label l (l :: rest) = 1%nat.
Proof.
  intros Hl. apply count_label_zero in Hl. unfold count_label in *.
  rewrite filter_cons_True by done. simpl. by rewrite Hl.
Qed.

(** X7.  A frame [fetch_default] returns has the default index,
    without a name; its first column is [date], no other column is called
    [date], and every column name is in lower case; when every column read
    has [n] cells, the index is [0, ..., n-1] and every column returned has
    [n] cells: no row is added, dropped or merged; and on a table with
    distinct ASCII names, a [unix] column of integers of 64 bits and not
    both [date] and [Date], the [unix] column returned holds these
    integers, normalized and oldest first, and the [date] column their
    timestamps, row by row. *)
Theorem fetch_default_shape w self ex b q tf iav tr out tr' body cols :
  http_body w (default_url self ex b q tf) = Ok body ->
  parse_csv w (drop 1 body) = Ok cols ->
  fetch_default w self ex b q tf iav tr = (Ok out, tr') ->
  df_index_name out = None
  /\ (exists rest, labels out = "date"%string :: rest /\ "date"%string ∉ rest)
  /\ Forall (fun l => lower l = l) (labels out)
  /\ (forall n, Forall (fun c => length c.2 = n) cols ->
        df_index out = range_index n
        /\ Forall (fun c => length c.2 = n) (df_columns out))
  /\ (plain_table cols ->
      forall xs, ("unix"%string, PInt <$> xs) ∈ cols ->
        let secs := normalize_unix <$> reverse xs in
        df_index out = range_index (length xs)
        /\ df_getitem "date" out = Ok (PDatetime <$> secs)
        /\ ("unix"%string, PInt <$> secs) ∈ df_columns out).
Proof.
  intros Hbody Hcols Hrun.
  pose proof (fetch_default_labels _ _ _ _ _ _ _ _ _ _ _ _ Hbody Hcols Hrun) as Hlabels.
  pose proof Hrun as Hneeds.
  apply fetch_default_needs in Hneeds
    as (body' & cols' & Hb & Hc & _ & _ & Hdate & _).
  rewrite Hbody in Hb. injection Hb as <-. rewrite Hcols in Hc. injection Hc as <-.
  destruct (default_labels_shape b q iav cols.*1 Hdate) as (rest & Hshape & Hrest & Hlow).
  rewrite Hshape in Hlabels.
  apply fetch_default_inv in Hrun
    as (body' & cols' & raw & xs' & Hb & Hc & _ & Hraw & Hxs & _ & Hout).
  rewrite Hbody in Hb. injection Hb as <-. rewrite Hcols in Hc. injection Hc as <-.
  split; [by rewrite Hout|].
  split; [by exists rest|].
  split; [rewrite Hlabels; by constructor|].
  assert (Hin : ("unix"%string, raw) ∈ cols).
  { eapply list_elem_of_filter. rewrite Hraw. left. }
  split.
  - intros n Hn.
    assert (Hlen : length xs' = n).
    { apply mapM_Ok, Forall2_length in Hxs. rewrite length_reverse in Hxs.
      rewrite Forall_forall in Hn. by rewrite <- Hxs, <- (Hn _ Hin). }
    rewrite Hout. cbn [df_index df_columns]. split; [by rewrite Hlen|].
    apply default_columns_lengths; [done | |]; by rewrite !length_fmap.
  - intros _ xs Hxs_in secs.
    assert (raw = PInt <$> xs) as ->.
    { assert (H : ("unix"%string, PInt <$> xs) ∈ filter (fun c => c.1 = "unix") cols)
        by (by apply list_elem_of_filter).
      rewrite Hraw in H. apply list_elem_of_singleton in H. by injection H. }
    rewrite <- fmap_reverse, mapM_py_int_ints in Hxs. injection Hxs as <-.
    split; [by rewrite Hout, length_reverse|]. split.
    + apply df_getitem_unique.
      * rewrite Hout. apply default_columns_date.
      * rewrite Hlabels. by apply count_label_head.
    + rewrite Hout. by apply (default_columns_unix _ _ _ _ _ _ (PInt <$> xs)).
Qed.

Lemma fetch_default_shape_witness :
  let out := frame_of (fetch_default sample_world init "Bitstamp" "USD" "BTC" "d" true []) in
  let secs := normalize_unix <$> reverse (row_unix <$> sample_rows) in
  df_index out = range_index (length (row_unix <$> sample_rows))
  /\ df_getitem "date" out = Ok (PDatetime <$> secs)
  /\ ("unix"%string, PInt <$> secs) ∈ df_columns out.
Proof.
  intros out.
  apply (proj2 (proj2 (proj2 (proj2
           (fetch_default_shape sample_world init "Bitstamp" "USD" "BTC" "d" true [] out
              ["https://www.cryptodatadownload.com/cdd/Bitstamp_BTCUSD_d.csv"]
              sample_lines sample_table eq_refl eq_refl eq_refl))))
           sample_plain (row_unix <$> sample_rows)).
  left.
Defined.

(** ** The default routine on a file of the provider, of any length *)

Lemma renamed_other b q l :
  l ≠ "Date" -> l ≠ "Volume " +:+ q -> l ≠ "Volume " +:+ b -> renamed b q l = l.
Proof. intros H1 H2 H3. rewrite renamed_spec. by rewrite !decide_False by done. Qed.

Lemma provider_named b q rows :
  b ≠ q ->
  prod_map (renamed b q) id
    <$> filter (fun c => c.1 ∉ ["symbol"]) (prod_map id reverse <$> provider_table b q rows)
  = [("unix"%string, reverse ((fun r => PInt (row_unix r)) <$> rows));
     ("date"%string, reverse (row_date <$> rows));
     ("open"%string, reverse (row_open <$> rows));
     ("high"%string, reverse (row_high <$> rows));
     ("low"%string, reverse (row_low <$> rows));
     ("close"%string, reverse (row_close <$> rows));
     ("volume_quote"%string, reverse (row_volume_quote <$> rows));
     ("volume_base"%string, reverse (row_volume_base <$> rows))].
Proof.
  intros Hbq. unfold provider_table.
  rewrite !fmap_cons, fmap_nil. unfold prod_map at 1 2 3 4 5 6 7 8 9. cbn [fst snd id].
  assert (Hs : forall s, "Volume " +:+ s ∉ ["symbol"])
    by (intros s; rewrite list_elem_of_singleton; simpl; discriminate).
  repeat first [ rewrite filter_cons_True by first [apply Hs | by_compute]
               | rewrite filter_cons_False by (intros Hn; apply Hn; left) ].
  rewrite filter_nil, !fmap_cons, fmap_nil.
  unfold prod_map. cbn [fst snd id].
  rewrite !(renamed_other b q) by (simpl; discriminate).
  assert (renamed b q ("Volume " +:+ q) = "volume_quote"%string) as ->.
  { rewrite renamed_spec. rewrite decide_False by (simpl; discriminate).
    by rewrite decide_True. }
  assert (renamed b q ("Volume " +:+ b) = "volume_base"%string) as ->.
  { rewrite renamed_spec. rewrite decide_False by (simpl; discriminate).
    rewrite decide_False by (intros ?%volume_label_inj; done).
    by rewrite decide_True. }
  reflexivity.
Qed.

Lemma default_columns_provider b q iav rows u d :
  b ≠ q ->
  default_columns b q iav (provider_table b q rows) u d
  = [("date"%string, d); ("unix"%string, u);
     ("open"%string, reverse (row_open <$> rows));
     ("high"%string, reverse (row_high <$> rows));
     ("low"%string, reverse (row_low <$> rows));
     ("close"%string, reverse (row_close <$> rows))]
    ++ (if iav
        then [("volume_quote"%string, reverse (row_volume_quote <$> rows));
              ("volume_base"%string, reverse (row_volume_base <$> rows))]
        else [("volume"%string, reverse (row_volume_base <$> rows))]).
Proof.
  intros Hbq. unfold default_columns. rewrite provider_named by done.
  destruct iav; reflexivity.
Qed.

Lemma Sorted_fmap_on {A B : Type} (R1 : relation A) (R2 : relation B) (P : A -> Prop)
    (f : A -> B) l :
  (forall x y, P x -> P y -> R1 x y -> R2 (f x) (f y)) ->
  Forall P l -> Sorted R1 l -> Sorted R2 (f <$> l).
Proof.
  intros Hf HP HS. induction HS as [|x l HS IH Hhd]; [constructor|].
  apply Forall_cons in HP as [Hx HP]. rewrite fmap_cons. constructor; [by apply IH|].
  destruct Hhd as [|y l' Hxy]; [constructor|]. rewrite fmap_cons. constructor.
  apply Forall_cons in HP as [Hy _]. by apply Hf.
Qed.

Lemma normalize_unix_seconds x : -9223372036 <= x < 10 ^ 12 -> normalize_unix x = x.
Proof.
  intros Hx. unfold normalize_unix.
  destruct (Nat.eqb_spec (String.length (str_int x)) 13) as [Hlen | _]; [|done].
  apply str_int_13 in Hlen. lia.
Qed.

Lemma fetch_default_provider_run w self ex b q tf iav tr body rows :
  b ≠ q ->
  http_body w (default_url self ex b q tf) = Ok body ->
  parse_csv w (drop 1 body) = Ok (provider_table b q rows) ->
  Forall unix_accepted (row_unix <$> rows) ->
  fetch_default w self ex b q tf iav tr
  = (Ok (mk_df None (range_index (length rows))
           (default_columns b q iav (provider_table b q rows)
              (PInt <$> (normalize_unix <$> reverse (row_unix <$> rows)))
              (PDatetime <$> (normalize_unix <$> reverse (row_unix <$> rows))))),
     tr ++ [default_url self ex b q tf]).
Proof.
  intros Hbq Hbody Hcols Hok.
  pose proof (fetch_default_run w self ex b q tf iav tr body
                (provider_table b q rows) ((fun r => PInt (row_unix r)) <$> rows)
                (reverse (row_unix <$> rows)) Hbody Hcols) as Hrun.
  rewrite provider_table_labels, named_labels_provider in Hrun by done.
  rewrite length_reverse, length_fmap in Hrun. apply Hrun.
  - unfold provider_header. right; right; left.
  - apply provider_table_unix.
  - rewrite <- fmap_reverse.
    rewrite (list_fmap_compose row_unix PInt). rewrite fmap_reverse.
    apply mapM_py_int_ints.
  - apply Forall_fmap, Forall_reverse. eapply Forall_impl; [exact Hok|].
    intros x Hx. by apply unix_accepted_spec.
  - vm_compute. lia.
  - by_compute.
  - intros _. by_compute.
Qed.

(** X8.  On a file of the provider for two distinct symbols, with any
    number of rows (none included) whose [unix] values are accepted,
    [fetch_default] returns the frame written out below: the rows in
    reverse order, [date] and [unix] computed from the [unix] read, the
    prices and volumes as read, the [symbol] and the [date] text of the file
    gone; no row is dropped, so a timestamp that occurs twice in the file
    occurs twice in the result.  When the file is newest first and its
    timestamps are all milliseconds of thirteen digits, or all seconds, the
    result is oldest first. *)
Theorem fetch_default_provider_frame w self ex b q tf iav tr body rows :
  b ≠ q ->
  http_body w (default_url self ex b q tf) = Ok body ->
  parse_csv w (drop 1 body) = Ok (provider_table b q rows) ->
  Forall unix_accepted (row_unix <$> rows) ->
  let secs := normalize_unix <$> reverse (row_unix <$> rows) in
  fetch_default w self ex b q tf iav tr
  = (Ok (mk_df None (range_index (length rows))
           ([("date"%string, PDatetime <$> secs); ("unix"%string, PInt <$> secs);
             ("open"%string, reverse (row_open <$> rows));
             ("high"%string, reverse (row_high <$> rows));
             ("low"%string, reverse (row_low <$> rows));
             ("close"%string, reverse (row_close <$> rows))]
            ++ (if iav
                then [("volume_quote"%string, reverse (row_volume_quote <$> rows));
                      ("volume_base"%string, reverse (row_volume_base <$> rows))]
                else [("volume"%string, reverse (row_volume_base <$> rows))]))),
     tr ++ [default_url self ex b q tf])
  /\ (Sorted Z.ge (row_unix <$> rows) ->
      Forall (fun x => 10 ^ 12 <= x) (row_unix <$> rows)
      \/ Forall (fun x => -9223372036 <= x < 10 ^ 12) (row_unix <$> rows) ->
      Sorted Z.le secs).
Proof.
  intros Hbq Hbody Hcols Hok secs. split.
  - rewrite (fetch_default_provider_run _ _ _ _ _ _ _ _ _ _ Hbq Hbody Hcols Hok).
    by rewrite default_columns_provider.
  - intros Hsorted Hunit. subst secs. apply Sorted_reverse in Hsorted.
    apply Forall_reverse in Hok.
    destruct Hunit as [Hunit | Hunit]; apply Forall_reverse in Hunit.
    + apply (Sorted_fmap_on (flip Z.ge) Z.le
               (fun x => 10 ^ 12 <= x <= last_millisecond)); [| |done].
      * unfold flip, last_millisecond. intros x y Hx Hy Hxy.
        rewrite !normalize_unix_millis by lia. apply Z.div_le_mono; lia.
      * rewrite Forall_forall in *. intros x Hx.
        specialize (Hok x Hx). specialize (Hunit x Hx). cbn in Hunit.
        unfold unix_accepted in Hok. lia.
    + apply (Sorted_fmap_on (flip Z.ge) Z.le
               (fun x => -9223372036 <= x < 10 ^ 12)); [|done|done].
      unfold flip. intros x y Hx Hy Hxy.
      rewrite !normalize_unix_seconds by done. lia.
Qed.

Lemma fetch_default_provider_frame_witness :
  let secs := normalize_unix <$> reverse (row_unix <$> sample_rows) in
  fetch_default sample_world init "Bitstamp" "USD" "BTC" "d" true []
  = (Ok (mk_df None (range_index (length sample_rows))
           ([("date"%string, PDatetime <$> secs); ("unix"%string, PInt <$> secs);
             ("open"%string, reverse (row_open <$> sample_rows));
             ("high"%string, reverse (row_high <$> sample_rows));
             ("low"%string, reverse (row_low <$> sample_rows));
             ("close"%string, reverse (row_close <$> sample_rows))]
            ++ [("volume_quote"%string, reverse (row_volume_quote <$> sample_rows));
                ("volume_base"%string, reverse (row_volume_base <$> sample_rows))])),
     [] ++ [default_url init "Bitstamp" "USD" "BTC" "d"])
  /\ (Sorted Z.ge (row_unix <$> sample_rows) ->
      Forall (fun x => 10 ^ 12 <= x) (row_unix <$> sample_rows)
      \/ Forall (fun x => -9223372036 <= x < 10 ^ 12) (row_unix <$> sample_rows) ->
      Sorted Z.le secs).
Proof.
  apply (fetch_default_provider_frame sample_world init "Bitstamp" "USD" "BTC" "d" true []
           sample_lines sample_rows).
  - discriminate.
  - reflexivity.
  - reflexivity.
  - unfold unix_accepted, last_millisecond. repeat constructor; simpl; lia.
Defined.

(** ** The default routine: timestamps out of range *)

Lemma to_datetime_s_out ys :
  Exists (fun y => ¬ datetime_ok y) ys ->
  to_datetime_s (PInt <$> ys) = Raise OutOfBoundsDatetime.
Proof.
  unfold to_datetime_s, datetime_ok.
  induction ys as [|y ys IH]; intros Hex; [by apply Exists_nil in Hex|].
  rewrite fmap_cons. cbn [result_mapM].
  destruct (Z.leb_spec (-9223372036) y), (Z.leb_spec y 9223372036);
    cbn [andb mbind result_bind]; try done.
  apply Exists_cons in Hex as [Hy | Hex]; [lia|]. by rewrite IH.
Qed.

(** X9.  When the table has [symbol] and one [unix] column, of integers
    of 64 bits (the least one apart, which pandas reads as a missing
    value), and one of them is not an accepted value (a second past the
    year 2262 after normalization, or before 1677), [fetch_default] raises
    [OutOfBoundsDatetime], whatever the other columns hold. *)
Theorem fetch_default_out_of_bounds w self ex b q tf iav tr body cols xs :
  http_body w (default_url self ex b q tf) = Ok body ->
  parse_csv w (drop 1 body) = Ok cols ->
  "symbol"%string ∈ cols.*1 ->
  filter (fun c => c.1 = "unix") cols = [("unix"%string, PInt <$> xs)] ->
  Forall int64_cell xs ->
  Exists (fun x => ¬ unix_accepted x) xs ->
  fetch_default w self ex b q tf iav tr
  = (Raise OutOfBoundsDatetime, tr ++ [default_url self ex b q tf]).
Proof.
  intros Hbody Hcols Hsym Hraw _ Hbad.
  pose proof (mapM_py_int_ints xs) as Hxs. revert Hraw Hxs.
  generalize (PInt <$> xs). intros raw Hraw Hxs.
  assert (Hrev : result_mapM py_int (reverse raw) = Ok (reverse xs)).
  { apply mapM_Ok in Hxs. clear -Hxs.
    assert (Happ : forall l1 l2 r1 r2,
              result_mapM py_int l1 = Ok r1 -> result_mapM py_int l2 = Ok r2 ->
              result_mapM py_int (l1 ++ l2) = Ok (r1 ++ r2)).
    { induction l1 as [|v l1 IH]; intros l2 r1 r2 H1 H2.
      - cbn in H1. by injection H1 as <-.
      - cbn [result_mapM] in H1. bind_inv H1. injection H1 as <-.
        rewrite <- !app_comm_cons. cbn [result_mapM]. rewrite E. cbn [mbind result_bind].
        by rewrite (IH l2 a0 r2 E0 H2). }
    induction Hxs as [|v x raw xs Hv _ IH]; [done|].
    rewrite !reverse_cons. apply Happ; [done|]. cbn [result_mapM]. by rewrite Hv. }
  unfold fetch_default. fold (default_url self ex b q tf).
  fold (default_rename b q).
  unfold mbind at 1, io_bind. rewrite read_csv_run, Hbody.
  cbn [mbind result_bind]. rewrite Hcols. unfold lift. f_equal.
  set (df0 := df_reverse _).
  rewrite (df_drop_run ["symbol"] df0).
  2:{ apply Forall_singleton. subst df0. rewrite labels_reverse. exact Hsym. }
  cbn [mbind result_bind].
  set (named := df_rename (default_rename b q) _).
  assert (Hnamed : df_columns named
                   = prod_map (renamed b q) id
                       <$> filter (fun c => c.1 ∉ ["symbol"]) (prod_map id reverse <$> cols))
    by done.
  clearbody named. clear df0.
  assert (Hu : filter (fun c => c.1 = "unix") (df_columns named)
               = [("unix"%string, reverse raw)]).
  { rewrite Hnamed, unix_source, Hraw. rewrite !fmap_cons. simpl. f_equal. f_equal.
    by apply renamed_unix. }
  assert (Hin : "unix"%string ∈ labels named).
  { unfold labels. apply list_elem_of_fmap. exists ("unix"%string, reverse raw).
    split; [done|]. eapply list_elem_of_filter. rewrite Hu. left. }
  rewrite (proj2 (df_getitem_Ok "unix" named (reverse raw)) Hu).
  cbn [mbind result_bind]. rewrite (astype_int_run _ _ Hrev).
  cbn [mbind result_bind]. rewrite df_getitem_setitem_run by (rewrite Hu; simpl; lia).
  cbn [mbind result_bind]. rewrite series_apply_unix.
  cbn [mbind result_bind]. rewrite df_setitem_twice by done.
  rewrite (proj2 (df_getitem_Ok "unix" _ (PInt <$> (normalize_unix <$> reverse xs)))).
  2:{ simpl. rewrite set_column_filter_same, Hu. done. }
  cbn [mbind result_bind]. rewrite to_datetime_s_out; [done|].
  apply Exists_fmap, Exists_exists. apply Exists_exists in Hbad as (x & Hx & Hn).
  exists x. split; [by apply elem_of_reverse|]. cbn. by rewrite unix_accepted_spec.
Qed.

Lemma fetch_default_out_of_bounds_witness :
  fetch_default far_world init "Bitstamp" "USD" "BTC" "d" true []
  = (Raise OutOfBoundsDatetime, [] ++ [default_url init "Bitstamp" "USD" "BTC" "d"]).
Proof.
  apply (fetch_default_out_of_bounds far_world init "Bitstamp" "USD" "BTC" "d" true []
           far_lines (provider_table "USD" "BTC" far_rows)
           [9999999999999; 9999999939999; 9999999879999]);
    try reflexivity.
  - by_compute.
  - unfold int64_cell. repeat constructor; simpl; lia.
  - left. unfold unix_accepted, last_millisecond. lia.
Defined.

(** ** The round trip on a file of the provider *)

(** C7, amended.  For a file of the provider for two distinct symbols,
    with a banner, a header and three rows, newest first, whose [unix]
    values are positive numbers of 13 digits that do not exceed
    [last_millisecond], [fetch_default] returns the frame written out
    below, of three rows, oldest first: the rows of the file in reverse
    order, with their prices and volumes as read, the [unix] column
    holding the values divided by 1000, which have 10 digits, and the
    [date] column the timestamps of those seconds. *)
Theorem fetch_default_round_trip w self ex b q tf iav tr banner lines rows :
  b ≠ q ->
  http_body w (default_url self ex b q tf) = Ok (banner :: lines) ->
  parse_csv w lines = Ok (provider_table b q rows) ->
  length rows = 3%nat ->
  Sorted Z.ge (row_unix <$> rows) ->
  Forall (fun x => 0 < x /\ decimal_digits x = 13%nat /\ x <= last_millisecond)
    (row_unix <$> rows) ->
  let secs := (fun x => x / 1000) <$> reverse (row_unix <$> rows) in
  fetch_default w self ex b q tf iav tr
  = (Ok (mk_df None (range_index 3)
           ([("date"%string, PDatetime <$> secs); ("unix"%string, PInt <$> secs);
             ("open"%string, reverse (row_open <$> rows));
             ("high"%string, reverse (row_high <$> rows));
             ("low"%string, reverse (row_low <$> rows));
             ("close"%string, reverse (row_close <$> rows))]
            ++ (if iav
                then [("volume_quote"%string, reverse (row_volume_quote <$> rows));
                      ("volume_base"%string, reverse (row_volume_base <$> rows))]
                else [("volume"%string, reverse (row_volume_base <$> rows))]))),
     tr ++ [default_url self ex b q tf])
  /\ length secs = 3%nat
  /\ Sorted Z.le secs
  /\ Forall (fun s => 10 ^ 9 <= s < 10 ^ 10 /\ decimal_digits s = 10%nat) secs.
Proof.
  intros Hbq Hbody Hcols Hlen Hsorted Hdigits secs.
  assert (Hrange : Forall (fun x => 10 ^ 12 <= x <= last_millisecond) (row_unix <$> rows)).
  { eapply Forall_impl; [exact Hdigits|]. intros x (Hpos & Hd & Hmax).
    apply thirteen_digits in Hd. lia. }
  clear Hdigits.
  set (zs := reverse (row_unix <$> rows)) in *.
  assert (Hzs : Forall (fun x => 10 ^ 12 <= x <= last_millisecond) zs)
    by (by apply Forall_reverse).
  assert (Hnorm : normalize_unix <$> zs = secs).
  { subst secs. apply list_fmap_ext. intros i x Hx.
    eapply Forall_lookup_1 in Hzs; [|exact Hx]. by apply millis_seconds. }
  split; [|split; [|split]].
  - rewrite (fetch_default_provider_run w self ex b q tf iav tr (banner :: lines) rows
               Hbq Hbody Hcols).
    2:{ eapply Forall_impl; [exact Hrange|]. intros x Hx. right. by left. }
    fold zs. by rewrite Hnorm, Hlen, default_columns_provider.
  - subst secs zs. by rewrite length_fmap, length_reverse, length_fmap.
  - subst secs zs. apply (Sorted_fmap _ (flip Z.ge)).
    + unfold flip. intros x y Hxy. apply Z.div_le_mono; lia.
    + by apply Sorted_reverse.
  - subst secs. apply Forall_fmap. eapply Forall_impl; [exact Hzs|].
    intros x Hx. cbn. apply millis_seconds in Hx as (_ & _ & Hs). split; [done|].
    apply (decimal_digits_spec (x / 1000) 9); [lia|].
    change (10 ^ Z.of_nat 9) with (10 ^ 9). change (10 ^ Z.of_nat 10) with (10 ^ 10). lia.
Qed.

Lemma fetch_default_round_trip_witness :
  let secs := [1700000000; 1700000060; 1700000120] in
  fetch_default sample_world init "Bitstamp" "USD" "BTC" "d" false []
  = (Ok (mk_df None (range_index 3)
           [("date"%string, PDatetime <$> secs); ("unix"%string, PInt <$> secs);
            ("open"%string, [PInt 33; PInt 34; PInt 35]);
            ("high"%string, [PInt 34; PInt 35; PInt 36]);
            ("low"%string, [PInt 33; PInt 33; PInt 34]);
            ("close"%string, [PInt 34; PInt 35; PInt 35]);
            ("volume"%string, [PInt 34; PInt 70; PInt 105])]),
     ["https://www.cryptodatadownload.com/cdd/Bitstamp_BTCUSD_d.csv"])
  /\ length secs = 3%nat
  /\ Sorted Z.le secs
  /\ Forall (fun s => 10 ^ 9 <= s < 10 ^ 10 /\ decimal_digits s = 10%nat) secs.
Proof.
  apply (fetch_default_round_trip sample_world init "Bitstamp" "USD" "BTC" "d" false []
           "https://www.CryptoDataDownload.com" (drop 1 sample_lines) sample_rows).
  - discriminate.
  - reflexivity.
  - reflexivity.
  - reflexivity.
  - repeat constructor; simpl; lia.
  - unfold last_millisecond. repeat constructor; simpl; lia.
Defined.

(** C7 as stated fails: thirteen digits reach past the year 2262, where
    [pd.to_datetime] refuses the seconds and the call raises. *)
Lemma fetch_default_round_trip_counterexample :
  Forall (fun x => decimal_digits x = 13%nat) (row_unix <$> far_rows)
  /\ Sorted Z.ge (row_unix <$> far_rows)
  /\ http_body far_world (default_url init "Bitstamp" "USD" "BTC" "d") = Ok far_lines
  /\ parse_csv far_world (drop 1 far_lines) = Ok (provider_table "USD" "BTC" far_rows)
  /\ fetch_default far_world init "Bitstamp" "USD" "BTC" "d" false []
     = (Raise OutOfBoundsDatetime,
        ["https://www.cryptodatadownload.com/cdd/Bitstamp_BTCUSD_d.csv"]).
Proof.
  split; [repeat constructor|].
  split; [repeat constructor; simpl; lia|].
  split; [reflexivity|]. split; [reflexivity|]. vm_compute. reflexivity.
Qed.

(** ** The default routine: the text it does not read *)

Lemma same_but_labels ls cols cols' : same_but ls cols cols' -> cols.*1 = cols'.*1.
Proof.
  induction 1 as [|c c' cols cols' (Hl & _ & _) _ IH]; [done|].
  rewrite !fmap_cons. by f_equal.
Qed.

Lemma same_but_filter ls (P : string -> Prop) `{!forall l, Decision (P l)} cols cols' :
  same_but ls cols cols' ->
  Forall2 (fun c c' => c.1 = c'.1 /\ length c.2 = length c'.2
                        /\ (c.1 ∉ ls -> c.2 = c'.2) /\ P c.1)
    (filter (fun c => P c.1) cols) (filter (fun c => P c.1) cols').
Proof.
  induction 1 as [|[l1 s1] [l2 s2] cols cols' Hc _ IH]; [constructor|].
  pose proof Hc as (E & Hlen & Hs). cbn in E. subst l2.
  destruct (decide (P l1)) as [HP | HP].
  - rewrite !filter_cons_True by done. by constructor.
  - by rewrite !filter_cons_False by done.
Qed.

Lemma same_but_select ls l cols cols' :
  same_but ls cols cols' -> l ∉ ls ->
  filter (fun c => c.1 = l) cols = filter (fun c => c.1 = l) cols'.
Proof.
  intros H Hl. induction H as [|[l1 s1] [l2 s2] cols cols' (E & _ & Hs) _ IH]; [done|].
  cbn in E, Hs. subst l2. destruct (decide (l1 = l)) as [-> | Hne].
  - rewrite !filter_cons_True by done. rewrite (Hs Hl). by f_equal.
  - by rewrite !filter_cons_False by done.
Qed.

Lemma same_but_set_column ls l s cols cols' :
  same_but ls cols cols' -> same_but ls (set_column l s cols) (set_column l s cols').
Proof.
  unfold set_column.
  induction 1 as [|[l1 s1] [l2 s2] cols cols' (E & Hlen & Hs) _ IH]; [constructor|].
  cbn in E, Hlen, Hs. subst l2. rewrite !fmap_cons. constructor; [|done].
  cbn. by case_decide.
Qed.

(** Two frames that differ at most in the cells under the labels [ls]. *)
Lemma df_getitem_same_but ls l df df' :
  same_but ls (df_columns df) (df_columns df') -> l ∉ ls ->
  df_getitem l df = df_getitem l df'.
Proof. intros H Hl. unfold df_getitem. by rewrite (same_but_select ls l _ _ H Hl). Qed.

Lemma df_setitem_same_but ls l s df df' :
  same_but ls (df_columns df) (df_columns df') ->
  same_but ls (df_columns (df_setitem l s df)) (df_columns (df_setitem l s df')).
Proof.
  intros H. unfold df_setitem, labels. rewrite <- (same_but_labels _ _ _ H).
  cbn [df_columns]. case_decide.
  - by apply same_but_set_column.
  - apply Forall2_app; [done|]. by repeat constructor.
Qed.

Lemma df_setitem_covers l s df df' :
  df_index_name df = df_index_name df' -> df_index df = df_index df' ->
  same_but [l] (df_columns df) (df_columns df') ->
  df_setitem l s df = df_setitem l s df'.
Proof.
  intros Hname Hidx H. unfold df_setitem, labels.
  rewrite <- (same_but_labels _ _ _ H), Hname, Hidx. f_equal.
  assert (Hset : (fun c : string * Series => if decide (c.1 = l) then (l, s) else c)
                   <$> df_columns df
                 = (fun c => if decide (c.1 = l) then (l, s) else c) <$> df_columns df').
  { clear Hname Hidx.
    induction H as [|[l1 s1] [l2 s2] cols cols' (E & _ & Hs) _ IH]; [done|].
    cbn in E, Hs. subst l2. rewrite !fmap_cons. f_equal; [|done].
    cbn. case_decide; [done|]. f_equal. apply Hs. by rewrite list_elem_of_singleton. }
  case_decide as Hin; [done|]. f_equal.
  clear Hset Hname Hidx.
  induction H as [|[l1 s1] [l2 s2] cols cols' (E & _ & Hs) _ IH]; [done|].
  cbn in E, Hs. subst l2. rewrite fmap_cons in Hin.
  apply not_elem_of_cons in Hin as [Hne Hin]. cbn in Hne.
  f_equal; [|by apply IH]. f_equal. apply Hs. by rewrite list_elem_of_singleton.
Qed.

Lemma same_but_named b q cols cols' :
  same_but ["symbol"; "date"; "Date"] cols cols' ->
  same_but ["date"]
    (prod_map (renamed b q) id
       <$> filter (fun c => c.1 ∉ ["symbol"]) (prod_map id reverse <$> cols))
    (prod_map (renamed b q) id
       <$> filter (fun c => c.1 ∉ ["symbol"]) (prod_map id reverse <$> cols')).
Proof.
  intros H.
  assert (Hrev : same_but ["symbol"; "date"; "Date"] (prod_map id reverse <$> cols)
                   (prod_map id reverse <$> cols')).
  { unfold same_but. apply Forall2_fmap. eapply Forall2_impl; [exact H|].
    intros [l1 s1] [l2 s2] (E & Hlen & Hs). cbn in E, Hlen, Hs. subst l2.
    unfold prod_map, id. cbn [fst snd].
    split; [done|]. split; [by rewrite !length_reverse|].
    intros Hl. by rewrite Hs. }
  apply (same_but_filter _ (fun l => l ∉ ["symbol"])) in Hrev.
  unfold same_but. apply Forall2_fmap. eapply Forall2_impl; [exact Hrev|].
  intros [l1 s1] [l2 s2] (E & Hlen & Hs & Hsym). cbn in E, Hlen, Hs, Hsym. subst l2.
  unfold prod_map, id. cbn [fst snd].
  split; [done|]. split; [done|]. intros Hl. apply Hs.
  rewrite list_elem_of_singleton, renamed_date in Hl.
  rewrite list_elem_of_singleton in Hsym.
  intros Hin. apply elem_of_cons in Hin as [-> | Hin]; [done|]. apply Hl.
  apply elem_of_cons in Hin as [-> | Hin]; [by left|].
  apply list_elem_of_singleton in Hin as ->. by right.
Qed.

(** X10.  The text of the [symbol] and [date] columns of a file has no
    influence: two tables with the same column names and the same cells,
    except for the cells of the columns called [symbol], [date] or [Date],
    give the same outcome, frame or exception. *)
Theorem fetch_default_ignores_date_text w w' self ex b q tf iav tr body body' cols cols' :
  http_body w (default_url self ex b q tf) = Ok body ->
  parse_csv w (drop 1 body) = Ok cols ->
  http_body w' (default_url self ex b q tf) = Ok body' ->
  parse_csv w' (drop 1 body') = Ok cols' ->
  same_but ["symbol"; "date"; "Date"] cols cols' ->
  fetch_default w self ex b q tf iav tr = fetch_default w' self ex b q tf iav tr.
Proof.
  intros Hbody Hcols Hbody' Hcols' Hsame.
  unfold fetch_default. fold (default_url self ex b q tf). fold (default_rename b q).
  cbv zeta. rewrite !io_bind_lift, !read_csv_run, Hbody, Hbody'.
  cbn [mbind result_bind]. rewrite Hcols, Hcols'. cbn [mbind result_bind]. f_equal.
  match goal with
  | |- context [mk_df None (range_index ?n) cols] => set (n1 := n)
  end.
  match goal with
  | |- context [mk_df None (range_index ?n) cols'] => set (n2 := n)
  end.
  assert (Hidx : n2 = n1).
  { subst n1 n2. destruct Hsame as [|c c' ? ? (_ & Hlen & _) _]; [done|].
    symmetry. exact Hlen. }
  clearbody n1 n2. subst n2.
  unfold df_drop. rewrite !labels_reverse. unfold labels. cbn [df_columns].
  rewrite <- (same_but_labels _ _ _ Hsame).
  destruct (filter _ ["symbol"]) as [|l ?]; [|done].
  cbn [mbind result_bind df_reverse df_index_name df_index df_columns].
  pose proof (same_but_named b q _ _ Hsame) as Hnamed.
  set (named := df_rename _ _). set (named' := df_rename _ _).
  assert (H0 : same_but ["date"] (df_columns named) (df_columns named')) by exact Hnamed.
  assert (Hname : df_index_name named = df_index_name named') by done.
  assert (Hindex : df_index named = df_index named') by done.
  clearbody named named'. clear Hnamed.
  assert (Hunix : "unix"%string ∉ ["date"]) by by_compute.
  rewrite (df_getitem_same_but _ _ _ _ H0 Hunix).
  destruct (df_getitem "unix" named') as [u0|]; [|done]. cbn [mbind result_bind].
  destruct (astype_int u0) as [u1|]; [|done]. cbn [mbind result_bind].
  pose proof (df_setitem_same_but _ "unix" u1 _ _ H0) as H1.
  rewrite (df_getitem_same_but _ _ _ _ H1 Hunix).
  destruct (df_getitem "unix" (df_setitem "unix" u1 named')) as [u2|]; [|done].
  cbn [mbind result_bind].
  destruct (series_apply unix_lambda u2) as [u3|]; [|done]. cbn [mbind result_bind].
  pose proof (df_setitem_same_but _ "unix" u3 _ _ H1) as H2.
  rewrite (df_getitem_same_but _ _ _ _ H2 Hunix).
  destruct (df_getitem "unix" _) as [u4|]; [|done]. cbn [mbind result_bind].
  destruct (to_datetime_s u4) as [d|]; [|done]. cbn [mbind result_bind].
  rewrite (df_setitem_covers "date" d
             (df_setitem "unix" u3 (df_setitem "unix" u1 named))
             (df_setitem "unix" u3 (df_setitem "unix" u1 named'))); done.
Qed.

Lemma fetch_default_ignores_date_text_witness :
  fetch_default sample_world init "Bitstamp" "USD" "BTC" "d" false []
  = fetch_default redated_world init "Bitstamp" "USD" "BTC" "d" false [].
Proof.
  apply (fetch_default_ignores_date_text sample_world redated_world init "Bitstamp" "USD"
           "BTC" "d" false [] sample_lines sample_lines sample_table
           (provider_table "USD" "BTC" redated_rows) eq_refl eq_refl eq_refl eq_refl).
  unfold same_but.
  repeat (constructor; [split; [reflexivity|]; split; [reflexivity|]; cbn;
                        first [ intros _; reflexivity
                              | intros Hn; exfalso; apply Hn; by_compute ]|]).
  constructor.
Defined.

(** ** The Gemini routine: when it returns, and what *)

Lemma fetch_gemini_run w self b q tf tr :
  fetch_gemini w self b q tf tr
  = (body ← http_body w (gemini_url self b q tf);
     cols ← parse_csv w (drop 1 body);
     df ← df_drop ["Symbol"; "Unix Timestamp"]
            (df_reverse
               (mk_df None (range_index (length (default [] (snd <$> head cols)))) cols));
     df ← df_set_index "date" (df_map_columns lower df);
     df_reset_index df,
     tr ++ [gemini_url self b q tf]).
Proof.
  unfold fetch_gemini. cbv zeta.
  change (url self +:+ "gemini" +:+ "_" +:+ q +:+ b +:+ "_"
          +:+ (if endswith tf "h" then drop_last tf +:+ "hr" else tf) +:+ ".csv")
    with (gemini_url self b q tf).
  rewrite io_bind_lift, read_csv_run.
  destruct (http_body w _) as [body|]; [|done]. cbn [mbind result_bind].
  destruct (parse_csv w _) as [cols|]; [|done]. cbn [mbind result_bind]. f_equal.
  destruct (df_drop _ _) as [df|]; [|done]. cbn [mbind result_bind].
  destruct (df_set_index _ _) as [df'|]; [|done]. cbn [mbind result_bind].
  by destruct (df_reset_index df').
Qed.

Lemma gemini_date_columns (cols : list (string * Series)) :
  filter (fun c => c.1 = "date")
    (prod_map lower id
       <$> filter (fun c => c.1 ∉ ["Symbol"; "Unix Timestamp"])
             (prod_map id reverse <$> cols))
  = prod_map lower reverse <$> filter (fun c => lower c.1 = "date") cols.
Proof.
  induction cols as [|[l s] cols IH]; [done|].
  rewrite fmap_cons. unfold prod_map at 2. cbn [fst snd id].
  destruct (decide (lower l = "date")) as [Hd | Hd].
  - assert (Hl : l ∉ ["Symbol"; "Unix Timestamp"]).
    { intros Hin. apply elem_of_cons in Hin as [-> | Hin]; [discriminate|].
      apply list_elem_of_singleton in Hin as ->. discriminate. }
    rewrite (filter_cons_True (fun c => c.1 ∉ _)) by done.
    rewrite fmap_cons. unfold prod_map at 1. cbn [fst snd id].
    rewrite filter_cons_True by done.
    rewrite (filter_cons_True (fun c => lower c.1 = _)) by done.
    rewrite fmap_cons. by rewrite IH.
  - rewrite (filter_cons_False (fun c => lower c.1 = _)) by done.
    destruct (decide (l ∈ ["Symbol"; "Unix Timestamp"])) as [Hl | Hl].
    + by rewrite (filter_cons_False (fun c => c.1 ∉ _)) by (intros Hn; by apply Hn).
    + rewrite (filter_cons_True (fun c => c.1 ∉ _)) by done.
      rewrite fmap_cons. unfold prod_map at 1. cbn [fst snd id].
      by rewrite filter_cons_False by done.
Qed.

Lemma gemini_other_columns (cols : list (string * Series)) :
  filter (fun c => c.1 ≠ "date")
    (prod_map lower id
       <$> filter (fun c => c.1 ∉ ["Symbol"; "Unix Timestamp"])
             (prod_map id reverse <$> cols))
  = prod_map lower reverse
      <$> filter (fun c => (c.1 ∉ ["Symbol"; "Unix Timestamp"]) /\ lower c.1 ≠ "date") cols.
Proof.
  induction cols as [|[l s] cols IH]; [done|].
  rewrite fmap_cons. unfold prod_map at 2. cbn [fst snd id].
  destruct (decide (l ∈ ["Symbol"; "Unix Timestamp"])) as [Hl | Hl].
  - rewrite (filter_cons_False (fun c => c.1 ∉ _)) by (intros Hn; by apply Hn).
    by rewrite (filter_cons_False (fun c => _ /\ _)) by (intros [Hn _]; by apply Hn).
  - rewrite (filter_cons_True (fun c => c.1 ∉ _)) by done.
    rewrite fmap_cons. unfold prod_map at 1. cbn [fst snd id].
    destruct (decide (lower l = "date")) as [Hd | Hd].
    + rewrite filter_cons_False by (intros Hn; by apply Hn).
      by rewrite (filter_cons_False (fun c => _ /\ _)) by (intros [_ Hn]; by apply Hn).
    + rewrite filter_cons_True by done.
      rewrite (filter_cons_True (fun c => _ /\ _)) by done.
      rewrite fmap_cons. by rewrite IH.
Qed.

Lemma label_filtered_out l (cols : list (string * Series)) :
  l ∉ (filter (fun c => c.1 ≠ l) cols).*1.
Proof.
  rewrite labels_filter_ne. intros Hin. by apply list_elem_of_filter in Hin as [Hne _].
Qed.

(** X11.  On a table whose column names are ASCII and of which at most
    one lower-cases to [date], [fetch_gemini] returns exactly when the
    table has the columns [Symbol] and [Unix Timestamp] and a column whose
    name lower-cases to [date].  The frame returned has that column first,
    under the name [date], then the other columns less [Symbol] and
    [Unix Timestamp], under their lower-cased names; every column holds
    the cells read, in reverse order (the dates are not parsed), and the
    index is [0, ..., n-1]. *)
Theorem fetch_gemini_returns w self b q tf tr body cols :
  http_body w (gemini_url self b q tf) = Ok body ->
  parse_csv w (drop 1 body) = Ok cols ->
  Forall ascii_label cols.*1 ->
  (length (filter (fun c => lower c.1 = "date") cols) <= 1)%nat ->
  forall out,
    fetch_gemini w self b q tf tr = (Ok out, tr ++ [gemini_url self b q tf])
    <-> "Symbol"%string ∈ cols.*1
        /\ "Unix Timestamp"%string ∈ cols.*1
        /\ exists l s,
             filter (fun c => lower c.1 = "date") cols = [(l, s)]
             /\ out = mk_df None (range_index (length s))
                        (("date"%string, reverse s)
                           :: (prod_map lower reverse
                                 <$> filter (fun c => (c.1 ∉ ["Symbol"; "Unix Timestamp"])
                                                      /\ lower c.1 ≠ "date") cols)).
Proof.
  intros Hbody Hcols _ _ out. rewrite fetch_gemini_run, Hbody. cbn [mbind result_bind].
  rewrite Hcols. cbn [mbind result_bind]. split.
  - intros H. injection H as H. bind_inv H.
    apply df_drop_Ok in E as [Hdrop ->].
    apply Forall_cons in Hdrop as [Hs Hu]. rewrite Forall_singleton in Hu.
    rewrite labels_reverse in Hs, Hu.
    split; [exact Hs|]. split; [exact Hu|].
    unfold df_set_index in E0. bind_inv E0. injection E0 as <-.
    apply df_getitem_Ok in E.
    unfold df_map_columns, df_reverse in E, H. cbn [df_columns df_index df_index_name] in E, H.
    rewrite gemini_date_columns in E. rewrite gemini_other_columns in H.
    destruct (filter (fun c => lower c.1 = "date") cols) as [|[l s] [|c rest]]; try done.
    rewrite fmap_cons, fmap_nil in E. unfold prod_map in E. cbn [fst snd] in E.
    injection E as _ <-.
    apply (df_reset_index_named "date") in H as [_ ->].
    exists l, s. split; [done|]. by rewrite length_reverse.
  - intros (Hs & Hu & l & s & Hdate & ->). f_equal.
    rewrite df_drop_run.
    2:{ rewrite labels_reverse. by repeat constructor. }
    cbn [mbind result_bind]. unfold df_set_index.
    rewrite (proj2 (df_getitem_Ok "date" _ (reverse s))).
    2:{ unfold df_map_columns, df_reverse. cbn [df_columns].
        rewrite gemini_date_columns, Hdate, fmap_cons, fmap_nil.
        unfold prod_map. cbn [fst snd]. f_equal. f_equal.
        assert (Hin : (l, s) ∈ filter (fun c => lower c.1 = "date") cols)
          by (rewrite Hdate; left).
        by apply list_elem_of_filter in Hin as [Hin _]. }
    cbn [mbind result_bind].
    unfold df_map_columns, df_reverse. cbn [df_columns df_index df_index_name].
    rewrite df_reset_index_named_run by apply label_filtered_out.
    by rewrite gemini_other_columns, length_reverse.
Qed.

Lemma fetch_gemini_returns_witness :
  fetch_gemini gemini_world init "BTC" "USD" "1h" []
  = (Ok (mk_df None (range_index 2)
           [ ("date"%string, [PStr "2023-11-14 23:00:00"; PStr "2023-11-15 00:00:00"]);
             ("open"%string, [PInt 35300; PInt 35500]);
             ("high"%string, [PInt 35600; PInt 35800]);
             ("low"%string, [PInt 35200; PInt 35400]);
             ("close"%string, [PInt 35500; PInt 35700]);
             ("volume"%string, [PInt 9; PInt 12]) ]),
     [] ++ [gemini_url init "BTC" "USD" "1h"]).
Proof.
  apply (proj2 (fetch_gemini_returns gemini_world init "BTC" "USD" "1h" []
                  gemini_lines gemini_table eq_refl eq_refl
                  ltac:(apply (bool_decide_unpack _); vm_compute; exact I)
                  ltac:(apply (bool_decide_unpack _); vm_compute; exact I) _)).
  split; [by_compute|]. split; [by_compute|].
  exists "Date"%string, [PStr "2023-11-15 00:00:00"; PStr "2023-11-14 23:00:00"].
  split; reflexivity.
Defined.

(** X12.  A table without [Symbol] makes [fetch_gemini] raise [KeyError]
    for [Symbol]; one with [Symbol] and without [Unix Timestamp] makes it
    raise [KeyError] for [Unix Timestamp]; one with both and with no column
    whose name lower-cases to [date] makes it raise [KeyError] for [date].
    A file in the layout of the default routine is of the first kind. *)
Theorem fetch_gemini_missing_column w self b q tf tr body cols :
  http_body w (gemini_url self b q tf) = Ok body ->
  parse_csv w (drop 1 body) = Ok cols ->
  ("Symbol"%string ∉ cols.*1 ->
   fetch_gemini w self b q tf tr
   = (Raise (KeyError "Symbol"), tr ++ [gemini_url self b q tf]))
  /\ ("Symbol"%string ∈ cols.*1 -> "Unix Timestamp"%string ∉ cols.*1 ->
      fetch_gemini w self b q tf tr
      = (Raise (KeyError "Unix Timestamp"), tr ++ [gemini_url self b q tf]))
  /\ ("Symbol"%string ∈ cols.*1 -> "Unix Timestamp"%string ∈ cols.*1 ->
      (forall l, l ∈ cols.*1 -> lower l ≠ "date") ->
      fetch_gemini w self b q tf tr
      = (Raise (KeyError "date"), tr ++ [gemini_url self b q tf])).
Proof.
  intros Hbody Hcols. rewrite fetch_gemini_run, Hbody. cbn [mbind result_bind].
  rewrite Hcols. cbn [mbind result_bind]. split; [|split].
  - intros Hs. f_equal. unfold df_drop. rewrite labels_reverse.
    by rewrite filter_cons_True by done.
  - intros Hs Hu. f_equal. unfold df_drop. rewrite labels_reverse.
    rewrite filter_cons_False by (intros Hn; by apply Hn).
    by rewrite filter_cons_True by done.
  - intros Hs Hu Hdate. f_equal. rewrite df_drop_run.
    2:{ rewrite labels_reverse. by repeat constructor. }
    cbn [mbind result_bind]. unfold df_set_index.
    rewrite df_getitem_absent; [done|].
    unfold labels, df_map_columns, df_reverse. cbn [df_columns].
    rewrite fmap_fst_prod_map. intros Hin.
    apply list_elem_of_fmap in Hin as (l & Hl & Hin).
    rewrite labels_filter_notin in Hin. apply list_elem_of_filter in Hin as [_ Hin].
    rewrite fmap_fst_prod_map, list_fmap_id in Hin. by apply (Hdate l).
Qed.

Lemma fetch_gemini_missing_column_witness :
  fetch_gemini sample_world init "BTC" "USD" "d" []
  = (Raise (KeyError "Symbol"), [] ++ [gemini_url init "BTC" "USD" "d"]).
Proof.
  apply (proj1 (fetch_gemini_missing_column sample_world init "BTC" "USD" "d" []
                  sample_lines sample_table eq_refl eq_refl)).
  by_compute.
Defined.

(** ** The Gemini routine: two spellings of the hours *)

Lemma endswith_hr p : endswith (p +:+ "hr") "h" = false.
Proof.
  unfold endswith. rewrite bool_decide_eq_false. intros [k Hk].
  rewrite list_ascii_of_string_app in Hk.
  change (list_ascii_of_string "hr") with (["h"%char] ++ ["r"%char]) in Hk.
  change (list_ascii_of_string "h") with ["h"%char] in Hk.
  rewrite app_assoc in Hk. apply app_inj_tail in Hk as [_ Hk]. discriminate.
Qed.

(** X13.  A time frame written with "hr" is the time frame written with
    "h": for every prefix [p], [fetch_gemini] with [p ++ "hr"] does what it
    does with [p ++ "h"], the same request and the same outcome. *)
Theorem fetch_gemini_hr_alias w self b q p :
  fetch_gemini w self b q (p +:+ "hr") = fetch_gemini w self b q (p +:+ "h").
Proof.
  unfold fetch_gemini.
  rewrite endswith_hr, (proj2 (endswith_h (p +:+ "h"))) by (by exists p).
  by rewrite drop_last_h.
Qed.

(** ** The Mofid routine: what it does not look at *)

(** X14.  [fetch_mofid] looks neither at the quote symbol, nor at the
    time frame, nor at the [url] of the instance: two calls with the same
    base symbol make the same request and end the same way. *)
Theorem fetch_mofid_ignores_quote w self self' b q q' tf tf' tr :
  fetch_mofid w self b q tf tr = fetch_mofid w self' b q' tf' tr.
Proof. by rewrite !fetch_mofid_run. Qed.

(** ** The Mofid routine: the failures that come first *)

(** X15.  An exception of the transport or of the JSON decoder is the
    exception of [fetch_mofid]; a decoded object without a member ["t"]
    (the service's answer when it has no data) makes it raise [KeyError]
    for ["t"].  In each case the one request has been made and nothing
    else. *)
Theorem fetch_mofid_failures w self b q tf tr :
  (forall e, http_body w (mofid_url w b) = Raise e ->
     fetch_mofid w self b q tf tr = (Raise e, tr ++ [mofid_url w b]))
  /\ (forall raw e, http_body w (mofid_url w b) = Ok raw -> parse_json w raw = Raise e ->
        fetch_mofid w self b q tf tr = (Raise e, tr ++ [mofid_url w b]))
  /\ (forall raw members,
        http_body w (mofid_url w b) = Ok raw -> parse_json w raw = Ok (PDict members) ->
        dict_get members "t" = None ->
        fetch_mofid w self b q tf tr = (Raise (KeyError "t"), tr ++ [mofid_url w b])).
Proof.
  rewrite fetch_mofid_run. split; [|split].
  - by intros e ->.
  - intros raw e -> Hjson. cbn [mbind result_bind]. unfold json_loads. by rewrite Hjson.
  - intros raw members -> Hjson Ht. cbn [mbind result_bind]. unfold json_loads.
    rewrite Hjson. cbn [mbind result_bind]. unfold mofid_rows. cbn [getitem_key].
    by rewrite Ht.
Qed.

Lemma fetch_mofid_failures_witness :
  fetch_mofid (chart_world no_data_response 0) init "IKCO1" "IRR" "1" []
  = (Raise (KeyError "t"), [] ++ [mofid_url (chart_world no_data_response 0) "IKCO1"]).
Proof.
  exact (proj2 (proj2 (fetch_mofid_failures (chart_world no_data_response 0) init "IKCO1"
                         "IRR" "1" []))
           ["{...}"%string] [("s"%string, PStr "no_data")] eq_refl eq_refl eq_refl).
Defined.

(** ** The Mofid routine: arrays of unequal length *)

Lemma for_range_fails {A : Type} (body : A -> nat -> result A) e m :
  forall count acc start,
    (forall a i, (start <= i < m)%nat -> exists a', body a i = Ok a') ->
    (forall a, body a m = Raise e) ->
    (start <= m < start + count)%nat ->
    for_range body acc start count = Raise e.
Proof.
  induction count as [|count IH]; intros acc start Hok Hfail Hm; [lia|].
  cbn [for_range]. destruct (decide (start = m)) as [-> | Hne].
  - by rewrite Hfail.
  - destruct (Hok acc start) as [a' ->]; [lia|]. cbn [mbind result_bind].
    apply IH; [|done|lia]. intros a i Hi. apply Hok. lia.
Qed.

Lemma getitem_index_short items i :
  (length items <= i)%nat -> getitem_index (PList items) i = Raise IndexError.
Proof. intros H. cbn [getitem_index]. by rewrite lookup_ge_None_2. Qed.

Section Ragged.
Context (w : World) (bv : string) (json : pyval).
Context (ts : list Z) (os hs ls cs vs : list pyval).
Hypothesis Ht : getitem_key json "t" = Ok (PList (PInt <$> ts)).
Hypothesis Ho : getitem_key json "o" = Ok (PList os).
Hypothesis Hh : getitem_key json "h" = Ok (PList hs).
Hypothesis Hl : getitem_key json "l" = Ok (PList ls).
Hypothesis Hc : getitem_key json "c" = Ok (PList cs).
Hypothesis Hv : getitem_key json "v" = Ok (PList vs).
Hypothesis Hok : Forall (fun t => exists s, local_time (zone w) t = Ok s) ts.

(** One turn of the loop, on any frame: the row is appended when every
    array reaches the index, and [IndexError] is raised when one of
    ["o"], ["h"], ["l"], ["c"], ["v"] does not. *)
Lemma mofid_row_turn df k :
  (k < length ts)%nat ->
  if decide (k < length os /\ k < length hs /\ k < length ls /\ k < length cs
             /\ k < length vs)%nat
  then exists df', mofid_row w bv json df k = Ok df'
  else mofid_row w bv json df k = Raise IndexError.
Proof.
  intros Hk. unfold mofid_row.
  destruct (lookup_lt_is_Some_2 ts k Hk) as [t Et].
  rewrite Ht, Ho, Hh, Hl, Hc, Hv. cbn [mbind result_bind].
  rewrite (getitem_index_list (PInt <$> ts) k (PInt t))
    by (by rewrite list_lookup_fmap, Et).
  cbn [mbind result_bind py_int]. unfold fromtimestamp.
  destruct (Forall_lookup_1 _ _ _ _ Hok Et) as [s ->].
  cbn [fmap result_fmap mbind result_bind].
  destruct (le_lt_dec (length os) k) as [So | Lo].
  { rewrite (getitem_index_short os) by done. case_decide; [lia | done]. }
  destruct (lookup_lt_is_Some_2 os k Lo) as [o Eo].
  rewrite (getitem_index_list _ _ _ Eo). cbn [mbind result_bind].
  destruct (le_lt_dec (length hs) k) as [Sh | Lh].
  { rewrite (getitem_index_short hs) by done. case_decide; [lia | done]. }
  destruct (lookup_lt_is_Some_2 hs k Lh) as [h Eh].
  rewrite (getitem_index_list _ _ _ Eh). cbn [mbind result_bind].
  destruct (le_lt_dec (length ls) k) as [Sl | Ll].
  { rewrite (getitem_index_short ls) by done. case_decide; [lia | done]. }
  destruct (lookup_lt_is_Some_2 ls k Ll) as [l El].
  rewrite (getitem_index_list _ _ _ El). cbn [mbind result_bind].
  destruct (le_lt_dec (length cs) k) as [Sc | Lc].
  { rewrite (getitem_index_short cs) by done. case_decide; [lia | done]. }
  destruct (lookup_lt_is_Some_2 cs k Lc) as [c Ec].
  rewrite (getitem_index_list _ _ _ Ec). cbn [mbind result_bind].
  destruct (le_lt_dec (length vs) k) as [Sv | Lv].
  { rewrite (getitem_index_short vs) by done. case_decide; [lia | done]. }
  destruct (lookup_lt_is_Some_2 vs k Lv) as [v Ev].
  rewrite (getitem_index_list _ _ _ Ev). cbn [mbind result_bind].
  case_decide; [by eexists | lia].
Qed.

Lemma mofid_rows_ragged :
  (Nat.min (length os)
     (Nat.min (length hs) (Nat.min (length ls) (Nat.min (length cs) (length vs))))
   < length ts)%nat ->
  mofid_rows w bv json = Raise IndexError.
Proof.
  set (m := Nat.min _ _). intros Hm. unfold mofid_rows.
  rewrite Ht. cbn [mbind result_bind py_len]. rewrite length_fmap.
  apply (for_range_fails _ _ m); [| |lia].
  - intros df i Hi. pose proof (mofid_row_turn df i ltac:(lia)) as Hturn.
    case_decide; [done | lia].
  - intros df. pose proof (mofid_row_turn df m Hm) as Hturn.
    case_decide; [lia | done].
Qed.
End Ragged.

(** X16.  When the response has the six arrays, the interpreter reads
    every instant of ["t"] in the local zone, and one of ["o"], ["h"],
    ["l"], ["c"], ["v"] is shorter than ["t"], [fetch_mofid] raises
    [IndexError]: the rows before the first missing entry are built, the
    next one is not. *)
Theorem fetch_mofid_short_array w self b q tf tr raw json ts os hs ls cs vs :
  http_body w (mofid_url w b) = Ok raw ->
  parse_json w raw = Ok json ->
  getitem_key json "t" = Ok (PList (PInt <$> ts)) ->
  getitem_key json "o" = Ok (PList os) ->
  getitem_key json "h" = Ok (PList hs) ->
  getitem_key json "l" = Ok (PList ls) ->
  getitem_key json "c" = Ok (PList cs) ->
  getitem_key json "v" = Ok (PList vs) ->
  Forall (fun t => exists s, local_time (zone w) t = Ok s) ts ->
  (Nat.min (length os)
     (Nat.min (length hs) (Nat.min (length ls) (Nat.min (length cs) (length vs))))
   < length ts)%nat ->
  fetch_mofid w self b q tf tr = (Raise IndexError, tr ++ [mofid_url w b]).
Proof.
  intros Hbody Hjson Ht Ho Hh Hl Hc Hv Hok Hshort.
  rewrite fetch_mofid_run, Hbody. cbn [mbind result_bind]. unfold json_loads.
  rewrite Hjson. cbn [mbind result_bind].
  by rewrite (mofid_rows_ragged w _ json ts os hs ls cs vs).
Qed.

Lemma fetch_mofid_short_array_witness :
  fetch_mofid (chart_world short_response 0) init "IKCO1" "IRR" "1" []
  = (Raise IndexError, [] ++ [mofid_url (chart_world short_response 0) "IKCO1"]).
Proof.
  apply (fetch_mofid_short_array (chart_world short_response 0) init "IKCO1" "IRR" "1" []
           ["{...}"%string] short_response [1661331600; 1661331660] [PInt 5200]
           [PInt 5250; PInt 5260] [PInt 5190; PInt 5200] [PInt 5240; PInt 5250]
           [PInt 120000; PInt 90000]);
    try reflexivity.
  - repeat constructor; by eexists.
  - simpl. lia.
Defined.

(** ** One call, one request *)

Lemma fetch_default_trace w self ex b q tf iav tr :
  (fetch_default w self ex b q tf iav tr).2 = tr ++ [default_url self ex b q tf].
Proof.
  unfold fetch_default. cbv zeta. fold (default_url self ex b q tf).
  rewrite io_bind_lift, read_csv_run.
  destruct (http_body w _) as [body|]; [|done]. cbn [mbind result_bind].
  by destruct (parse_csv w _).
Qed.

(** X17.  Every call of [fetch], whether it returns or raises and
    whatever it raises, makes exactly one request and leaves the record of
    earlier requests as it was: for the Gemini file when the exchange name
    is "gemini" in any casing, for the charting service when it is "mofid",
    and otherwise for the file named after the exchange name as given, its
    case kept.  Nothing is requested twice and no other locator is
    tried. *)
Theorem fetch_one_request w self ex b q tf iav tr :
  (fetch w self ex b q tf iav tr).2
  = tr ++ [if caseless_eq ex "gemini" then gemini_url self b q tf
           else if caseless_eq ex "mofid" then mofid_url w b
           else default_url self ex b q tf].
Proof.
  destruct (fetch_by_name w self ex b q tf iav) as (Hg & Hm & Hd).
  destruct (caseless_eq ex "gemini") eqn:Eg.
  - rewrite Hg by done. apply fetch_gemini_trace.
  - destruct (caseless_eq ex "mofid") eqn:Em.
    + rewrite Hm by done. by rewrite fetch_mofid_run.
    + rewrite Hd by done. apply fetch_default_trace.
Qed.
